(** * StarCraft II Copilot: game-state synthesis and reminder decisions

    A shallow embedding of [src/OCR_Analysis.py] (class [OCRAnalysis]) and
    [src/ReminderEngine.py] (class [ReminderEngine]), with the properties
    of the two classes stated and proved over it.

    Conventions of the embedding.
    - Python [int] is [Z].
    - Python [float] values (the supply ratio [used / cap], the configured
      thresholds, the readings of [time.time()]) are exact rationals [Q].
      Rounding is not modelled; for the ratio tests against 0.85, 0.9 and
      0.95 the exact comparison and the double-precision one agree as long
      as the integers involved stay below 10^14 in magnitude.
    - Python [str] is [string]: characters are 8-bit, the digits are the
      ten ASCII digits, and [int()] is the mathematical conversion (the
      text produced by the OCR back end is taken to be ASCII).
    - A [dict] read with [.get(key, default)] is a [gmap string _]; a dict
      with a fixed set of keys is a record.
    - Mutation of [self] is explicit state passing.  The wall clock and
      the notification back end are an environment: the state counts the
      clock readings taken so far and lists the calls made to the back
      end.
    - Logging is not modelled. *)

From Stdlib Require Import ZArith QArith Lqa Ascii.
From stdpp Require Import gmap strings list pretty.

(** ** Python text primitives used by the two classes *)
Module Py.

(** [str.isdigit] on one character. *)
Definition isdigit (c : ascii) : bool :=
  match Ascii.is_nat c with Some _ => true | None => false end.

Definition digit_value (c : ascii) : Z :=
  match Ascii.is_nat c with Some d => Z.of_nat d | None => 0 end.

(** Whitespace removed by [str.strip()] (ASCII range). *)
Definition isspace (c : ascii) : bool :=
  match c with
  | "009" | "010" | "011" | "012" | "013"
  | "028" | "029" | "030" | "031" | " " => true
  | _ => false
  end%char.

(** Whitespace skipped by [int()] around the literal. *)
Definition int_space (c : ascii) : bool :=
  match c with
  | "009" | "010" | "011" | "012" | "013" | " " => true
  | _ => false
  end%char.

Fixpoint drop_while (p : ascii → bool) (s : string) : string :=
  match s with
  | String c s' => if p c then drop_while p s' else s
  | EmptyString => EmptyString
  end.

Definition strip_with (p : ascii → bool) (s : string) : string :=
  String.rev (drop_while p (String.rev (drop_while p s))).

(** [s.strip()] *)
Definition strip : string → string := strip_with isspace.

(** [''.join(filter(str.isdigit, s))] *)
Fixpoint filter_digits (s : string) : string :=
  match s with
  | String c s' =>
      if isdigit c then String c (filter_digits s') else filter_digits s'
  | EmptyString => EmptyString
  end.

(** Value of a string of decimal digits, most significant first. *)
Fixpoint digits_value (acc : Z) (s : string) : Z :=
  match s with
  | String c s' => digits_value (10 * acc + digit_value c) s'
  | EmptyString => acc
  end.

(** The digit part of an integer literal: digits, single underscores
    allowed between two digits. *)
Fixpoint digitpart_ok (s : string) : bool :=
  match s with
  | String c s' =>
      isdigit c &&
      match s' with
      | EmptyString => true
      | String "_"%char s'' => digitpart_ok s''
      | String _ _ => digitpart_ok s'
      end
  | EmptyString => false
  end.

Definition unsigned_int (s : string) : option Z :=
  if digitpart_ok s then Some (digits_value 0 (filter_digits s)) else None.

(** [int(s)] in base ten; [None] stands for [ValueError]. *)
Definition int (s : string) : option Z :=
  match strip_with int_space s with
  | String "-"%char s' => Z.opp <$> unsigned_int s'
  | String "+"%char s' => unsigned_int s'
  | s' => unsigned_int s'
  end.

(** [s.split(sep)] for a one-character separator. *)
Fixpoint split_go (sep : ascii) (cur : string) (s : string) : list string :=
  match s with
  | String c s' =>
      if decide (c = sep) then cur :: split_go sep EmptyString s'
      else split_go sep (cur +:+ String c EmptyString) s'
  | EmptyString => [cur]
  end.

Definition split (sep : ascii) (s : string) : list string :=
  split_go sep EmptyString s.

(** [c in s] *)
Fixpoint contains (c : ascii) (s : string) : bool :=
  match s with
  | String c' s' => if decide (c' = c) then true else contains c s'
  | EmptyString => false
  end.

Definition flush (cur : string) : list string :=
  match cur with EmptyString => [] | _ => [cur] end.

(** [re.findall(r'\d+', s)]: the maximal runs of digits, left to right. *)
Fixpoint findall_digits_go (cur : string) (s : string) : list string :=
  match s with
  | String c s' =>
      if isdigit c then findall_digits_go (cur +:+ String c EmptyString) s'
      else flush cur ++ findall_digits_go EmptyString s'
  | EmptyString => flush cur
  end.

Definition findall_digits (s : string) : list string :=
  findall_digits_go EmptyString s.

(** [re.match(r'(\d{1,2}):(\d{2})', s)]: the pattern anchored at the
    start of [s]; the greedy two-digit alternative is tried first. *)
Definition match_timer (s : string) : option string :=
  match s with
  | String a (String b rest) =>
      if isdigit a then
        match b, rest with
        | ":"%char, String c (String d _) =>
            if isdigit c && isdigit d
            then Some (String a (String b (String c (String d EmptyString))))
            else None
        | _, String ":"%char (String c (String d _)) =>
            if isdigit b && isdigit c && isdigit d
            then Some (String a (String b (String ":"%char
                         (String c (String d EmptyString)))))
            else None
        | _, _ => None
        end
      else None
  | _ => None
  end.

(** [re.search(r'(\d{1,2}):(\d{2})', s)], returning [group(0)] of the
    leftmost match. *)
Fixpoint search_timer (s : string) : option string :=
  match match_timer s with
  | Some m => Some m
  | None =>
      match s with
      | String _ s' => search_timer s'
      | EmptyString => None
      end
  end.

End Py.

(** ** [OCR_Analysis.py]: class [OCRAnalysis] *)
Module OCRAnalysis.

(** [self.last_known_state], a dict with five fixed keys. *)
Module Cache.
Record t := mk {
  minerals : Z;
  gas : Z;
  supply_used : Z;
  supply_cap : Z;
  game_time : string }.
End Cache.

(** The dict returned by [get_game_state]. *)
Module State.
Record t := mk {
  resources : gmap string Z;
  supply : gmap string Z;
  game_time : string;
  warnings : list string }.
End State.

(** The instance: its only attribute is the cache. *)
Record t := mk { last_known_state : Cache.t }.

(** [OCRAnalysis.__init__] *)
Definition init : t :=
  {| last_known_state :=
       {| Cache.minerals := 0; Cache.gas := 0;
          Cache.supply_used := 0; Cache.supply_cap := 0;
          Cache.game_time := "00:00" |} |}.

Definition set_resources (m g : Z) (self : t) : t :=
  let c := last_known_state self in
  {| last_known_state :=
       {| Cache.minerals := m; Cache.gas := g;
          Cache.supply_used := Cache.supply_used c;
          Cache.supply_cap := Cache.supply_cap c;
          Cache.game_time := Cache.game_time c |} |}.

Definition set_supply (u c' : Z) (self : t) : t :=
  let c := last_known_state self in
  {| last_known_state :=
       {| Cache.minerals := Cache.minerals c; Cache.gas := Cache.gas c;
          Cache.supply_used := u; Cache.supply_cap := c';
          Cache.game_time := Cache.game_time c |} |}.

Definition set_game_time (g : string) (self : t) : t :=
  let c := last_known_state self in
  {| last_known_state :=
       {| Cache.minerals := Cache.minerals c; Cache.gas := Cache.gas c;
          Cache.supply_used := Cache.supply_used c;
          Cache.supply_cap := Cache.supply_cap c;
          Cache.game_time := g |} |}.

(** [extract_numbers]: [int] of a digit run is its decimal value. *)
Definition extract_numbers (text : string) : list Z :=
  Py.digits_value 0 <$> Py.findall_digits text.

(** [detect_supply_block], [threshold] defaulting to 0.9. *)
Definition detect_supply_block (supply_data : gmap string Z)
    (threshold : Q) : bool :=
  let supply_used := default 0%Z (supply_data !! "supply_used") in
  let supply_cap := default 200%Z (supply_data !! "supply_cap") in
  if decide (supply_cap = 0%Z) then false
  else
    let ratio := (inject_Z supply_used / inject_Z supply_cap)%Q in
    Qle_bool threshold ratio.

(** [detect_resource_overflow], [threshold] defaulting to 1000. *)
Definition detect_resource_overflow (resource_data : gmap string Z)
    (threshold : Z) : list string :=
  let minerals := default 0%Z (resource_data !! "minerals") in
  let gas := default 0%Z (resource_data !! "gas") in
  (if decide (threshold < minerals)%Z then ["minerals"] else []) ++
  (if decide (threshold < gas)%Z then ["gas"] else []).

Section WithOCR.
(** Captured images, and the OCR back end
    [pytesseract.image_to_string(self.preprocess_image(image), ...)];
    [None] when preprocessing or recognition raises. *)
Context {Image : Type}.
Variable image_to_string : Image → option string.

(** [extract_text]: the exception is caught and gives the empty text. *)
Definition extract_text (image : Image) : string :=
  match image_to_string image with
  | Some text => Py.strip text
  | None => ""
  end.

(** [analyze_resources] *)
Definition analyze_resources (image : Image) (self : t)
    : gmap string Z * t :=
  let text := extract_text image in
  let numbers := extract_numbers text in
  let result : gmap string Z :=
    {[ "minerals" := Cache.minerals (last_known_state self);
       "gas" := Cache.gas (last_known_state self) ]} in
  match numbers with
  | n0 :: n1 :: _ =>
      (<["gas" := n1]> (<["minerals" := n0]> result),
       set_resources n0 n1 self)
  | _ => (result, self)
  end.

(** [analyze_supply] *)
Definition analyze_supply (image : Image) (self : t)
    : gmap string Z * t :=
  let text := extract_text image in
  let result : gmap string Z :=
    {[ "supply_used" := Cache.supply_used (last_known_state self);
       "supply_cap" := Cache.supply_cap (last_known_state self) ]} in
  if Py.contains "/" text then
    match Py.split "/" text with
    | [p0; p1] =>
        match Py.int (Py.filter_digits p0) with
        | Some supply_used =>
            match Py.int (Py.filter_digits p1) with
            | Some supply_cap =>
                (<["supply_cap" := supply_cap]>
                   (<["supply_used" := supply_used]> result),
                 set_supply supply_used supply_cap self)
            | None => (result, self)
            end
        | None => (result, self)
        end
    | _ => (result, self)
    end
  else (result, self).

(** [analyze_game_time] *)
Definition analyze_game_time (image : Image) (self : t) : string * t :=
  let text := extract_text image in
  match Py.search_timer text with
  | Some game_time => (game_time, set_game_time game_time self)
  | None => (Cache.game_time (last_known_state self), self)
  end.

(** [get_game_state] *)
Definition get_game_state (resource_img supply_img timer_img : option Image)
    (self : t) : State.t * t :=
  let resources0 : gmap string Z := {[ "minerals" := 0%Z; "gas" := 0%Z ]} in
  let supply0 : gmap string Z :=
    {[ "supply_used" := 0%Z; "supply_cap" := 200%Z ]} in
  let game_time0 : string := "00:00" in
  let '(resources, self) :=
    match resource_img with
    | Some img => analyze_resources img self
    | None => (resources0, self)
    end in
  let '(supply, self) :=
    match supply_img with
    | Some img => analyze_supply img self
    | None => (supply0, self)
    end in
  let '(game_time, self) :=
    match timer_img with
    | Some img => analyze_game_time img self
    | None => (game_time0, self)
    end in
  let warnings :=
    (if detect_supply_block supply 0.9 then ["supply_block"] else []) ++
    ((λ res, res +:+ "_overflow") <$> detect_resource_overflow resources 1000)
  in
  ({| State.resources := resources; State.supply := supply;
      State.game_time := game_time; State.warnings := warnings |}, self).
End WithOCR.

End OCRAnalysis.

(** ** [ReminderEngine.py]: class [ReminderEngine] *)
Module ReminderEngine.

(** [self.config] *)
Record Config := mkConfig {
  supply_warning_threshold : Q;
  supply_critical_threshold : Q;
  resource_overflow_threshold : Z;
  worker_ideal_count : gmap string Z;
  upgrade_reminder_interval : Z;
  amon_attack_wave_intervals : list Z }.

(** One entry of [self.reminder_history]; the ISO timestamp is kept as
    the clock reading it is printed from. *)
Module Entry.
Record t := mk {
  timestamp : Q;
  type : string;
  message : string;
  urgency : string }.
End Entry.

(** The keyword arguments of one call of [notification.notify]. *)
Module Notify.
Record t := mk {
  title : string;
  message : string;
  app_name : string;
  timeout : Z }.
End Notify.

(** The dict returned by [check_amon_attack_wave]. *)
Module Wave.
Record t := mk {
  wave_number : Z;
  time_until : Z;
  message : string }.
End Wave.

(** The [game_state] dict read by [process_game_state]; a missing key
    is [None]. *)
Module GameState.
Record t := mk {
  resources : option (gmap string Z);
  supply : option (gmap string Z);
  game_time : option string;
  upgrades : option (gmap string Z);
  mode : option string }.
End GameState.

(** The dict of categorized reminders returned by [process_game_state]. *)
Module Reminders.
Record t := mk {
  supply : list string;
  resources : list string;
  workers : list string;
  upgrades : list string;
  attacks : list string;
  tips : list string }.
End Reminders.

(** The instance attributes. *)
Record t := mk {
  enable_notifications : bool;
  reminder_history : list Entry.t;
  cooldowns : gmap string Q;
  default_cooldown : Q;
  config : Config }.

Definition default_config : Config :=
  {| supply_warning_threshold := 0.85;
     supply_critical_threshold := 0.95;
     resource_overflow_threshold := 1000;
     worker_ideal_count := {[ "early" := 16%Z; "mid" := 22%Z; "late" := 24%Z ]};
     upgrade_reminder_interval := 120;
     amon_attack_wave_intervals := [240; 480; 720; 960]%Z |}.

(** [ReminderEngine.__init__] *)
Definition init (enable_notifications : bool) : t :=
  {| enable_notifications := enable_notifications;
     reminder_history := [];
     cooldowns := ∅;
     default_cooldown := 30;
     config := default_config |}.

(** The engine together with what it has consumed from its
    environment: the number of clock readings taken so far and the calls
    made to the notification back end, oldest first. *)
Record World := mkWorld {
  self : t;
  clock_reads : nat;
  notify_calls : list Notify.t }.

Definition boot (enable_notifications : bool) : World :=
  {| self := init enable_notifications; clock_reads := 0; notify_calls := [] |}.

Definition M (A : Type) : Type := World → A * World.

Definition ret {A} (a : A) : M A := λ w, (a, w).

Definition bind {A B} (m : M A) (k : A → M B) : M B :=
  λ w, let '(a, w') := m w in k a w'.

Declare Scope engine_scope.
Delimit Scope engine_scope with engine.
Notation "x ← m ; k" := (bind m (λ x, k))
  (at level 20, m at level 100, k at level 200, only parsing) : engine_scope.
Notation "m ;; k" := (bind m (λ _, k))
  (at level 100, k at level 200, only parsing, right associativity)
  : engine_scope.
Local Open Scope engine_scope.

Definition get_self : M t := λ w, (self w, w).

Definition put_self (e : t) : M unit :=
  λ w, (tt, {| self := e; clock_reads := clock_reads w;
               notify_calls := notify_calls w |}).

Definition set_cooldown (reminder_type : string) (at_time : Q) (e : t) : t :=
  {| enable_notifications := enable_notifications e;
     reminder_history := reminder_history e;
     cooldowns := <[reminder_type := at_time]> (cooldowns e);
     default_cooldown := default_cooldown e;
     config := config e |}.

Definition append_history (r : Entry.t) (e : t) : t :=
  {| enable_notifications := enable_notifications e;
     reminder_history := reminder_history e ++ [r];
     cooldowns := cooldowns e;
     default_cooldown := default_cooldown e;
     config := config e |}.

(** [f"{a}{n}"] and the like: decimal printing of an integer. *)
Definition str (n : Z) : string := pretty n.

Section WithEnvironment.
(** [clock k] is the value of the [k]-th reading of the wall clock
    ([time.time()], [datetime.now()]); [notify_ok k] tells whether the
    [k]-th call of [notification.notify] returns ([true]) or raises
    ([false]). *)
Variable clock : nat → Q.
Variable notify_ok : nat → bool.

(** [time.time()] / [datetime.now()] *)
Definition time_time : M Q :=
  λ w, (clock (clock_reads w),
        {| self := self w; clock_reads := S (clock_reads w);
           notify_calls := notify_calls w |}).

(** [notification.notify(...)]: the call is recorded, the result says
    whether it returned. *)
Definition notification_notify (n : Notify.t) : M bool :=
  λ w, (notify_ok (length (notify_calls w)),
        {| self := self w; clock_reads := clock_reads w;
           notify_calls := notify_calls w ++ [n] |}).

(** [_can_send_reminder] *)
Definition _can_send_reminder (reminder_type : string) : M bool :=
  current_time ← time_time;
  e ← get_self;
  let in_cooldown :=
    match cooldowns e !! reminder_type with
    | Some last_time =>
        if Qlt_le_dec (current_time - last_time) (default_cooldown e)
        then true else false
    | None => false
    end in
  if in_cooldown then ret false
  else
    put_self (set_cooldown reminder_type current_time e);;
    ret true.

(** [_send_notification]; [try ... except Exception] lets both outcomes
    of the call continue with the history append. *)
Definition _send_notification (title message urgency : string) : M unit :=
  e ← get_self;
  if negb (enable_notifications e) then ret tt
  else
    _ ← notification_notify
          {| Notify.title := title; Notify.message := message;
             Notify.app_name := "SC2 Copilot"; Notify.timeout := 5 |};
    now ← time_time;
    e ← get_self;
    put_self (append_history
                {| Entry.timestamp := now; Entry.type := title;
                   Entry.message := message; Entry.urgency := urgency |} e).

(** [check_supply] *)
Definition check_supply (supply_data : gmap string Z) : M (option string) :=
  let supply_used := default 0%Z (supply_data !! "supply_used") in
  let supply_cap := default 200%Z (supply_data !! "supply_cap") in
  if decide (supply_cap = 0%Z) then ret None
  else
    let ratio := (inject_Z supply_used / inject_Z supply_cap)%Q in
    e ← get_self;
    if Qle_bool (supply_critical_threshold (config e)) ratio then
      ok ← _can_send_reminder "supply_critical";
      if ok then
        let message :=
          "⚠️ SUPPLY BLOCKED! " +:+ str supply_used +:+ "/" +:+ str supply_cap in
        _send_notification "Supply Critical" message "critical";;
        ret (Some message)
      else ret None
    else if Qle_bool (supply_warning_threshold (config e)) ratio then
      ok ← _can_send_reminder "supply_warning";
      if ok then
        let message :=
          "⚠️ Supply Warning: " +:+ str supply_used +:+ "/" +:+ str supply_cap in
        _send_notification "Build Supply" message "normal";;
        ret (Some message)
      else ret None
    else ret None.

(** [check_resources] *)
Definition check_resources (resource_data : gmap string Z)
    (game_time_seconds : Z) : M (list string) :=
  let reminders : list string := [] in
  let minerals := default 0%Z (resource_data !! "minerals") in
  let gas := default 0%Z (resource_data !! "gas") in
  if decide (game_time_seconds < 180)%Z then ret reminders
  else
    e ← get_self;
    let threshold := resource_overflow_threshold (config e) in
    reminders ←
      (if decide (threshold < minerals)%Z then
         ok ← _can_send_reminder "mineral_overflow";
         if ok then
           let message :=
             "💎 High minerals: " +:+ str minerals +:+ " - Expand or build army!" in
           _send_notification "Resource Alert" message "normal";;
           ret (reminders ++ [message])
         else ret reminders
       else ret reminders);
    reminders ←
      (if decide (threshold < gas)%Z then
         ok ← _can_send_reminder "gas_overflow";
         if ok then
           let message :=
             "⛽ High gas: " +:+ str gas +:+ " - Tech up or build advanced units!" in
           _send_notification "Resource Alert" message "normal";;
           ret (reminders ++ [message])
         else ret reminders
       else ret reminders);
    ret reminders.


(** The local table of [check_upgrade_timing], in insertion order. *)
Definition upgrade_timings : list (Z * string) :=
  [ (300%Z, "Consider starting +1 attack/armor upgrades");
    (480%Z, "Time for +2 upgrades if +1 is done");
    (720%Z, "Consider +3 upgrades if +2 is complete") ].

(** The [for ... in upgrade_timings.items()] loop of
    [check_upgrade_timing]; firing ends the loop ([break]). *)
Fixpoint upgrade_loop (game_time_seconds : Z) (items : list (Z * string))
    (reminders : list string) : M (list string) :=
  match items with
  | (timing, message) :: items' =>
      let reminder_key := "upgrade_" +:+ str timing in
      if decide (timing ≤ game_time_seconds)%Z then
        ok ← _can_send_reminder reminder_key;
        if ok then
          _send_notification "Upgrade Reminder" ("⬆️ " +:+ message) "normal";;
          ret (reminders ++ [message])
        else upgrade_loop game_time_seconds items' reminders
      else upgrade_loop game_time_seconds items' reminders
  | [] => ret reminders
  end.

(** [check_upgrade_timing]; [current_upgrades] is not read. *)
Definition check_upgrade_timing (game_time_seconds : Z)
    (current_upgrades : gmap string Z) : M (list string) :=
  upgrade_loop game_time_seconds upgrade_timings [].

(** The [for i, wave_time in enumerate(wave_intervals)] loop of
    [check_amon_attack_wave], entered at index [i]. *)
Fixpoint wave_loop (game_time_seconds : Z) (i : nat) (waves : list Z)
    : M (option Wave.t) :=
  match waves with
  | wave_time :: waves' =>
      let time_until_wave := (wave_time - game_time_seconds)%Z in
      if decide (0 < time_until_wave ∧ time_until_wave ≤ 30)%Z then
        let reminder_key := "amon_wave_" +:+ str (Z.of_nat i) in
        ok ← _can_send_reminder reminder_key;
        if ok then
          let message :=
            "🚨 Attack wave incoming in " +:+ str time_until_wave +:+ "s!" in
          _send_notification "Amon Attack Warning" message "critical";;
          ret (Some {| Wave.wave_number := Z.of_nat i + 1;
                       Wave.time_until := time_until_wave;
                       Wave.message := message |})
        else wave_loop game_time_seconds (S i) waves'
      else wave_loop game_time_seconds (S i) waves'
  | [] => ret None
  end.

(** [check_amon_attack_wave]; [mission_type] is not read. *)
Definition check_amon_attack_wave (game_time_seconds : Z)
    (mission_type : string) : M (option Wave.t) :=
  e ← get_self;
  let wave_intervals := amon_attack_wave_intervals (config e) in
  wave_loop game_time_seconds 0 wave_intervals.

(** The local table of [get_commander_tip]. *)
Definition tips : gmap string (gmap string string) :=
  {[ "Raynor" :=
       {[ "early" := "Focus on orbital command calldowns for early aggression";
          "mid" := "Build bio ball with medics for sustained push";
          "late" := "Use battlecruiser calldowns on key targets" ]};
     "Kerrigan" :=
       {[ "early" := "Level up Kerrigan quickly with early assaults";
          "mid" := "Unlock Ultralisk and Omega Worm abilities";
          "late" := "Use Kerrigan's abilities to eliminate high-value targets" ]} ]}.

(** [get_commander_tip] *)
Definition get_commander_tip (commander_name : string) (prestige : Z)
    (game_phase : string) : M (option string) :=
  match tips !! commander_name ≫= (λ by_phase, by_phase !! game_phase) with
  | Some tip =>
      ok ← _can_send_reminder ("commander_tip_" +:+ game_phase);
      if ok then
        _send_notification (commander_name +:+ " Tip") ("💡 " +:+ tip) "normal";;
        ret (Some tip)
      else ret None
  | None => ret None
  end.

(** Truthiness of an optional string: [if supply_reminder:]. *)
Definition truthy (r : option string) : list string :=
  match r with
  | Some m => if decide (m = "") then [] else [m]
  | None => []
  end.

(** [process_game_state] *)
Definition process_game_state (game_state : GameState.t) : M Reminders.t :=
  let game_time_str := default "00:00" (GameState.game_time game_state) in
  let game_time_seconds :=
    match Py.split ":" game_time_str with
    | [m; s] =>
        match Py.int m, Py.int s with
        | Some minutes, Some seconds => (minutes * 60 + seconds)%Z
        | _, _ => 0%Z
        end
    | _ => 0%Z
    end in
  supply_reminder ← check_supply (default ∅ (GameState.supply game_state));
  resource_reminders ←
    check_resources (default ∅ (GameState.resources game_state))
      game_time_seconds;
  upgrade_reminders ←
    check_upgrade_timing game_time_seconds
      (default ∅ (GameState.upgrades game_state));
  attacks ←
    (if decide (GameState.mode game_state = Some "coop") then
       wave_info ← check_amon_attack_wave game_time_seconds "standard";
       ret (match wave_info with
            | Some info => [Wave.message info]
            | None => []
            end)
     else ret []);
  ret {| Reminders.supply := truthy supply_reminder;
         Reminders.resources := resource_reminders;
         Reminders.workers := [];
         Reminders.upgrades := upgrade_reminders;
         Reminders.attacks := attacks;
         Reminders.tips := [] |}.

(** [get_reminder_history]: the slice [self.reminder_history[-limit:]]. *)
Definition get_reminder_history (limit : Z) : M (list Entry.t) :=
  e ← get_self;
  let h := reminder_history e in
  let n := Z.of_nat (length h) in
  let start :=
    if decide (limit = 0)%Z then 0%Z
    else if decide (0 < limit)%Z then Z.max 0 (n - limit)
    else Z.min n (- limit) in
  ret (drop (Z.to_nat start) h).

(** [clear_cooldowns] *)
Definition clear_cooldowns : M unit :=
  e ← get_self;
  put_self {| enable_notifications := enable_notifications e;
              reminder_history := reminder_history e;
              cooldowns := ∅;
              default_cooldown := default_cooldown e;
              config := config e |}.
End WithEnvironment.

(** The state dict built by [OCRAnalysis.get_game_state], as
    [process_game_state] reads it: it has no ['upgrades'] and no ['mode']
    key. *)
Definition of_ocr_state (s : OCRAnalysis.State.t) : GameState.t :=
  {| GameState.resources := Some (OCRAnalysis.State.resources s);
     GameState.supply := Some (OCRAnalysis.State.supply s);
     GameState.game_time := Some (OCRAnalysis.State.game_time s);
     GameState.upgrades := None;
     GameState.mode := None |}.

End ReminderEngine.

(** ** Vocabulary of the specification

    Notions the properties are phrased with.  None of them is a function of
    the program; each is related to the code by a lemma below. *)
Module Spec.
Import ReminderEngine.
Local Open Scope engine_scope.



(** The pair parse of the specification: the first two digit runs, or
    absent.  The code has no function of that name; [analyze_resources]
    tests [len(numbers) >= 2] and reads [numbers[0]], [numbers[1]]. *)
Definition parse_pair (text : string) : option (Z * Z) :=
  match OCRAnalysis.extract_numbers text with
  | a :: b :: _ => Some (a, b)
  | _ => None
  end.

(** The world after one more clock reading and nothing else. *)
Definition tick (w : World) : World :=
  {| self := self w; clock_reads := S (clock_reads w);
     notify_calls := notify_calls w |}.

(** [key] fired less than the cooldown length before [now]. *)
Definition in_cooldown (now : Q) (e : t) (key : string) : Prop :=
  ∃ last_time, cooldowns e !! key = Some last_time ∧
               (now - last_time < default_cooldown e)%Q.

(** The cooldown table lets [key] fire at [now]. *)
Definition permits (now : Q) (e : t) (key : string) : Prop :=
  ¬ in_cooldown now e key.

Section WithEnvironment.
Variable clock : nat → Q.
Variable notify_ok : nat → bool.

(** The world after a permitted [_can_send_reminder key]: one clock
    reading, stored under [key]. *)
Definition stamped (key : string) (w : World) : World :=
  {| self := set_cooldown key (clock (clock_reads w)) (self w);
     clock_reads := S (clock_reads w);
     notify_calls := notify_calls w |}.

(** The world after [_send_notification] on an engine with
    notifications enabled: one call of the back end, one clock reading
    for the timestamp, one history entry. *)
Definition emitted (title message urgency : string) (w : World) : World :=
  {| self :=
       append_history
         {| Entry.timestamp := clock (clock_reads w); Entry.type := title;
            Entry.message := message; Entry.urgency := urgency |} (self w);
     clock_reads := S (clock_reads w);
     notify_calls :=
       notify_calls w ++
       [{| Notify.title := title; Notify.message := message;
           Notify.app_name := "SC2 Copilot"; Notify.timeout := 5 |}] |}.

(** One firing attempt, the shape shared by every advisory of the
    engine: [if self._can_send_reminder(key):
    self._send_notification(title, message, urgency)]. *)
Definition attempt (key title message urgency : string) : M bool :=
  ok ← _can_send_reminder clock key;
  if ok then
    _send_notification clock notify_ok title message urgency;;
    ret true
  else ret false.

(** Activity between two attempts on [key]: anything that leaves the
    entry of [key] and the cooldown length as they are. *)
Definition unrelated (key : string) (w w' : World) : Prop :=
  cooldowns (self w') !! key = cooldowns (self w) !! key ∧
  default_cooldown (self w') = default_cooldown (self w).

(** A run of the engine observed at [key]: the trace lists, oldest
    first, each attempt on [key] with the clock reading it took and
    whether it fired. *)
Inductive run (key : string) : World → list (Q * bool) → World → Prop :=
| run_start w : run key w [] w
| run_attempt w tr w' title message urgency :
    run key w tr w' →
    run key w
      (tr ++ [(clock (clock_reads w'),
               fst (attempt key title message urgency w'))])
      (snd (attempt key title message urgency w'))
| run_unrelated w tr w' w'' :
    run key w tr w' → unrelated key w' w'' → run key w tr w''.
End WithEnvironment.

(** The key of an upgrade threshold and of an attack wave. *)
Definition upgrade_key (timing : Z) : string := "upgrade_" +:+ str timing.
Definition wave_key (i : nat) : string := "amon_wave_" +:+ str (Z.of_nat i).

(** Number of thresholds among the first [j] of a table whose time has
    passed at [t]: the clock readings a scan has taken when it reaches
    entry [j] without having fired. *)
Definition passed (t : Z) (items : list (Z * string)) (j : nat) : nat :=
  length (filter (λ p, (p.1 ≤ t)%Z) (take j items)).

(** The clock readings of the attempts of a trace that fired. *)
Definition firings (tr : list (Q * bool)) : list Q :=
  fst <$> filter (λ a, snd a = true) tr.

(** Any two of the readings [times], taken in this order, lie at least
    [cd] apart: no window of length [cd] that opens at one of them
    holds a later one. *)
Definition spaced (cd : Q) (times : list Q) : Prop :=
  ∀ i j ti tj, i < j → times !! i = Some ti → times !! j = Some tj →
               (cd <= tj - ti)%Q.

(** Entries of the history and calls of the back end that belong to the
    attack-wave advisory. *)
Definition wave_entries (e : t) : list Entry.t :=
  filter (λ r, Entry.type r = "Amon Attack Warning") (reminder_history e).

Definition wave_calls (w : World) : list Notify.t :=
  filter (λ n, Notify.title n = "Amon Attack Warning") (notify_calls w).

(** Nothing of the attack-wave advisory changed between [w] and [w']:
    no wave key was stamped, no wave warning was recorded or sent, and
    the configuration is the same. *)
Definition wave_state_kept (w w' : World) : Prop :=
  (∀ s, cooldowns (self w') !! ("amon_wave_" +:+ s)
        = cooldowns (self w) !! ("amon_wave_" +:+ s)) ∧
  wave_entries (self w') = wave_entries (self w) ∧
  wave_calls w' = wave_calls w ∧
  default_cooldown (self w') = default_cooldown (self w) ∧
  config (self w') = config (self w).

(** A computation that keeps the wave state, from any world. *)
Definition keeps_wave_state {A} (m : M A) : Prop :=
  ∀ w, wave_state_kept w (snd (m w)).

(** The elapsed seconds that [process_game_state] computes from the
    ['game_time'] entry of the state. *)
Definition elapsed_seconds (game_state : GameState.t) : Z :=
  match Py.split ":" (default "00:00" (GameState.game_time game_state)) with
  | [m; s] =>
      match Py.int m, Py.int s with
      | Some minutes, Some seconds => (minutes * 60 + seconds)%Z
      | _, _ => 0%Z
      end
  | _ => 0%Z
  end.

End Spec.

(** ** Sample environments and inputs *)
Module Sample.
Import ReminderEngine.

(** A clock that advances one second per reading, from 1000. *)
Definition clk (n : nat) : Q := inject_Z (1000 + Z.of_nat n).

(** A clock that advances a minute per reading. *)
Definition slow_clk (n : nat) : Q := inject_Z (1000 + 60 * Z.of_nat n).

Definition delivers (_ : nat) : bool := true.
Definition raises (_ : nat) : bool := false.

(** Images are identified with the text the OCR back end reads off
    them; the image "!" makes the back end raise. *)
Definition read (img : string) : option string :=
  if decide (img = "!") then None else Some img.

Definition supply_190_200 : gmap string Z :=
  {[ "supply_used" := 190%Z; "supply_cap" := 200%Z ]}.

Definition minerals_1500 : gmap string Z := {[ "minerals" := 1500%Z ]}.

Definition state_at (game_time mode : string) : GameState.t :=
  {| GameState.resources := None; GameState.supply := None;
     GameState.game_time := Some game_time; GameState.upgrades := None;
     GameState.mode := Some mode |}.
End Sample.

(** ** [ScreenCapture.py]: class [ScreenCapture] *)
Module ScreenCapture.

(** A region dict with the keys ['left'], ['top'], ['width'], ['height']. *)
Module Region.
Record t := mk {
  left : Z;
  top : Z;
  width : Z;
  height : Z }.
End Region.

(** The instance: the primary monitor, the table of named regions, and
    the number of calls made to the screen grabber so far. *)
Record t := mk {
  monitor : Region.t;
  regions : gmap string (option Region.t);
  grabs : nat }.

(** [ScreenCapture.__init__]; [monitor] is [self.sct.monitors[1]]. *)
Definition init (monitor : Region.t) : t :=
  {| monitor := monitor;
     regions := {[ "resources" := None; "minimap" := None;
                   "command_card" := None; "unit_info" := None;
                   "timer" := None ]};
     grabs := 0 |}.

(** [set_region] *)
Definition set_region (name : string) (left top width height : Z)
    (self : t) : t :=
  {| monitor := monitor self;
     regions :=
       <[name := Some {| Region.left := left; Region.top := top;
                         Region.width := width; Region.height := height |}]>
         (regions self);
     grabs := grabs self |}.

(** [auto_detect_sc2_window] *)
Definition auto_detect_sc2_window (self : t) : bool * t :=
  let self := set_region "resources" 10 10 300 50 self in
  let self := set_region "minimap" 10 650 300 300 self in
  let self := set_region "command_card" 700 800 500 200 self in
  let self := set_region "unit_info" 1400 800 500 200 self in
  let self := set_region "timer" 860 10 200 40 self in
  (true, self).

(** [get_screen_resolution] *)
Definition get_screen_resolution (self : t) : Z * Z :=
  (Region.width (monitor self), Region.height (monitor self)).

Section WithScreen.
(** Captured images, and the screen grabber
    [np.array(Image.frombytes('RGB', ...sct.grab(region)...))]: [grab k r]
    is what the [k]-th call returns for region [r], [None] when it
    raises. *)
Context {Image : Type}.
Variable grab : nat → Region.t → option Image.

(** [capture_region]: the exception is caught and gives [None]. *)
Definition capture_region (region : Region.t) (self : t) : option Image * t :=
  (grab (grabs self) region,
   {| monitor := monitor self; regions := regions self;
      grabs := S (grabs self) |}).

(** [capture_screen] *)
Definition capture_screen (self : t) : option Image * t :=
  capture_region (monitor self) self.

(** [capture_named_region] *)
Definition capture_named_region (name : string) (self : t)
    : option Image * t :=
  match regions self !! name with
  | Some (Some region) => capture_region region self
  | Some None | None => (None, self)
  end.
End WithScreen.

End ScreenCapture.

(** ** [main.py]: the monitoring loop *)
Module Main.

(** The three modules that [main] builds, and the iteration counter. *)
Record App := mkApp {
  screen_capture : ScreenCapture.t;
  ocr_analysis : OCRAnalysis.t;
  reminder_engine : ReminderEngine.World;
  iteration : Z }.

(** [main] up to the loop: the modules are built, with notifications
    enabled, and the window is auto-detected. *)
Definition startup (monitor : ScreenCapture.Region.t) : App :=
  let screen_capture := ScreenCapture.init monitor in
  let ocr_analysis := OCRAnalysis.init in
  let reminder_engine := ReminderEngine.boot true in
  let '(_, screen_capture) :=
    ScreenCapture.auto_detect_sc2_window screen_capture in
  {| screen_capture := screen_capture; ocr_analysis := ocr_analysis;
     reminder_engine := reminder_engine; iteration := 0 |}.

Section WithEnvironment.
Context {Image : Type}.
Variable grab : nat → ScreenCapture.Region.t → option Image.
Variable image_to_string : Image → option string.
Variable clock : nat → Q.
Variable notify_ok : nat → bool.

(** One pass through the body of [while True]; the result is the snapshot
    and the reminders of the pass, when the resource capture succeeded. *)
Definition loop_body (app : App)
    : option (OCRAnalysis.State.t * ReminderEngine.Reminders.t) * App :=
  let iteration := (iteration app + 1)%Z in
  let '(resource_img, screen_capture) :=
    ScreenCapture.capture_named_region grab "resources" (screen_capture app) in
  let '(timer_img, screen_capture) :=
    ScreenCapture.capture_named_region grab "timer" screen_capture in
  match resource_img with
  | Some img =>
      let '(game_state, ocr_analysis) :=
        OCRAnalysis.get_game_state image_to_string
          (Some img) (Some img) timer_img (ocr_analysis app) in
      let '(reminders, reminder_engine) :=
        ReminderEngine.process_game_state clock notify_ok
          (ReminderEngine.of_ocr_state game_state) (reminder_engine app) in
      (Some (game_state, reminders),
       {| screen_capture := screen_capture; ocr_analysis := ocr_analysis;
          reminder_engine := reminder_engine; iteration := iteration |})
  | None =>
      (None,
       {| screen_capture := screen_capture; ocr_analysis := ocr_analysis app;
          reminder_engine := reminder_engine app; iteration := iteration |})
  end.

(** The first [n] passes of the loop. *)
Fixpoint loop (n : nat) (app : App) : App :=
  match n with
  | O => app
  | S n' => loop n' (snd (loop_body app))
  end.
End WithEnvironment.

End Main.

(** ** Further vocabulary: shapes of texts, well-formed caches, the ledger *)
Module Shape.
Import ReminderEngine.

(** Number of occurrences of a character. *)
Fixpoint count_char (c : ascii) (s : string) : nat :=
  match s with
  | String c' s' => (if decide (c' = c) then 1 else 0) + count_char c s'
  | EmptyString => 0
  end.

(** [sep.join(parts)] for a one-character separator. *)
Fixpoint join (sep : ascii) (parts : list string) : string :=
  match parts with
  | [] => EmptyString
  | [p] => p
  | p :: parts' => p +:+ String sep (join sep parts')
  end.

(** Every character is a digit. *)
Fixpoint all_digits (s : string) : bool :=
  match s with
  | String c s' => Py.isdigit c && all_digits s'
  | EmptyString => true
  end.

(** A game time as the timer pattern matches it: one or two digits, a
    colon, two digits. *)
Definition timer_shaped (s : string) : Prop :=
  ∃ minutes seconds,
    s = minutes +:+ String ":" seconds ∧
    all_digits minutes = true ∧ all_digits seconds = true ∧
    1 ≤ String.length minutes ≤ 2 ∧ String.length seconds = 2.

(** A cache as the analyses keep it: the four quantities are not
    negative and the game time is timer-shaped. *)
Definition cache_ok (c : OCRAnalysis.Cache.t) : Prop :=
  (0 ≤ OCRAnalysis.Cache.minerals c)%Z ∧
  (0 ≤ OCRAnalysis.Cache.gas c)%Z ∧
  (0 ≤ OCRAnalysis.Cache.supply_used c)%Z ∧
  (0 ≤ OCRAnalysis.Cache.supply_cap c)%Z ∧
  timer_shaped (OCRAnalysis.Cache.game_time c).

(** The call of the notification back end that goes with a history
    entry. *)
Definition call_of (r : Entry.t) : Notify.t :=
  {| Notify.title := Entry.type r; Notify.message := Entry.message r;
     Notify.app_name := "SC2 Copilot"; Notify.timeout := 5 |}.

(** What a computation of the engine may do to the world: append entries
    to the history together with their calls of the back end, and add or
    restamp cooldown keys; flags and configuration stay.  With
    notifications enabled the number of entries, plus the [n] reminders
    already collected, is the size of the result; with notifications
    disabled nothing is appended. *)
Definition emits {A} (n : nat) (m : M A) (size : A → nat) : Prop :=
  ∀ w, ∃ entries,
    reminder_history (self (snd (m w))) = reminder_history (self w) ++ entries ∧
    notify_calls (snd (m w)) = notify_calls w ++ (call_of <$> entries) ∧
    enable_notifications (self (snd (m w))) = enable_notifications (self w) ∧
    default_cooldown (self (snd (m w))) = default_cooldown (self w) ∧
    config (self (snd (m w))) = config (self w) ∧
    dom (cooldowns (self w)) ⊆ dom (cooldowns (self (snd (m w)))) ∧
    (if enable_notifications (self w)
     then length entries + n = size (fst (m w))
     else entries = []).

(** The history is the log of the calls made to the back end. *)
Definition ledger (w : World) : Prop :=
  notify_calls w = call_of <$> reminder_history (self w).

(** Number of reminders in the dict returned by [process_game_state]. *)
Definition reminder_count (r : Reminders.t) : nat :=
  length (Reminders.supply r) + length (Reminders.resources r) +
  length (Reminders.workers r) + length (Reminders.upgrades r) +
  length (Reminders.attacks r) + length (Reminders.tips r).


(** The cooldown keys and the titles of the checks that a decision cycle
    runs outside co-op mode. *)
Definition main_keys : list string :=
  ["supply_critical"; "supply_warning"; "mineral_overflow"; "gas_overflow";
   "upgrade_300"; "upgrade_480"; "upgrade_720"].

Definition main_titles : list string :=
  ["Supply Critical"; "Build Supply"; "Resource Alert"; "Upgrade Reminder"].

(** An engine whose cooldown table holds no other key and whose history
    holds no other title. *)
Definition confined (w : World) : Prop :=
  (∀ key, is_Some (cooldowns (self w) !! key) → key ∈ main_keys) ∧
  Forall (λ r, Entry.type r ∈ main_titles) (reminder_history (self w)).

(** A computation that keeps a property of the world. *)
Definition preserves {A} (P : World → Prop) (m : M A) : Prop :=
  ∀ w, P w → P (snd (m w)).

(** What holds of the application of [main] between two passes of its
    loop. *)
Definition app_ok (app : Main.App) : Prop :=
  cache_ok (OCRAnalysis.last_known_state (Main.ocr_analysis app)) ∧
  ledger (Main.reminder_engine app) ∧
  confined (Main.reminder_engine app) ∧
  enable_notifications (self (Main.reminder_engine app)) = true ∧
  config (self (Main.reminder_engine app)) = default_config.

(** A region that lies within a 1920x1080 screen. *)
Definition within_full_hd (r : ScreenCapture.Region.t) : Prop :=
  (0 ≤ ScreenCapture.Region.left r)%Z ∧ (0 ≤ ScreenCapture.Region.top r)%Z ∧
  (0 < ScreenCapture.Region.width r)%Z ∧ (0 < ScreenCapture.Region.height r)%Z ∧
  (ScreenCapture.Region.left r + ScreenCapture.Region.width r ≤ 1920)%Z ∧
  (ScreenCapture.Region.top r + ScreenCapture.Region.height r ≤ 1080)%Z.

End Shape.

(** ** The text primitives on sample inputs *)
Example int_plain : Py.int "510" = Some 510%Z. Proof. reflexivity. Qed.
Example int_padded : Py.int "  -1_000 " = Some (-1000)%Z. Proof. reflexivity. Qed.
Example int_empty : Py.int "" = None. Proof. reflexivity. Qed.
Example int_bad_underscore : Py.int "1__0" = None. Proof. reflexivity. Qed.
Example split_timer : Py.split ":" "08:30" = ["08"; "30"]. Proof. reflexivity. Qed.
Example split_none : Py.split "/" "abc" = ["abc"]. Proof. reflexivity. Qed.
Example split_three : Py.split "/" "1/2/3" = ["1"; "2"; "3"]. Proof. reflexivity. Qed.
Example findall_pair : Py.findall_digits "M 500 | G 1300x" = ["500"; "1300"].
Proof. reflexivity. Qed.
Example search_timer_run : Py.search_timer "08:30 remaining" = Some "08:30".
Proof. reflexivity. Qed.
Example search_timer_shift : Py.search_timer "123:456" = Some "23:45".
Proof. reflexivity. Qed.
Example search_timer_short : Py.search_timer "t=7:05" = Some "7:05".
Proof. reflexivity. Qed.
Example search_timer_miss : Py.search_timer "12:3" = None. Proof. reflexivity. Qed.
Example strip_run : Py.strip "  190/200 " = "190/200". Proof. reflexivity. Qed.

(** ** The synthesizer and its cache *)
Section Synthesizer.
Import OCRAnalysis.
Context {Image : Type}.
Variable image_to_string : Image → option string.




(** The supply and timer analyses leave the resource fields of the cache
    alone, and the resource analysis the other three. *)
Lemma analyze_supply_keeps_resources img self :
  let c := last_known_state self in
  let c' := last_known_state (snd (analyze_supply image_to_string img self)) in
  Cache.minerals c' = Cache.minerals c ∧ Cache.gas c' = Cache.gas c ∧
  Cache.game_time c' = Cache.game_time c.
Proof. unfold analyze_supply. simpl. by repeat case_match. Qed.

Lemma analyze_game_time_keeps_numbers img self :
  let c := last_known_state self in
  let c' := last_known_state (snd (analyze_game_time image_to_string img self)) in
  Cache.minerals c' = Cache.minerals c ∧ Cache.gas c' = Cache.gas c ∧
  Cache.supply_used c' = Cache.supply_used c ∧
  Cache.supply_cap c' = Cache.supply_cap c.
Proof. unfold analyze_game_time. simpl. by repeat case_match. Qed.

Lemma analyze_resources_keeps_others img self :
  let c := last_known_state self in
  let c' := last_known_state (snd (analyze_resources image_to_string img self)) in
  Cache.supply_used c' = Cache.supply_used c ∧
  Cache.supply_cap c' = Cache.supply_cap c ∧
  Cache.game_time c' = Cache.game_time c.
Proof. unfold analyze_resources. simpl. by repeat case_match. Qed.


(** C1, as amended: a region whose image is [None] is skipped, and the
    snapshot carries for it the fixed baseline written in
    [get_game_state] (minerals 0 and gas 0; supply 0 of 200; time
    ["00:00"]) whatever the cache holds; the cache entries of the region
    are left as they are. *)
Theorem absent_region_gets_fixed_baseline (self : t) :
  (∀ supply_img timer_img,
     let r := get_game_state image_to_string None supply_img timer_img self in
     State.resources (fst r) = {[ "minerals" := 0%Z; "gas" := 0%Z ]} ∧
     Cache.minerals (last_known_state (snd r))
     = Cache.minerals (last_known_state self) ∧
     Cache.gas (last_known_state (snd r)) = Cache.gas (last_known_state self))
  ∧ (∀ resource_img timer_img,
       let r := get_game_state image_to_string resource_img None timer_img self in
       State.supply (fst r) = {[ "supply_used" := 0%Z; "supply_cap" := 200%Z ]} ∧
       Cache.supply_used (last_known_state (snd r))
       = Cache.supply_used (last_known_state self) ∧
       Cache.supply_cap (last_known_state (snd r))
       = Cache.supply_cap (last_known_state self))
  ∧ (∀ resource_img supply_img,
       let r := get_game_state image_to_string resource_img supply_img None self in
       State.game_time (fst r) = "00:00" ∧
       Cache.game_time (last_known_state (snd r))
       = Cache.game_time (last_known_state self))
  ∧ get_game_state image_to_string None None None self
    = ({| State.resources := {[ "minerals" := 0%Z; "gas" := 0%Z ]};
          State.supply := {[ "supply_used" := 0%Z; "supply_cap" := 200%Z ]};
          State.game_time := "00:00";
          State.warnings := [] |}, self).
Proof.
  split; [|split; [|split]].
  - intros [simg|] [timg|] r; subst r; unfold get_game_state.
    + pose proof (analyze_supply_keeps_resources simg self) as (Hm & Hg & _).
      destruct (analyze_supply _ simg self) as [supply self1].
      pose proof (analyze_game_time_keeps_numbers timg self1) as (Hm' & Hg' & _).
      destruct (analyze_game_time _ timg self1) as [game_time self2].
      simpl in *. repeat split; congruence.
    + pose proof (analyze_supply_keeps_resources simg self) as (Hm & Hg & _).
      destruct (analyze_supply _ simg self) as [supply self1].
      simpl in *. repeat split; congruence.
    + pose proof (analyze_game_time_keeps_numbers timg self) as (Hm' & Hg' & _).
      destruct (analyze_game_time _ timg self) as [game_time self2].
      simpl in *. repeat split; congruence.
    + simpl. repeat split.
  - intros [rimg|] [timg|] r; subst r; unfold get_game_state.
    + pose proof (analyze_resources_keeps_others rimg self) as (Hu & Hc & _).
      destruct (analyze_resources _ rimg self) as [resources self1].
      pose proof (analyze_game_time_keeps_numbers timg self1) as (_ & _ & Hu' & Hc').
      destruct (analyze_game_time _ timg self1) as [game_time self2].
      simpl in *. repeat split; congruence.
    + pose proof (analyze_resources_keeps_others rimg self) as (Hu & Hc & _).
      destruct (analyze_resources _ rimg self) as [resources self1].
      simpl in *. repeat split; congruence.
    + pose proof (analyze_game_time_keeps_numbers timg self) as (_ & _ & Hu' & Hc').
      destruct (analyze_game_time _ timg self) as [game_time self2].
      simpl in *. repeat split; congruence.
    + simpl. repeat split.
  - intros [rimg|] [simg|] r; subst r; unfold get_game_state.
    + pose proof (analyze_resources_keeps_others rimg self) as (_ & _ & Ht).
      destruct (analyze_resources _ rimg self) as [resources self1].
      pose proof (analyze_supply_keeps_resources simg self1) as (_ & _ & Ht').
      destruct (analyze_supply _ simg self1) as [supply self2].
      simpl in *. repeat split; congruence.
    + pose proof (analyze_resources_keeps_others rimg self) as (_ & _ & Ht).
      destruct (analyze_resources _ rimg self) as [resources self1].
      simpl in *. repeat split; congruence.
    + pose proof (analyze_supply_keeps_resources simg self) as (_ & _ & Ht').
      destruct (analyze_supply _ simg self) as [supply self2].
      simpl in *. repeat split; congruence.
    + simpl. repeat split.
  - unfold get_game_state. f_equal.
Qed.

(** Each analysis either leaves the cache as it is or stores the values it
    has just parsed: the cache is written by successful parses only. *)
Lemma cache_written_by_successful_parses_only (img : Image) (self : t) :
  (snd (analyze_resources image_to_string img self) = self ∨
   ∃ m g, Spec.parse_pair (extract_text image_to_string img) = Some (m, g) ∧
          snd (analyze_resources image_to_string img self)
          = set_resources m g self)
  ∧ (snd (analyze_supply image_to_string img self) = self ∨
     ∃ p0 p1 used cap,
       Py.split "/" (extract_text image_to_string img) = [p0; p1] ∧
       Py.int (Py.filter_digits p0) = Some used ∧
       Py.int (Py.filter_digits p1) = Some cap ∧
       snd (analyze_supply image_to_string img self) = set_supply used cap self)
  ∧ (snd (analyze_game_time image_to_string img self) = self ∨
     ∃ g, Py.search_timer (extract_text image_to_string img) = Some g ∧
          snd (analyze_game_time image_to_string img self)
          = set_game_time g self).
Proof.
  split; [|split].
  - unfold analyze_resources, Spec.parse_pair.
    destruct (extract_numbers _) as [|n0 [|n1 numbers]]; simpl; eauto.
  - unfold analyze_supply.
    destruct (Py.contains _ _); [|by left].
    destruct (Py.split _ _) as [|p0 [|p1 [|p parts]]]; try by left.
    destruct (Py.int (Py.filter_digits p0)) as [used|] eqn:Hu; [|by left].
    destruct (Py.int (Py.filter_digits p1)) as [cap|] eqn:Hc; [|by left].
    right. by exists p0, p1, used, cap.
  - unfold analyze_game_time.
    destruct (Py.search_timer _) as [g|]; simpl; eauto.
Qed.
End Synthesizer.


(** C1 as stated fails: once the cache holds parsed values, a cycle whose
    three images are [None] reports the fixed baseline (0 minerals, supply
    0 of 200, time ["00:00"]), not the cached values 500, 150 and
    ["08:30"], which stay in the cache. *)
Lemma absent_region_ignores_cache :
  let first := OCRAnalysis.get_game_state Sample.read
                 (Some "500 300") (Some "150/200") (Some "08:30")
                 OCRAnalysis.init in
  let second := OCRAnalysis.get_game_state Sample.read None None None
                  (snd first) in
  OCRAnalysis.last_known_state (snd first)
  = {| OCRAnalysis.Cache.minerals := 500; OCRAnalysis.Cache.gas := 300;
       OCRAnalysis.Cache.supply_used := 150; OCRAnalysis.Cache.supply_cap := 200;
       OCRAnalysis.Cache.game_time := "08:30" |} ∧
  OCRAnalysis.State.resources (fst second) !! "minerals" = Some 0%Z ∧
  OCRAnalysis.State.resources (fst second) !! "minerals" ≠ Some 500%Z ∧
  OCRAnalysis.State.supply (fst second) !! "supply_used" = Some 0%Z ∧
  OCRAnalysis.State.game_time (fst second) = "00:00" ∧
  OCRAnalysis.State.game_time (fst second) ≠ "08:30" ∧
  OCRAnalysis.last_known_state (snd second)
  = OCRAnalysis.last_known_state (snd first).
Proof. vm_compute. repeat split; discriminate. Qed.

(** C4 on the code: a freshly constructed [OCRAnalysis] whose supply image
    yields no parseable text (here the OCR back end raises, so the text
    is empty) reports [supply_cap = 0], the initial value of the cache, and
    not the 200 of the baseline that [get_game_state] uses when the image
    is [None]; the other four quantities agree with the baseline. *)
Lemma fresh_engine_failed_supply_parse :
  let failed := OCRAnalysis.get_game_state Sample.read
                  (Some "!") (Some "!") (Some "!") OCRAnalysis.init in
  let absent := OCRAnalysis.get_game_state Sample.read None None None
                  OCRAnalysis.init in
  OCRAnalysis.extract_text Sample.read "!" = "" ∧
  OCRAnalysis.State.resources (fst failed)
  = {[ "minerals" := 0%Z; "gas" := 0%Z ]} ∧
  OCRAnalysis.State.supply (fst failed) !! "supply_used" = Some 0%Z ∧
  OCRAnalysis.State.supply (fst failed) !! "supply_cap" = Some 0%Z ∧
  OCRAnalysis.State.game_time (fst failed) = "00:00" ∧
  OCRAnalysis.State.supply (fst absent) !! "supply_cap" = Some 200%Z.
Proof. vm_compute. repeat split. Qed.

(** A successful pass refreshes the cache, and the next failed one falls
    back on it. *)
Example cache_fallback_run :
  let first := OCRAnalysis.get_game_state Sample.read
                 (Some "M 1500  G 300") (Some " 190/200") (Some "08:30 x")
                 OCRAnalysis.init in
  let second := OCRAnalysis.get_game_state Sample.read
                  (Some "12") (Some "1/2/3") (Some "1:2") (snd first) in
  OCRAnalysis.State.warnings (fst first) = ["supply_block"; "minerals_overflow"] ∧
  fst second = fst first ∧ snd second = snd first.
Proof. vm_compute. repeat split. Qed.

(** Case analysis on the outcomes of the calls of the two primitives that
    a check makes, in program order: a call is split once the world it
    runs in is known. *)
Ltac split_calls :=
  repeat first
    [ progress (unfold ReminderEngine.bind, ReminderEngine.ret; simpl)
    | case_decide
    | match goal with
      | |- context [ReminderEngine._can_send_reminder ?c ?k ?w] =>
          is_var w;
          destruct (ReminderEngine._can_send_reminder c k w) as [[] ?]
      | |- context [ReminderEngine._send_notification ?c ?o ?t ?m ?u ?w] =>
          is_var w;
          destruct (ReminderEngine._send_notification c o t m u w) as [[] ?]
      end ].

(** ** The cooldown test and the emission primitive *)
Section Primitives.
Import ReminderEngine Spec.
Variable clock : nat → Q.
Variable notify_ok : nat → bool.

(** [_can_send_reminder] reads the clock once; it either refuses and
    changes nothing else, or stamps the key with the reading. *)
Lemma can_send_cases key w :
  (in_cooldown (clock (clock_reads w)) (self w) key ∧
   _can_send_reminder clock key w = (false, tick w)) ∨
  (permits (clock (clock_reads w)) (self w) key ∧
   _can_send_reminder clock key w = (true, stamped clock key w)).
Proof.
  unfold _can_send_reminder, bind, time_time, get_self, put_self, ret,
    permits, in_cooldown; simpl.
  destruct (cooldowns (self w) !! key) as [last_time|] eqn:Hkey.
  - destruct (Qlt_le_dec _ _) as [Hlt|Hle].
    + left. split; [by exists last_time|done].
    + right. split; [|done].
      intros (l & Hl & Hlt). simplify_eq. lra.
  - right. split; [|done]. by intros (l & Hl & _).
Qed.

Lemma can_send_permitted key w :
  permits (clock (clock_reads w)) (self w) key →
  _can_send_reminder clock key w = (true, stamped clock key w).
Proof. intros Hp. by destruct (can_send_cases key w) as [[Hc _]|[_ ->]]. Qed.

Lemma can_send_refused key w :
  in_cooldown (clock (clock_reads w)) (self w) key →
  _can_send_reminder clock key w = (false, tick w).
Proof. intros Hc. by destruct (can_send_cases key w) as [[_ ->]|[Hp _]]. Qed.

Lemma never_fired_permits now e key :
  cooldowns e !! key = None → permits now e key.
Proof. intros Hnone (l & Hl & _). congruence. Qed.

Lemma send_enabled title message urgency w :
  enable_notifications (self w) = true →
  _send_notification clock notify_ok title message urgency w
  = (tt, emitted clock title message urgency w).
Proof.
  intros He. unfold _send_notification, bind, get_self; simpl.
  by rewrite He.
Qed.

Lemma send_disabled title message urgency w :
  enable_notifications (self w) = false →
  _send_notification clock notify_ok title message urgency w = (tt, w).
Proof.
  intros He. unfold _send_notification, bind, get_self; simpl.
  by rewrite He.
Qed.
End Primitives.

(** The outcome of the back end is discarded by the [try]/[except]: the
    emission primitive, and with it a whole decision cycle, does the same
    whether the calls return or raise. *)
Lemma send_notification_outcome_blind clock ok1 ok2 :
  ReminderEngine._send_notification clock ok1
  = ReminderEngine._send_notification clock ok2.
Proof. reflexivity. Qed.

Lemma process_game_state_outcome_blind clock ok1 ok2 game_state w :
  ReminderEngine.process_game_state clock ok1 game_state w
  = ReminderEngine.process_game_state clock ok2 game_state w.
Proof. reflexivity. Qed.

(** ** Emission and history *)
Section Emission.
Import ReminderEngine Spec.

(** C3, as amended: on an engine whose notifications are enabled, every
    firing (one run of the emission primitive [_send_notification])
    calls the notification back end once and appends exactly one record
    (timestamp, type, message, urgency) to the reminder history, whether
    the back end returns or raises; the failure is caught, so that the
    primitive and the whole decision cycle end in the same result and
    state as when every call is delivered. *)
Theorem emission_appends_one_record
    (clock : nat → Q) (notify_ok : nat → bool)
    (title message urgency : string) (w : World) :
  enable_notifications (self w) = true →
  let w' := snd (_send_notification clock notify_ok title message urgency w) in
  reminder_history (self w') =
    reminder_history (self w) ++
    [{| Entry.timestamp := clock (clock_reads w); Entry.type := title;
        Entry.message := message; Entry.urgency := urgency |}]
  ∧ notify_calls w' =
      notify_calls w ++
      [{| Notify.title := title; Notify.message := message;
          Notify.app_name := "SC2 Copilot"; Notify.timeout := 5 |}]
  ∧ cooldowns (self w') = cooldowns (self w)
  ∧ (∀ ok', _send_notification clock ok' title message urgency w = (tt, w'))
  ∧ (∀ ok' game_state w0,
       process_game_state clock ok' game_state w0
       = process_game_state clock notify_ok game_state w0).
Proof.
  intros He w'. subst w'. rewrite send_enabled by done. simpl.
  repeat split; try done.
  intros ok'. by rewrite send_enabled.
Qed.

Lemma emission_appends_one_record_witness :
  enable_notifications (self (boot true)) = true ∧
  reminder_history
    (self (snd (_send_notification Sample.clk Sample.raises
                  "Supply Critical" "blocked" "critical" (boot true))))
  = [{| Entry.timestamp := 1000; Entry.type := "Supply Critical";
        Entry.message := "blocked"; Entry.urgency := "critical" |}].
Proof.
  split; [reflexivity|].
  apply (emission_appends_one_record Sample.clk Sample.raises
           "Supply Critical" "blocked" "critical" (boot true)).
  reflexivity.
Defined.

(** C3 as stated fails when notifications are disabled: the supply check
    of a fresh engine built with [enable_notifications=False] fires the
    critical advisory for 190/200 (the message is returned and the
    cooldown key is stamped), and the history stays empty. *)
Lemma disabled_engine_fires_without_record :
  let r := check_supply Sample.clk Sample.delivers Sample.supply_190_200
             (boot false) in
  fst r = Some "⚠️ SUPPLY BLOCKED! 190/200" ∧
  cooldowns (self (snd r)) !! "supply_critical" = Some (Sample.clk 0) ∧
  reminder_history (self (snd r)) = [] ∧
  ¬ (length (reminder_history (self (snd r)))
     = S (length (reminder_history (self (boot false))))).
Proof. vm_compute. repeat split; discriminate. Qed.

(** C10: the prestige argument of [get_commander_tip] has no influence:
    two calls that differ only in it return the same tip and leave the
    same engine state (cooldowns, history) and the same calls of the
    notification back end.  What the call does is fixed by the commander
    name, the phase and the state alone: when the table has a tip for
    them, one firing attempt under the key of the phase. *)
Theorem commander_tip_ignores_prestige
    (clock : nat → Q) (notify_ok : nat → bool)
    (commander_name game_phase : string) (prestige1 prestige2 : Z)
    (w : World) :
  get_commander_tip clock notify_ok commander_name prestige1 game_phase w
  = get_commander_tip clock notify_ok commander_name prestige2 game_phase w
  ∧ get_commander_tip clock notify_ok commander_name prestige1 game_phase w
    = match tips !! commander_name ≫= (λ by_phase, by_phase !! game_phase) with
      | Some tip =>
          let a := attempt clock notify_ok ("commander_tip_" +:+ game_phase)
                     (commander_name +:+ " Tip") ("💡 " +:+ tip) "normal" w in
          (if fst a then Some tip else None, snd a)
      | None => (None, w)
      end.
Proof.
  split; [reflexivity|].
  unfold get_commander_tip.
  destruct (tips !! commander_name ≫= _) as [tip|]; [|done].
  unfold attempt, bind, ret.
  destruct (_can_send_reminder _ _ w) as [[] w1]; [|done].
  by destruct (_send_notification _ _ _ _ _ w1) as [[] w2].
Qed.

Example commander_tip_run :
  let r := get_commander_tip Sample.clk Sample.delivers "Raynor" 2 "mid"
             (boot true) in
  fst r = Some "Build bio ball with medics for sustained push" ∧
  Entry.type <$> reminder_history (self (snd r)) = ["Raynor Tip"] ∧
  cooldowns (self (snd r)) !! "commander_tip_mid" = Some (Sample.clk 0).
Proof. vm_compute. repeat split. Qed.
End Emission.

(** ** Cooldown windows *)
Section Cooldown.
Import ReminderEngine Spec.
Variable clock : nat → Q.
Variable notify_ok : nat → bool.

(** The emission primitive leaves the cooldown table and the cooldown
    length alone. *)
Lemma send_keeps_cooldowns title message urgency w :
  let w' := snd (_send_notification clock notify_ok title message urgency w) in
  cooldowns (self w') = cooldowns (self w) ∧
  default_cooldown (self w') = default_cooldown (self w) ∧
  enable_notifications (self w') = enable_notifications (self w) ∧
  config (self w') = config (self w).
Proof.
  destruct (enable_notifications (self w)) eqn:He; simpl.
  - by rewrite send_enabled.
  - by rewrite send_disabled.
Qed.

Lemma attempt_cases key title message urgency w :
  (in_cooldown (clock (clock_reads w)) (self w) key ∧
   attempt clock notify_ok key title message urgency w = (false, tick w)) ∨
  (permits (clock (clock_reads w)) (self w) key ∧
   attempt clock notify_ok key title message urgency w
   = (true, snd (_send_notification clock notify_ok title message urgency
                   (stamped clock key w)))).
Proof.
  unfold attempt, bind.
  destruct (can_send_cases clock key w) as [[Hc ->]|[Hp ->]]; [by left|].
  right. split; [done|].
  by destruct (_send_notification _ _ _ _ _ _) as [[] w'].
Qed.

Lemma firings_snoc tr now fired :
  firings (tr ++ [(now, fired)])
  = firings tr ++ (if fired then [now] else []).
Proof.
  unfold firings. rewrite filter_app, fmap_app. f_equal.
  by destruct fired.
Qed.

(** What a run maintains: the cooldown length is fixed, the table holds
    the reading of the latest firing, and firings are spaced. *)
Lemma run_invariant key w tr w' :
  (0 <= default_cooldown (self w))%Q →
  run clock notify_ok key w tr w' →
  default_cooldown (self w') = default_cooldown (self w) ∧
  (∀ t, last (firings tr) = Some t → cooldowns (self w') !! key = Some t) ∧
  (∀ i ti, firings tr !! i = Some ti →
     ∃ tl, last (firings tr) = Some tl ∧ (ti <= tl)%Q) ∧
  spaced (default_cooldown (self w)) (firings tr).
Proof.
  intros Hcd Hrun.
  induction Hrun as [w|w tr w' title message urgency Hrun IH
                      |w tr w' w'' Hrun IH [Hkey Hlen]].
  - repeat split; [done|done|..]; unfold spaced; intros; simplify_eq/=.
  - destruct (IH Hcd) as (Hd & Htable & Hle & Hsp). clear IH.
    rewrite firings_snoc.
    destruct (attempt_cases key title message urgency w')
      as [[Hc ->]|[Hp ->]]; simpl.
    { by rewrite app_nil_r. }
    destruct (send_keeps_cooldowns title message urgency
                (stamped clock key w')) as (Hcs & Hds & _ & _).
    simpl in Hcs, Hds.
    set (now := clock (clock_reads w')) in *.
    assert (Hprev : ∀ i ti, firings tr !! i = Some ti →
                             (default_cooldown (self w) <= now - ti)%Q).
    { intros i ti Hi. destruct (Hle i ti Hi) as (tl & Hlast & Htl).
      specialize (Htable tl Hlast).
      assert (¬ (now - tl < default_cooldown (self w'))%Q) as Hn.
      { intros Hlt. apply Hp. by exists tl. }
      rewrite Hd in Hn. lra. }
    repeat split.
    + by rewrite Hds.
    + intros t. rewrite last_snoc. intros [= <-].
      rewrite Hcs. simpl. by rewrite lookup_insert_eq.
    + intros i ti Hi. exists now. rewrite last_snoc. split; [done|].
      apply lookup_app_Some in Hi as [Hi|[_ Hi]].
      * specialize (Hprev i ti Hi). lra.
      * apply list_lookup_singleton_Some in Hi as [_ <-]. lra.
    + intros i j ti tj Hij Hi Hj.
      apply lookup_app_Some in Hj as [Hj|[Hlenj Hj]].
      * apply lookup_app_Some in Hi as [Hi|[Hleni _]].
        -- by eapply Hsp.
        -- apply lookup_lt_Some in Hj. lia.
      * apply list_lookup_singleton_Some in Hj as [Hj0 <-].
        apply lookup_app_Some in Hi as [Hi|[Hleni _]]; [|lia].
        by eapply Hprev.
  - destruct (IH Hcd) as (Hd & Htable & Hle & Hsp).
    repeat split; try done.
    + congruence.
    + intros t Ht. rewrite Hkey. by apply Htable.
Qed.

(** C5: for every advisory-type key and every run of firing attempts on
    it (interleaved with any other activity of the engine), the attempts
    that fired are at least one cooldown length apart, so that at most
    one advisory of the type is emitted in any window of that length
    after a firing; an attempt made inside the window of the latest
    firing is refused silently (no notification call, no history entry,
    table untouched); an attempt made once the window has elapsed fires
    again, with one more call of the back end and a further history
    entry (on an engine whose notifications are enabled, as the
    notification call presupposes). *)
Theorem cooldown_once_per_window key w tr w' title message urgency :
  (0 <= default_cooldown (self w))%Q →
  run clock notify_ok key w tr w' →
  let now := clock (clock_reads w') in
  let r := attempt clock notify_ok key title message urgency w' in
  spaced (default_cooldown (self w)) (firings tr)
  ∧ (∀ t, last (firings tr) = Some t →
       (now - t < default_cooldown (self w))%Q →
       r = (false, tick w'))
  ∧ (∀ t, last (firings tr) = Some t →
       (default_cooldown (self w) <= now - t)%Q →
       fst r = true ∧
       cooldowns (self (snd r)) !! key = Some now ∧
       (enable_notifications (self w') = true →
        reminder_history (self (snd r)) =
          reminder_history (self w') ++
          [{| Entry.timestamp := clock (S (clock_reads w'));
              Entry.type := title; Entry.message := message;
              Entry.urgency := urgency |}] ∧
        notify_calls (snd r) =
          notify_calls w' ++
          [{| Notify.title := title; Notify.message := message;
              Notify.app_name := "SC2 Copilot"; Notify.timeout := 5 |}])).
Proof.
  intros Hcd Hrun now r.
  destruct (run_invariant key w tr w' Hcd Hrun) as (Hd & Htable & _ & Hsp).
  split; [done|]. subst r.
  split; intros t Hlast Ht; specialize (Htable t Hlast).
  - destruct (attempt_cases key title message urgency w')
      as [[_ ->]|[Hp _]]; [done|].
    exfalso. apply Hp. exists t. by rewrite Hd.
  - destruct (attempt_cases key title message urgency w')
      as [[(l & Hl & Hlt) _]|[_ ->]].
    { exfalso. rewrite Hd in Hlt. simplify_eq. fold now in Hlt. lra. }
    simpl.
    destruct (send_keeps_cooldowns title message urgency
                (stamped clock key w')) as (-> & _).
    split; [done|]. split; [simpl; by rewrite lookup_insert_eq|].
    intros He. by rewrite send_enabled.
Qed.
End Cooldown.

Lemma cooldown_once_per_window_witness :
  let fire := Spec.attempt Sample.clk Sample.delivers "supply_critical"
                "Supply Critical" "blocked" "critical" in
  let w0 := ReminderEngine.boot true in
  let w1 := snd (fire w0) in
  (0 <= ReminderEngine.default_cooldown (ReminderEngine.self w0))%Q ∧
  Spec.run Sample.clk Sample.delivers "supply_critical" w0
    ([] ++ [(Sample.clk (ReminderEngine.clock_reads w0), fst (fire w0))]) w1 ∧
  fire w1 = (false, Spec.tick w1).
Proof.
  intros fire w0 w1.
  assert (Hcd : (0 <= ReminderEngine.default_cooldown (ReminderEngine.self w0))%Q)
    by (vm_compute; discriminate).
  assert (Hrun : Spec.run Sample.clk Sample.delivers "supply_critical" w0
            ([] ++ [(Sample.clk (ReminderEngine.clock_reads w0), fst (fire w0))])
            w1)
    by (apply Spec.run_attempt, Spec.run_start).
  split; [exact Hcd|]. split; [exact Hrun|].
  destruct (cooldown_once_per_window Sample.clk Sample.delivers
              "supply_critical" w0 _ w1 "Supply Critical" "blocked" "critical"
              Hcd Hrun) as (_ & Hwithin & _).
  apply (Hwithin (Sample.clk 0)); vm_compute; reflexivity.
Defined.

(** With a clock that advances a minute per reading, the second attempt
    falls outside the window and fires again: two history entries. *)
Example cooldown_elapsed_fires_again :
  let fire := Spec.attempt Sample.slow_clk Sample.delivers "supply_critical"
                "Supply Critical" "blocked" "critical" in
  let r := fire (snd (fire (ReminderEngine.boot true))) in
  fst r = true ∧
  length (ReminderEngine.reminder_history (ReminderEngine.self (snd r))) = 2 ∧
  length (ReminderEngine.notify_calls (snd r)) = 2.
Proof. vm_compute. repeat split. Qed.

(** ** The supply and resource categories *)
Section SupplyAndResources.
Import ReminderEngine Spec.
Variable clock : nat → Q.
Variable notify_ok : nat → bool.

Lemma append_cons a s1 s2 : String a s1 +:+ s2 = String a (s1 +:+ s2).
Proof. reflexivity. Qed.

(** The two supply messages never coincide. *)
Lemma supply_messages_differ x y :
  "⚠️ SUPPLY BLOCKED! " +:+ x ≠ "⚠️ Supply Warning: " +:+ y.
Proof. rewrite !append_cons. intros H. simplify_eq. Qed.

(** A firing attempt leaves the entries of all other keys alone. *)
Lemma attempt_other_key key key' title message urgency w :
  key ≠ key' →
  cooldowns (self (snd (attempt clock notify_ok key title message urgency w)))
    !! key'
  = cooldowns (self w) !! key'.
Proof.
  intros Hne.
  destruct (attempt_cases clock notify_ok key title message urgency w)
    as [[_ ->]|[_ ->]]; [done|]. simpl.
  destruct (send_keeps_cooldowns clock notify_ok title message urgency
              (stamped clock key w)) as (-> & _).
  simpl. by rewrite lookup_insert_ne.
Qed.

(** An attempt that the table permits fires. *)
Lemma attempt_permitted key title message urgency w :
  permits (clock (clock_reads w)) (self w) key →
  fst (attempt clock notify_ok key title message urgency w) = true.
Proof.
  intros Hp.
  by destruct (attempt_cases clock notify_ok key title message urgency w)
    as [[Hc _]|[_ ->]].
Qed.


(** C8: below 180 seconds of game time the resource check does nothing,
    whatever the resource values; from 180 seconds on, with the
    configured threshold of 1000, minerals above the threshold make one
    firing attempt under the key [mineral_overflow] and then gas above
    the threshold makes one under [gas_overflow], each attempt leaving
    the entry of the other key alone, and the returned list holds the
    messages of the attempts that fired.  At 60 s with 1500 minerals
    nothing is returned; at 200 s with 1500 minerals a fresh engine
    returns exactly the mineral-overflow advisory. *)
Theorem resource_overflow_gate (resource_data : gmap string Z)
    (game_time_seconds : Z) (w : World) :
  config (self w) = default_config →
  let minerals := default 0%Z (resource_data !! "minerals") in
  let gas := default 0%Z (resource_data !! "gas") in
  let mineral_message :=
    "💎 High minerals: " +:+ str minerals +:+ " - Expand or build army!" in
  let gas_message :=
    "⛽ High gas: " +:+ str gas +:+ " - Tech up or build advanced units!" in
  let r := check_resources clock notify_ok resource_data game_time_seconds w in
  ((game_time_seconds < 180)%Z → r = ([], w))
  ∧ ((180 ≤ game_time_seconds)%Z →
       let m := if decide (1000 < minerals)%Z
                then attempt clock notify_ok "mineral_overflow"
                       "Resource Alert" mineral_message "normal" w
                else (false, w) in
       let g := if decide (1000 < gas)%Z
                then attempt clock notify_ok "gas_overflow"
                       "Resource Alert" gas_message "normal" (snd m)
                else (false, snd m) in
       r = ((if fst m then [mineral_message] else []) ++
            (if fst g then [gas_message] else []), snd g) ∧
       cooldowns (self (snd m)) !! "gas_overflow"
       = cooldowns (self w) !! "gas_overflow" ∧
       cooldowns (self (snd g)) !! "mineral_overflow"
       = cooldowns (self (snd m)) !! "mineral_overflow")
  ∧ (let r60 := check_resources clock notify_ok {[ "minerals" := 1500%Z ]} 60 w in
     r60 = ([], w))
  ∧ (let r200 := check_resources clock notify_ok {[ "minerals" := 1500%Z ]} 200
                   (boot true) in
     fst r200 = ["💎 High minerals: 1500 - Expand or build army!"] ∧
     Entry.message <$> reminder_history (self (snd r200))
     = ["💎 High minerals: 1500 - Expand or build army!"] ∧
     Notify.title <$> notify_calls (snd r200) = ["Resource Alert"]).
Proof.
  intros Hcfg minerals gas mineral_message gas_message r.
  split.
  { intros Hearly. subst r. unfold check_resources.
    by destruct (decide (game_time_seconds < 180)%Z). }
  split.
  { intros Hlate m g. split.
    - subst r g m. unfold check_resources, attempt.
      destruct (decide (game_time_seconds < 180)%Z); [lia|].
      unfold bind at 1, get_self. rewrite Hcfg. simpl.
      fold minerals gas mineral_message gas_message.
      by split_calls.
    - subst g m. split.
      + destruct (decide (1000 < minerals)%Z); [|done].
        by apply attempt_other_key.
      + destruct (decide (1000 < gas)%Z); [|done].
        by apply attempt_other_key. }
  split; [done|].
  vm_compute. repeat split.
Qed.
End SupplyAndResources.


Lemma resource_overflow_gate_witness :
  ReminderEngine.config (ReminderEngine.self (ReminderEngine.boot true))
  = ReminderEngine.default_config ∧
  (60 < 180)%Z ∧
  ReminderEngine.check_resources Sample.clk Sample.delivers
    Sample.minerals_1500 60 (ReminderEngine.boot true)
  = ([], ReminderEngine.boot true).
Proof.
  split; [reflexivity|]. split; [lia|].
  destruct (resource_overflow_gate Sample.clk Sample.delivers
              Sample.minerals_1500 60 (ReminderEngine.boot true) eq_refl)
    as (Hearly & _).
  apply Hearly. lia.
Defined.

(** ** The upgrade category *)
Section Upgrades.
Import ReminderEngine Spec.
Variable clock : nat → Q.
Variable notify_ok : nat → bool.

Lemma iter_tick_self n w : self (Nat.iter n tick w) = self w.
Proof. induction n; simpl; auto. Qed.

Lemma iter_tick_calls n w : notify_calls (Nat.iter n tick w) = notify_calls w.
Proof. induction n; simpl; auto. Qed.

Lemma iter_tick_shift n w : Nat.iter n tick (tick w) = Nat.iter (S n) tick w.
Proof. induction n; simpl; [done|]. by rewrite IHn. Qed.

Lemma passed_cons t p items j :
  passed t (p :: items) (S j)
  = (if decide (p.1 ≤ t)%Z then 1 else 0) + passed t items j.
Proof.
  unfold passed. simpl take. rewrite filter_cons.
  by destruct (decide (p.1 ≤ t)%Z).
Qed.

(** One iteration of the scan. *)
Lemma upgrade_loop_cons t timing message items reminders w :
  (¬ (timing ≤ t)%Z ∧
   upgrade_loop clock notify_ok t ((timing, message) :: items) reminders w
   = upgrade_loop clock notify_ok t items reminders w)
  ∨ ((timing ≤ t)%Z ∧
     in_cooldown (clock (clock_reads w)) (self w) (upgrade_key timing) ∧
     upgrade_loop clock notify_ok t ((timing, message) :: items) reminders w
     = upgrade_loop clock notify_ok t items reminders (tick w))
  ∨ ((timing ≤ t)%Z ∧
     permits (clock (clock_reads w)) (self w) (upgrade_key timing) ∧
     upgrade_loop clock notify_ok t ((timing, message) :: items) reminders w
     = (reminders ++ [message],
        snd (_send_notification clock notify_ok "Upgrade Reminder"
               ("⬆️ " +:+ message) "normal"
               (stamped clock (upgrade_key timing) w)))).
Proof.
  cbn [upgrade_loop]. fold (upgrade_key timing).
  destruct (decide (timing ≤ t)%Z) as [Hpass|Hfuture]; [right|by left].
  destruct (can_send_cases clock (upgrade_key timing) w)
    as [[Hc Hcall]|[Hp Hcall]]; [left|right];
    (split; [done|]); (split; [done|]); unfold bind at 1; rewrite Hcall.
  - done.
  - unfold bind, ret.
    by destruct (_send_notification _ _ _ _ _ _) as [[] w'].
Qed.

(** The scan of any table: either no entry fires, every entry whose time
    has passed being in cooldown when the scan reaches it, or exactly
    the first entry whose time has passed and whose key permits fires,
    and the scan stops there. *)
Lemma upgrade_loop_first_eligible t items :
  ∀ reminders w,
    let r := upgrade_loop clock notify_ok t items reminders w in
    (fst r = reminders ∧ snd r = Nat.iter (passed t items (length items)) tick w ∧
     ∀ j timing message, items !! j = Some (timing, message) → (timing ≤ t)%Z →
       in_cooldown (clock (passed t items j + clock_reads w)) (self w)
         (upgrade_key timing))
    ∨ (∃ i timing message,
         items !! i = Some (timing, message) ∧ (timing ≤ t)%Z ∧
         permits (clock (passed t items i + clock_reads w)) (self w)
           (upgrade_key timing) ∧
         (∀ j timing' message', j < i →
            items !! j = Some (timing', message') → (timing' ≤ t)%Z →
            in_cooldown (clock (passed t items j + clock_reads w)) (self w)
              (upgrade_key timing')) ∧
         fst r = reminders ++ [message] ∧
         snd r = snd (_send_notification clock notify_ok "Upgrade Reminder"
                        ("⬆️ " +:+ message) "normal"
                        (stamped clock (upgrade_key timing)
                           (Nat.iter (passed t items i) tick w)))).
Proof.
  induction items as [|[timing0 message0] items IH]; intros reminders w r.
  { left. subst r. simpl. repeat split. intros j ? ? Hj. by destruct j. }
  subst r.
  destruct (upgrade_loop_cons t timing0 message0 items reminders w)
    as [[Hfuture ->]|[(Hpass & Hc & ->)|(Hpass & Hp & ->)]].
  - destruct (IH reminders w)
      as [(Hr & Hw & Hall)
         |(i & timing & message & Hi & Ht & Hperm & Hbefore & Hr & Hw)].
    + left. split; [done|]. split.
      { rewrite Hw. cbn [length]. rewrite passed_cons. simpl.
        by rewrite decide_False by done. }
      intros [|j] timing message Hj Ht.
      { simpl in Hj. simplify_eq. lia. }
      rewrite passed_cons. simpl. rewrite decide_False by done.
      by apply (Hall j timing message).
    + right. exists (S i), timing, message.
      rewrite passed_cons. simpl. rewrite decide_False by done.
      repeat split; try done.
      intros [|j] timing' message' Hlt Hj Ht'.
      { simpl in Hj. simplify_eq. lia. }
      rewrite passed_cons. simpl. rewrite decide_False by done.
      apply (Hbefore j timing' message'); [lia|done..].
  - destruct (IH reminders (tick w))
      as [(Hr & Hw & Hall)
         |(i & timing & message & Hi & Ht & Hperm & Hbefore & Hr & Hw)].
    + left. split; [done|]. split.
      { rewrite Hw. cbn [length]. rewrite passed_cons. simpl.
        rewrite decide_True by done. by rewrite iter_tick_shift. }
      intros [|j] timing message Hj Ht.
      { simpl in Hj. by simplify_eq. }
      rewrite passed_cons. simpl. rewrite decide_True by done.
      specialize (Hall j timing message Hj Ht). simpl in Hall.
      by rewrite Nat.add_succ_r in Hall.
    + right. exists (S i), timing, message.
      rewrite passed_cons. simpl. rewrite decide_True by done.
      simpl in Hperm. rewrite Nat.add_succ_r in Hperm.
      rewrite iter_tick_shift in Hw.
      repeat split; try done.
      intros [|j] timing' message' Hlt Hj Ht'.
      { simpl in Hj. by simplify_eq. }
      rewrite passed_cons. simpl. rewrite decide_True by done.
      assert (j < i) as Hji by lia.
      specialize (Hbefore j timing' message' Hji Hj Ht'). simpl in Hbefore.
      by rewrite Nat.add_succ_r in Hbefore.
  - right. exists 0, timing0, message0. simpl.
    repeat split; try done. lia.
Qed.

(** The thresholds of the table ascend: when entry [j] has passed, so
    have the [j] entries before it. *)
Lemma passed_ascending t j timing message :
  upgrade_timings !! j = Some (timing, message) → (timing ≤ t)%Z →
  passed t upgrade_timings j = j.
Proof.
  intros Hj Ht. unfold passed.
  destruct j as [|[|[|j]]]; simplify_eq/=; try done;
    rewrite ?filter_cons, ?filter_nil; simpl;
    repeat case_decide; simpl; try done; lia.
Qed.

Lemma earlier_threshold_passed t i j timing message timing' message' :
  j < i →
  upgrade_timings !! i = Some (timing, message) →
  upgrade_timings !! j = Some (timing', message') →
  (timing ≤ t)%Z → (timing' ≤ t)%Z.
Proof.
  intros Hji Hi Hj Ht.
  destruct i as [|[|[|i]]]; destruct j as [|[|[|j]]];
    simplify_eq/=; lia.
Qed.

Lemma upgrade_keys_differ i j timing message timing' message' :
  i ≠ j →
  upgrade_timings !! i = Some (timing, message) →
  upgrade_timings !! j = Some (timing', message') →
  upgrade_key timing ≠ upgrade_key timing'.
Proof.
  intros Hij Hi Hj.
  destruct i as [|[|[|i]]]; destruct j as [|[|[|j]]];
    simplify_eq/=; vm_compute; discriminate.
Qed.

Lemma send_history_length title message urgency w :
  let w' := snd (_send_notification clock notify_ok title message urgency w) in
  length (reminder_history (self w')) ≤ S (length (reminder_history (self w))) ∧
  length (notify_calls w') ≤ S (length (notify_calls w)).
Proof.
  destruct (enable_notifications (self w)) eqn:He; simpl.
  - rewrite send_enabled by done. simpl. rewrite !length_app. simpl. lia.
  - rewrite send_disabled by done. simpl. lia.
Qed.

(** C6: each cycle the upgrade check scans the thresholds 300, 480, 720
    in this order and fires at most one advisory (at most one message
    returned, one history entry, one call of the back end): the first
    threshold whose time has passed and whose own cooldown key permits
    when the scan reaches it.  The scan stops there: every earlier
    threshold has passed and was refused by its cooldown, and the keys
    of the later thresholds are untouched, so that an earlier threshold
    that can fire keeps the later ones from firing in the same cycle.
    When no threshold that has passed is permitted, nothing fires.  At
    500 s with none of the three keys in the table yet, exactly the
    300 s advisory fires. *)
Theorem upgrade_first_eligible_only (t : Z) (current_upgrades : gmap string Z)
    (w : World) :
  let r := check_upgrade_timing clock notify_ok t current_upgrades w in
  let reading j := clock (j + clock_reads w) in
  (length (fst r) ≤ 1 ∧
   length (reminder_history (self (snd r)))
     ≤ S (length (reminder_history (self w))) ∧
   length (notify_calls (snd r)) ≤ S (length (notify_calls w)))
  ∧ ((fst r = [] ∧ self (snd r) = self w ∧
      notify_calls (snd r) = notify_calls w ∧
      ∀ j timing message,
        upgrade_timings !! j = Some (timing, message) → (timing ≤ t)%Z →
        in_cooldown (reading j) (self w) (upgrade_key timing))
     ∨ (∃ i timing message,
          upgrade_timings !! i = Some (timing, message) ∧ (timing ≤ t)%Z ∧
          permits (reading i) (self w) (upgrade_key timing) ∧
          (∀ j timing' message', j < i →
             upgrade_timings !! j = Some (timing', message') →
             (timing' ≤ t)%Z ∧
             in_cooldown (reading j) (self w) (upgrade_key timing')) ∧
          fst r = [message] ∧
          snd r = snd (_send_notification clock notify_ok "Upgrade Reminder"
                         ("⬆️ " +:+ message) "normal"
                         (stamped clock (upgrade_key timing)
                            (Nat.iter i tick w))) ∧
          (∀ k timing' message', i < k →
             upgrade_timings !! k = Some (timing', message') →
             cooldowns (self (snd r)) !! upgrade_key timing'
             = cooldowns (self w) !! upgrade_key timing')))
  ∧ (t = 500%Z →
     (∀ timing, cooldowns (self w) !! upgrade_key timing = None) →
     fst r = ["Consider starting +1 attack/armor upgrades"] ∧
     cooldowns (self (snd r)) !! upgrade_key 480 = None ∧
     cooldowns (self (snd r)) !! upgrade_key 720 = None)
  ∧ (let r0 := check_upgrade_timing clock notify_ok 500 current_upgrades
                 (boot true) in
     fst r0 = ["Consider starting +1 attack/armor upgrades"] ∧
     Entry.message <$> reminder_history (self (snd r0))
     = ["⬆️ Consider starting +1 attack/armor upgrades"] ∧
     length (notify_calls (snd r0)) = 1).
Proof.
  intros r reading.
  assert (Hscan :
    (fst r = [] ∧ self (snd r) = self w ∧
      notify_calls (snd r) = notify_calls w ∧
      ∀ j timing message,
        upgrade_timings !! j = Some (timing, message) → (timing ≤ t)%Z →
        in_cooldown (reading j) (self w) (upgrade_key timing))
     ∨ (∃ i timing message,
          upgrade_timings !! i = Some (timing, message) ∧ (timing ≤ t)%Z ∧
          permits (reading i) (self w) (upgrade_key timing) ∧
          (∀ j timing' message', j < i →
             upgrade_timings !! j = Some (timing', message') →
             (timing' ≤ t)%Z ∧
             in_cooldown (reading j) (self w) (upgrade_key timing')) ∧
          fst r = [message] ∧
          snd r = snd (_send_notification clock notify_ok "Upgrade Reminder"
                         ("⬆️ " +:+ message) "normal"
                         (stamped clock (upgrade_key timing)
                            (Nat.iter i tick w))) ∧
          (∀ k timing' message', i < k →
             upgrade_timings !! k = Some (timing', message') →
             cooldowns (self (snd r)) !! upgrade_key timing'
             = cooldowns (self w) !! upgrade_key timing'))).
  { subst r reading. unfold check_upgrade_timing.
    destruct (upgrade_loop_first_eligible t upgrade_timings [] w)
      as [(Hr & Hw & Hall)
         |(i & timing & message & Hi & Ht & Hperm & Hbefore & Hr & Hw)].
    - left. split; [done|]. rewrite Hw.
      rewrite iter_tick_self, iter_tick_calls. repeat split.
      intros j timing message Hj Ht.
      specialize (Hall j timing message Hj Ht).
      by rewrite (passed_ascending t j timing message) in Hall.
    - right. exists i, timing, message.
      rewrite (passed_ascending t i timing message) in Hperm, Hw by done.
      do 3 (split; [done|]). split.
      { intros j timing' message' Hji Hj.
        assert (timing' ≤ t)%Z as Ht'
          by by eapply (earlier_threshold_passed t i j).
        split; [done|].
        specialize (Hbefore j timing' message' Hji Hj Ht').
        by rewrite (passed_ascending t j timing' message') in Hbefore. }
      do 2 (split; [done|]).
      { intros k timing' message' Hik Hk. rewrite Hw.
        destruct (send_keeps_cooldowns clock notify_ok "Upgrade Reminder"
                    ("⬆️ " +:+ message) "normal"
                    (stamped clock (upgrade_key timing) (Nat.iter i tick w)))
          as (-> & _).
        simpl. rewrite iter_tick_self.
        apply lookup_insert_ne.
        eapply (upgrade_keys_differ i k); [lia|done..]. } }
  split.
  { destruct Hscan as [(Hr & Hs & Hn & _)
                      |(i & timing & message & _ & _ & _ & _ & Hr & Hw & _)].
    - rewrite Hr, Hs, Hn. simpl. lia.
    - rewrite Hr, Hw. simpl.
      destruct (send_history_length "Upgrade Reminder" ("⬆️ " +:+ message)
                  "normal" (stamped clock (upgrade_key timing)
                              (Nat.iter i tick w))) as [Hh Hc].
      simpl in Hh, Hc. rewrite iter_tick_self in Hh.
      rewrite iter_tick_calls in Hc. lia. }
  split; [done|]. split.
  { intros -> Hnone.
    destruct Hscan as [(_ & _ & _ & Hall)
                      |(i & timing & message & Hi & _ & _ & Hbefore & Hr & _ & Hlater)].
    - destruct (Hall 0 300%Z "Consider starting +1 attack/armor upgrades")
        as (l & Hl & _); [done|lia|].
      by rewrite Hnone in Hl.
    - destruct i as [|i].
      + simpl in Hi. simplify_eq. split; [done|].
        rewrite (Hlater 1 480%Z "Time for +2 upgrades if +1 is done")
          by (done || lia).
        rewrite (Hlater 2 720%Z "Consider +3 upgrades if +2 is complete")
          by (done || lia).
        by rewrite !Hnone.
      + destruct (Hbefore 0 300%Z "Consider starting +1 attack/armor upgrades")
          as (_ & l & Hl & _); [lia|done|].
        by rewrite Hnone in Hl. }
  vm_compute. repeat split.
Qed.
End Upgrades.

(** ** The attack-wave category *)
Section AttackWaves.
Import ReminderEngine Spec.
Variable clock : nat → Q.
Variable notify_ok : nat → bool.

(** One iteration of the wave loop. *)
Lemma wave_loop_cons t i wave_time waves w :
  let time_until_wave := (wave_time - t)%Z in
  let message := "🚨 Attack wave incoming in " +:+ str time_until_wave +:+ "s!" in
  (¬ (0 < time_until_wave ∧ time_until_wave ≤ 30)%Z ∧
   wave_loop clock notify_ok t i (wave_time :: waves) w
   = wave_loop clock notify_ok t (S i) waves w)
  ∨ ((0 < time_until_wave ∧ time_until_wave ≤ 30)%Z ∧
     in_cooldown (clock (clock_reads w)) (self w) (wave_key i) ∧
     wave_loop clock notify_ok t i (wave_time :: waves) w
     = wave_loop clock notify_ok t (S i) waves (tick w))
  ∨ ((0 < time_until_wave ∧ time_until_wave ≤ 30)%Z ∧
     permits (clock (clock_reads w)) (self w) (wave_key i) ∧
     wave_loop clock notify_ok t i (wave_time :: waves) w
     = (Some {| Wave.wave_number := Z.of_nat i + 1;
                Wave.time_until := time_until_wave;
                Wave.message := message |},
        snd (_send_notification clock notify_ok "Amon Attack Warning"
               message "critical" (stamped clock (wave_key i) w)))).
Proof.
  intros time_until_wave message.
  cbn [wave_loop]. fold time_until_wave message (wave_key i).
  destruct (decide (0 < time_until_wave ∧ time_until_wave ≤ 30)%Z)
    as [Hwin|Hout]; [right|by left].
  destruct (can_send_cases clock (wave_key i) w)
    as [[Hc Hcall]|[Hp Hcall]]; [left|right];
    (split; [done|]); (split; [done|]); unfold bind at 1; rewrite Hcall.
  - done.
  - unfold bind, ret.
    by destruct (_send_notification _ _ _ _ _ _) as [[] w'].
Qed.

(** With the configured wave times the check fires wave [i] exactly when
    the wave is at most 30 s ahead and its key permits. *)
Lemma wave_fires_iff t mission_type w i wave_time :
  amon_attack_wave_intervals (config (self w)) = [240; 480; 720; 960]%Z →
  [240; 480; 720; 960]%Z !! i = Some wave_time →
  let r := check_amon_attack_wave clock notify_ok t mission_type w in
  let message :=
    "🚨 Attack wave incoming in " +:+ str (wave_time - t) +:+ "s!" in
  let info := {| Wave.wave_number := Z.of_nat i + 1;
                 Wave.time_until := wave_time - t;
                 Wave.message := message |} in
  (fst r = Some info ↔
     (0 < wave_time - t ∧ wave_time - t ≤ 30)%Z ∧
     permits (clock (clock_reads w)) (self w) (wave_key i))
  ∧ (fst r = Some info →
     snd r = snd (_send_notification clock notify_ok "Amon Attack Warning"
                    message "critical" (stamped clock (wave_key i) w))).
Proof.
  intros Hcfg Hi r message info. subst r.
  unfold check_amon_attack_wave, bind, get_self. rewrite Hcfg.
  repeat match goal with
         | |- context [wave_loop _ _ ?t ?i (?wt :: ?ws) ?w] =>
             destruct (wave_loop_cons t i wt ws w)
               as [[? ->]|[(? & ? & ->)|(? & ? & ->)]]
         end.
  all: try lia.
  all: destruct i as [|[|[|[|i]]]]; simplify_eq/=.
  all: (split; [split|]);
         [ intros Hfst | intros [Hwin Hperm] | intros Hfst ].
  all: try done; try lia.
  all: try (by simplify_eq).
Qed.

(** *** What the other categories leave alone *)

Lemma wave_state_kept_refl w : wave_state_kept w w.
Proof. by repeat split. Qed.

Lemma wave_state_kept_trans w1 w2 w3 :
  wave_state_kept w1 w2 → wave_state_kept w2 w3 → wave_state_kept w1 w3.
Proof.
  intros (Hk & He & Hc & Hd & Hg) (Hk' & He' & Hc' & Hd' & Hg').
  split; [intros s; by rewrite Hk', Hk|]. repeat split; congruence.
Qed.

Lemma keeps_ret {A} (a : A) : keeps_wave_state (ret a).
Proof. intros w. apply wave_state_kept_refl. Qed.

Lemma keeps_get_self : keeps_wave_state get_self.
Proof. intros w. apply wave_state_kept_refl. Qed.

Lemma keeps_bind {A B} (m : M A) (k : A → M B) :
  keeps_wave_state m → (∀ a, keeps_wave_state (k a)) →
  keeps_wave_state (bind m k).
Proof.
  intros Hm Hk w. unfold bind. specialize (Hm w).
  destruct (m w) as [a w1]. specialize (Hk a w1).
  by eapply wave_state_kept_trans.
Qed.

Lemma keeps_can_send key :
  (∀ s, key ≠ "amon_wave_" +:+ s) →
  keeps_wave_state (_can_send_reminder clock key).
Proof.
  intros Hkey w.
  destruct (can_send_cases clock key w) as [[_ ->]|[_ ->]];
    repeat split; simpl; try done.
  intros s. by apply lookup_insert_ne.
Qed.

Lemma keeps_send title message urgency :
  title ≠ "Amon Attack Warning" →
  keeps_wave_state (_send_notification clock notify_ok title message urgency).
Proof.
  intros Htitle w.
  destruct (enable_notifications (self w)) eqn:He.
  - rewrite send_enabled by done.
    repeat split; simpl; try done.
    + unfold wave_entries. simpl. rewrite filter_app, filter_cons_False by done.
      by rewrite filter_nil, app_nil_r.
    + unfold wave_calls. simpl. rewrite filter_app, filter_cons_False by done.
      by rewrite filter_nil, app_nil_r.
  - rewrite send_disabled by done. apply wave_state_kept_refl.
Qed.
End AttackWaves.

(** Decomposition of a check into its calls, for [keeps_wave_state]. *)
Ltac keeps_wave :=
  repeat first
    [ apply keeps_ret
    | apply keeps_get_self
    | apply keeps_can_send; intros ? ?; discriminate
    | apply keeps_send; discriminate
    | apply keeps_bind; [|intros ?]
    | match goal with
      | |- Spec.keeps_wave_state (if ?b then _ else _) => destruct b
      | |- Spec.keeps_wave_state (match ?x with _ => _ end) => destruct x
      end ].

Section ModeGate.
Import ReminderEngine Spec.
Variable clock : nat → Q.
Variable notify_ok : nat → bool.

Lemma check_supply_keeps_waves supply_data :
  keeps_wave_state (check_supply clock notify_ok supply_data).
Proof. unfold check_supply. cbv zeta. keeps_wave. Qed.

Lemma check_resources_keeps_waves resource_data t :
  keeps_wave_state (check_resources clock notify_ok resource_data t).
Proof. unfold check_resources. cbv zeta. keeps_wave. Qed.

Lemma upgrade_loop_keeps_waves t items reminders :
  keeps_wave_state (upgrade_loop clock notify_ok t items reminders).
Proof.
  induction items as [|[timing message] items IH]; cbn [upgrade_loop];
    cbv zeta; keeps_wave; done.
Qed.

Lemma check_upgrade_timing_keeps_waves t current_upgrades :
  keeps_wave_state (check_upgrade_timing clock notify_ok t current_upgrades).
Proof. apply upgrade_loop_keeps_waves. Qed.

(** C2, as amended: with the configured ascending wave times 240, 480,
    720, 960, for every wave index [i] and elapsed time [t], the check
    fires the warning of wave [i] exactly when
    [0 < wave_time[i] - t <= 30] (the bound of 30 s is included) and the
    cooldown key [amon_wave_i] permits; firing is one stamp of that key
    followed by one emission.  [process_game_state] runs the check only
    when the mode of the state is ['coop'], after the other categories,
    which leave the wave state alone; in any other mode no attack
    reminder is returned and no wave key, wave history entry or wave
    notification is added. *)
Theorem attack_wave_window (t : Z) (mission_type : string) (w : World)
    (i : nat) (wave_time : Z) :
  amon_attack_wave_intervals (config (self w)) = [240; 480; 720; 960]%Z →
  [240; 480; 720; 960]%Z !! i = Some wave_time →
  let r := check_amon_attack_wave clock notify_ok t mission_type w in
  let message :=
    "🚨 Attack wave incoming in " +:+ str (wave_time - t) +:+ "s!" in
  let info := {| Wave.wave_number := Z.of_nat i + 1;
                 Wave.time_until := wave_time - t;
                 Wave.message := message |} in
  (fst r = Some info ↔
     (0 < wave_time - t ∧ wave_time - t ≤ 30)%Z ∧
     permits (clock (clock_reads w)) (self w) (wave_key i))
  ∧ (fst r = Some info →
     snd r = snd (_send_notification clock notify_ok "Amon Attack Warning"
                    message "critical" (stamped clock (wave_key i) w)))
  ∧ (∀ game_state w0,
       GameState.mode game_state = Some "coop" →
       let p := process_game_state clock notify_ok game_state w0 in
       ∃ w1, wave_state_kept w0 w1 ∧
             let c := check_amon_attack_wave clock notify_ok
                        (elapsed_seconds game_state) "standard" w1 in
             Reminders.attacks (fst p)
             = match fst c with
               | Some wave => [Wave.message wave]
               | None => []
               end ∧
             snd p = snd c)
  ∧ (∀ game_state w0,
       GameState.mode game_state ≠ Some "coop" →
       let p := process_game_state clock notify_ok game_state w0 in
       Reminders.attacks (fst p) = [] ∧ wave_state_kept w0 (snd p)).
Proof.
  intros Hcfg Hi r message info.
  destruct (wave_fires_iff clock notify_ok t mission_type w i wave_time Hcfg Hi)
    as [Hiff Heffect].
  split; [done|]. split; [done|].
  assert (Hprefix : ∀ game_state w0,
            let w1 := snd (check_supply clock notify_ok
                             (default ∅ (GameState.supply game_state)) w0) in
            let w2 := snd (check_resources clock notify_ok
                             (default ∅ (GameState.resources game_state))
                             (elapsed_seconds game_state) w1) in
            let w3 := snd (check_upgrade_timing clock notify_ok
                             (elapsed_seconds game_state)
                             (default ∅ (GameState.upgrades game_state)) w2) in
            wave_state_kept w0 w3).
  { intros game_state w0 w1 w2 w3.
    eapply wave_state_kept_trans; [apply check_supply_keeps_waves|].
    eapply wave_state_kept_trans; [apply check_resources_keeps_waves|].
    apply check_upgrade_timing_keeps_waves. }
  split; intros game_state w0 Hmode p; specialize (Hprefix game_state w0);
    simpl in Hprefix; subst p; unfold process_game_state, bind;
    cbv zeta; fold (elapsed_seconds game_state);
    destruct (check_supply _ _ _ w0) as [sr w1]; simpl in Hprefix;
    destruct (check_resources _ _ _ _ w1) as [rr w2]; simpl in Hprefix;
    destruct (check_upgrade_timing _ _ _ _ w2) as [ur w3]; simpl in Hprefix;
    destruct (decide _) as [Hcoop|Hother]; try done.
  - exists w3. split; [done|]. unfold bind.
    by destruct (check_amon_attack_wave _ _ _ _ w3) as [[wave|] w4].
Qed.
End ModeGate.

Lemma attack_wave_window_witness :
  ReminderEngine.amon_attack_wave_intervals
    (ReminderEngine.config (ReminderEngine.self (ReminderEngine.boot true)))
  = [240; 480; 720; 960]%Z ∧
  [240; 480; 720; 960]%Z !! 0 = Some 240%Z ∧
  fst (ReminderEngine.check_amon_attack_wave Sample.clk Sample.delivers 215
         "standard" (ReminderEngine.boot true))
  = Some {| ReminderEngine.Wave.wave_number := 1;
            ReminderEngine.Wave.time_until := 25;
            ReminderEngine.Wave.message := "🚨 Attack wave incoming in 25s!" |}.
Proof.
  split; [reflexivity|]. split; [reflexivity|].
  destruct (attack_wave_window Sample.clk Sample.delivers 215 "standard"
              (ReminderEngine.boot true) 0 240 eq_refl eq_refl)
    as (Hiff & _).
  apply Hiff. split; [lia|]. by apply never_fired_permits.
Defined.

(** C2 as stated fails at the bound: 30 s before the first wave
    ([t = 210], [wave_time[0] = 240]) a fresh engine in co-op mode fires
    the warning of wave 0, although [240 - 210 < 30] does not hold. *)
Lemma wave_warning_fires_at_thirty_seconds :
  let p := ReminderEngine.process_game_state Sample.clk Sample.delivers
             (Sample.state_at "03:30" "coop") (ReminderEngine.boot true) in
  let c := ReminderEngine.check_amon_attack_wave Sample.clk Sample.delivers 210
             "standard" (ReminderEngine.boot true) in
  Spec.elapsed_seconds (Sample.state_at "03:30" "coop") = 210%Z ∧
  ReminderEngine.Reminders.attacks (fst p) = ["🚨 Attack wave incoming in 30s!"] ∧
  fst c = Some {| ReminderEngine.Wave.wave_number := 1;
                  ReminderEngine.Wave.time_until := 30;
                  ReminderEngine.Wave.message := "🚨 Attack wave incoming in 30s!" |} ∧
  ReminderEngine.Entry.type
    <$> ReminderEngine.reminder_history (ReminderEngine.self (snd c))
  = ["Amon Attack Warning"] ∧
  ¬ (0 < 240 - 210 < 30)%Z.
Proof. vm_compute. repeat split. intros [_ H]. discriminate H. Qed.

(** ** One cycle of the main loop on sample images

    [main.py] passes the resource image for the supply region too and
    hands the snapshot to the engine as it is; the snapshot has no
    ['mode'] entry, so the attack-wave check is not run. *)
Example main_loop_cycle :
  let snapshot := OCRAnalysis.get_game_state Sample.read
                    (Some "1500 800 190/200") (Some "1500 800 190/200")
                    (Some "08:30") OCRAnalysis.init in
  let cycle := ReminderEngine.process_game_state Sample.clk Sample.delivers
                 (ReminderEngine.of_ocr_state (fst snapshot))
                 (ReminderEngine.boot true) in
  OCRAnalysis.State.supply (fst snapshot)
  = {[ "supply_used" := 1500800190%Z; "supply_cap" := 200%Z ]} ∧
  ReminderEngine.Reminders.supply (fst cycle)
  = ["⚠️ SUPPLY BLOCKED! 1500800190/200"] ∧
  ReminderEngine.Reminders.resources (fst cycle)
  = ["💎 High minerals: 1500 - Expand or build army!"] ∧
  ReminderEngine.Reminders.upgrades (fst cycle)
  = ["Consider starting +1 attack/armor upgrades"] ∧
  ReminderEngine.Reminders.attacks (fst cycle) = [] ∧
  length (ReminderEngine.reminder_history (ReminderEngine.self (snd cycle))) = 3.
Proof. vm_compute. repeat split. Qed.

(** ** Facts about the text primitives *)
Section TextFacts.
Import Shape.

Lemma string_app_nil_r s : s +:+ "" = s.
Proof. induction s as [|c s IH]; [done|]. by rewrite append_cons, IH. Qed.

Lemma string_app_assoc s1 s2 s3 : (s1 +:+ s2) +:+ s3 = s1 +:+ (s2 +:+ s3).
Proof. induction s1 as [|c s1 IH]; [done|]. by rewrite !append_cons, IH. Qed.

Lemma rev_app_rev_app s a b :
  String.rev_app (String.rev_app s a) b = String.rev_app a (s +:+ b).
Proof.
  revert a. induction s as [|c s IH]; intros a; [done|].
  simpl. by rewrite IH.
Qed.

Lemma string_rev_involutive s : String.rev (String.rev s) = s.
Proof.
  unfold String.rev. rewrite rev_app_rev_app. simpl.
  apply string_app_nil_r.
Qed.

Lemma all_digits_app s1 s2 :
  all_digits (s1 +:+ s2) = all_digits s1 && all_digits s2.
Proof.
  induction s1 as [|c s1 IH]; [done|].
  rewrite append_cons. simpl. rewrite IH. by destruct (Py.isdigit c).
Qed.

Lemma all_digits_rev_app s a :
  all_digits (String.rev_app s a) = all_digits s && all_digits a.
Proof.
  revert a. induction s as [|c s IH]; intros a; [done|].
  simpl. rewrite IH. simpl.
  destruct (Py.isdigit c), (all_digits s), (all_digits a); done.
Qed.

Lemma drop_while_digits p s :
  (∀ c, Py.isdigit c = true → p c = false) →
  all_digits s = true → Py.drop_while p s = s.
Proof.
  intros Hp Hs. destruct s as [|c s]; [done|]. simpl in *.
  apply andb_true_iff in Hs as [Hc _]. by rewrite Hp.
Qed.

Lemma strip_with_digits p s :
  (∀ c, Py.isdigit c = true → p c = false) →
  all_digits s = true → Py.strip_with p s = s.
Proof.
  intros Hp Hs. unfold Py.strip_with.
  rewrite (drop_while_digits p s) by done.
  rewrite drop_while_digits; [apply string_rev_involutive|done|].
  unfold String.rev. by rewrite all_digits_rev_app, Hs.
Qed.

Lemma digit_not_int_space c : Py.isdigit c = true → Py.int_space c = false.
Proof. by destruct c as [[] [] [] [] [] [] [] []]. Qed.

Lemma digit_not_space c : Py.isdigit c = true → Py.isspace c = false.
Proof. by destruct c as [[] [] [] [] [] [] [] []]. Qed.

Lemma digit_value_range c : (0 ≤ Py.digit_value c ≤ 9)%Z.
Proof. destruct c as [[] [] [] [] [] [] [] []]; vm_compute; split; discriminate. Qed.

Lemma filter_digits_all_digits s : all_digits (Py.filter_digits s) = true.
Proof.
  induction s as [|c s IH]; [done|]. simpl.
  destruct (Py.isdigit c) eqn:Hc; [|done]. simpl. by rewrite Hc.
Qed.

Lemma filter_digits_id s : all_digits s = true → Py.filter_digits s = s.
Proof.
  induction s as [|c s IH]; [done|]. simpl.
  intros [Hc Hs]%andb_true_iff. by rewrite Hc, IH.
Qed.

Lemma digitpart_ok_digits s :
  all_digits s = true → s ≠ "" → Py.digitpart_ok s = true.
Proof.
  induction s as [|c s IH]; [done|]. intros [Hc Hs]%andb_true_iff _.
  cbn [Py.digitpart_ok]. rewrite Hc. simpl.
  destruct s as [|c' s']; [done|].
  assert (Py.digitpart_ok (String c' s') = true) as Hrest by by apply IH.
  simpl in Hs. apply andb_true_iff in Hs as [Hc' _].
  by destruct c' as [[] [] [] [] [] [] [] []].
Qed.

(** [int] of a non-empty string of digits is its decimal value. *)
Lemma int_of_digits s :
  all_digits s = true → s ≠ "" → Py.int s = Some (Py.digits_value 0 s).
Proof.
  intros Hs Hne. unfold Py.int.
  rewrite strip_with_digits by (done || apply digit_not_int_space).
  assert (Py.unsigned_int s = Some (Py.digits_value 0 s)) as Hu.
  { unfold Py.unsigned_int. by rewrite digitpart_ok_digits, filter_digits_id. }
  destruct s as [|c s]; [done|].
  simpl in Hs. apply andb_true_iff in Hs as [Hc _].
  by destruct c as [[] [] [] [] [] [] [] []].
Qed.

Lemma int_of_empty : Py.int "" = None.
Proof. reflexivity. Qed.

Lemma digits_value_nonneg s : ∀ acc, (0 ≤ acc)%Z → (0 ≤ Py.digits_value acc s)%Z.
Proof.
  induction s as [|c s IH]; intros acc Hacc; [done|]. simpl.
  apply IH. pose proof (digit_value_range c). lia.
Qed.

(** [int] of the digits kept from any text is never negative. *)
Lemma int_filter_digits_nonneg s n :
  Py.int (Py.filter_digits s) = Some n → (0 ≤ n)%Z.
Proof.
  destruct (decide (Py.filter_digits s = "")) as [->|Hne]; [done|].
  rewrite int_of_digits by (done || apply filter_digits_all_digits).
  intros [= <-]. by apply digits_value_nonneg.
Qed.

Lemma split_go_length sep s :
  ∀ cur, length (Py.split_go sep cur s) = S (count_char sep s).
Proof.
  induction s as [|c s IH]; intros cur; [done|]. simpl.
  destruct (decide (c = sep)); simpl; by rewrite IH.
Qed.

Lemma contains_count sep s :
  Py.contains sep s = true ↔ 0 < count_char sep s.
Proof.
  induction s as [|c s IH]; simpl; [split; [done|lia]|].
  destruct (decide (c = sep)); simpl; [split; [lia|done]|done].
Qed.

(** Joining the parts of a split gives the text back. *)
Lemma join_split_go sep s : ∀ cur, join sep (Py.split_go sep cur s) = cur +:+ s.
Proof.
  induction s as [|c s IH]; intros cur; simpl.
  - by rewrite string_app_nil_r.
  - destruct (decide (c = sep)) as [->|Hne].
    + specialize (IH ""). pose proof (split_go_length sep s "") as Hlen.
      destruct (Py.split_go sep "" s) as [|p parts]; [done|].
      cbn [join]. cbn [join] in IH. by rewrite IH.
    + rewrite IH. by rewrite string_app_assoc.
Qed.

Lemma join_split sep s : join sep (Py.split sep s) = s.
Proof. apply join_split_go. Qed.

Lemma split_go_no_sep sep s :
  ∀ cur, count_char sep s = 0 → Py.split_go sep cur s = [cur +:+ s].
Proof.
  induction s as [|c s IH]; intros cur Hs; simpl.
  - by rewrite string_app_nil_r.
  - simpl in Hs. destruct (decide (c = sep)); [done|].
    rewrite IH by done. by rewrite string_app_assoc.
Qed.

Lemma split_go_at_sep sep a b :
  ∀ cur, count_char sep a = 0 →
    Py.split_go sep cur (a +:+ String sep b)
    = (cur +:+ a) :: Py.split_go sep "" b.
Proof.
  induction a as [|c a IH]; intros cur Ha.
  - simpl. rewrite decide_True by done. by rewrite string_app_nil_r.
  - rewrite append_cons. simpl. simpl in Ha.
    destruct (decide (c = sep)); [done|].
    rewrite IH by done. by rewrite string_app_assoc.
Qed.

Lemma digits_have_no_colon s : all_digits s = true → count_char ":" s = 0.
Proof.
  induction s as [|c s IH]; [done|]. simpl.
  intros [Hc Hs]%andb_true_iff. rewrite IH by done.
  destruct (decide (c = ":"%char)) as [->|]; done.
Qed.

(** A timer-shaped text splits at the colon and both parts convert. *)
Lemma timer_shaped_parses s :
  timer_shaped s →
  ∃ minutes seconds,
    Py.split ":" s = [minutes; seconds] ∧
    Py.int minutes = Some (Py.digits_value 0 minutes) ∧
    Py.int seconds = Some (Py.digits_value 0 seconds) ∧
    (0 ≤ Py.digits_value 0 minutes ≤ 99)%Z ∧
    (0 ≤ Py.digits_value 0 seconds ≤ 99)%Z.
Proof.
  intros (minutes & seconds & -> & Hm & Hs & Hlm & Hls).
  exists minutes, seconds. split.
  { unfold Py.split. rewrite split_go_at_sep by by apply digits_have_no_colon.
    by rewrite split_go_no_sep by by apply digits_have_no_colon. }
  assert (minutes ≠ "") as Hmne by (by destruct minutes; simpl in Hlm; try lia).
  assert (seconds ≠ "") as Hsne by (by destruct seconds).
  split; [by apply int_of_digits|]. split; [by apply int_of_digits|].
  split.
  - destruct minutes as [|a [|b [|c minutes]]]; simpl in Hlm; try lia; simpl.
    + pose proof (digit_value_range a). lia.
    + pose proof (digit_value_range a). pose proof (digit_value_range b). lia.
  - destruct seconds as [|a [|b [|c seconds]]]; simpl in Hls; try lia; simpl.
    pose proof (digit_value_range a). pose proof (digit_value_range b). lia.
Qed.

Lemma ascii_match_colon {A} (b : ascii) (X Y : A) :
  match b with ":"%char => X | _ => Y end
  = if decide (b = ":"%char) then X else Y.
Proof. by destruct b as [[] [] [] [] [] [] [] []]. Qed.

Lemma match_timer_shaped s m : Py.match_timer s = Some m → timer_shaped m.
Proof.
  unfold Py.match_timer.
  destruct s as [|a [|b rest]]; try done.
  destruct (Py.isdigit a) eqn:Ha; [|done].
  rewrite ascii_match_colon.
  destruct (decide (b = ":"%char)) as [->|Hb].
  - destruct rest as [|c [|d rest]]; [done|by destruct c as [[] [] [] [] [] [] [] []]|].
    assert ((if Py.isdigit c && Py.isdigit d
             then Some (String a (String ":" (String c (String d ""))))
             else None) = Some m → timer_shaped m) as Hfinish.
    { destruct (Py.isdigit c) eqn:Hc; [|done].
      destruct (Py.isdigit d) eqn:Hd; [|done].
      intros [= <-]. exists (String a ""), (String c (String d "")).
      simpl. rewrite Ha, Hc, Hd. repeat split; lia. }
    by destruct c as [[] [] [] [] [] [] [] []].
  - destruct rest as [|c0 [|c [|d rest]]];
      [done
      |by destruct c0 as [[] [] [] [] [] [] [] []]
      |by destruct c0 as [[] [] [] [] [] [] [] []]|].
    assert ((if Py.isdigit b && Py.isdigit c && Py.isdigit d
             then Some (String a (String b (String ":"
                          (String c (String d "")))))
             else None) = Some m → timer_shaped m) as Hfinish.
    { destruct (Py.isdigit b) eqn:Hb'; [|done].
      destruct (Py.isdigit c) eqn:Hc; [|done].
      destruct (Py.isdigit d) eqn:Hd; [|done].
      intros [= <-]. exists (String a (String b "")), (String c (String d "")).
      simpl. rewrite Ha, Hb', Hc, Hd. repeat split; lia. }
    by destruct c0 as [[] [] [] [] [] [] [] []].
Qed.

Lemma search_timer_shaped s m : Py.search_timer s = Some m → timer_shaped m.
Proof.
  induction s as [|c s IH]; cbn [Py.search_timer].
  - done.
  - destruct (Py.match_timer (String c s)) as [m'|] eqn:Hm.
    + intros ?. simplify_eq. by eapply match_timer_shaped.
    + apply IH.
Qed.
End TextFacts.

(** ** Further properties of the synthesizer *)
Section SynthesizerMore.
Import OCRAnalysis Shape.
Context {Image : Type}.
Variable image_to_string : Image → option string.

(** Writing both keys of a two-key dict replaces it. *)
Lemma overwrite_pair (k1 k2 : string) (a b x y : Z) :
  k1 ≠ k2 →
  <[k2 := y]> (<[k1 := x]> ({[ k1 := a; k2 := b ]} : gmap string Z))
  = {[ k1 := x; k2 := y ]}.
Proof.
  intros Hne. apply map_eq. intros k.
  destruct (decide (k = k2)) as [Hk2|Hk2];
    destruct (decide (k = k1)) as [Hk1|Hk1]; by simplify_map_eq.
Qed.

Lemma extract_numbers_nonneg text n :
  n ∈ extract_numbers text → (0 ≤ n)%Z.
Proof.
  unfold extract_numbers. intros (s & -> & _)%list_elem_of_fmap.
  by apply digits_value_nonneg.
Qed.

(** What [analyze_resources] returns, by the outcome of the pair parse. *)
Lemma analyze_resources_cases img self :
  match Spec.parse_pair (extract_text image_to_string img) with
  | Some (m, g) =>
      (0 ≤ m)%Z ∧ (0 ≤ g)%Z ∧
      analyze_resources image_to_string img self
      = ({[ "minerals" := m; "gas" := g ]}, set_resources m g self)
  | None =>
      analyze_resources image_to_string img self
      = ({[ "minerals" := Cache.minerals (last_known_state self);
            "gas" := Cache.gas (last_known_state self) ]}, self)
  end.
Proof.
  unfold Spec.parse_pair, analyze_resources.
  pose proof (extract_numbers_nonneg (extract_text image_to_string img)) as Hnn.
  destruct (extract_numbers _) as [|m [|g numbers]]; try done.
  split; [apply Hnn; set_solver|]. split; [apply Hnn; set_solver|].
  by rewrite overwrite_pair.
Qed.

(** What [analyze_supply] returns, by the shape of the text. *)
Lemma analyze_supply_cases img self :
  let text := extract_text image_to_string img in
  let cached : gmap string Z :=
    {[ "supply_used" := Cache.supply_used (last_known_state self);
       "supply_cap" := Cache.supply_cap (last_known_state self) ]} in
  (count_char "/" text ≠ 1 →
   analyze_supply image_to_string img self = (cached, self))
  ∧ (count_char "/" text = 1 →
     ∃ p0 p1,
       text = p0 +:+ String "/" p1 ∧
       count_char "/" p0 = 0 ∧ count_char "/" p1 = 0 ∧
       analyze_supply image_to_string img self
       = if decide (Py.filter_digits p0 = "" ∨ Py.filter_digits p1 = "")
         then (cached, self)
         else
           let used := Py.digits_value 0 (Py.filter_digits p0) in
           let cap := Py.digits_value 0 (Py.filter_digits p1) in
           ({[ "supply_used" := used; "supply_cap" := cap ]},
            set_supply used cap self)).
Proof.
  intros text cached. unfold analyze_supply. fold text. fold cached.
  pose proof (split_go_length "/" text "") as Hlen.
  pose proof (join_split "/" text) as Hjoin.
  fold (Py.split "/" text) in Hlen.
  split.
  - intros Hcount.
    destruct (Py.contains "/" text) eqn:Hc; [|done].
    apply contains_count in Hc.
    destruct (Py.split "/" text) as [|p0 [|p1 [|p2 parts]]];
      simpl in Hlen; try done; lia.
  - intros Hcount.
    assert (Py.contains "/" text = true) as -> by (apply contains_count; lia).
    destruct (Py.split "/" text) as [|p0 [|p1 [|p2 parts]]] eqn:Hsplit;
      simpl in Hlen; try lia.
    exists p0, p1. simpl in Hjoin. split; [done|].
    assert (count_char "/" p0 = 0 ∧ count_char "/" p1 = 0) as [Hp0 Hp1].
    { assert (count_char "/" (p0 +:+ String "/" p1)
              = count_char "/" p0 + S (count_char "/" p1)) as Hsum.
      { clear. induction p0 as [|c p0 IH]; [done|].
        rewrite append_cons. simpl. rewrite IH. lia. }
      rewrite Hjoin, Hcount in Hsum. lia. }
    split; [done|]. split; [done|].
    destruct (decide (Py.filter_digits p0 = "")) as [->|Hne0].
    { by rewrite decide_True by by left. }
    rewrite (int_of_digits (Py.filter_digits p0))
      by (done || apply filter_digits_all_digits).
    destruct (decide (Py.filter_digits p1 = "")) as [->|Hne1].
    { by rewrite decide_True by by right. }
    rewrite (int_of_digits (Py.filter_digits p1))
      by (done || apply filter_digits_all_digits).
    rewrite decide_False by (by intros [?|?]).
    cbv zeta. unfold cached. by rewrite overwrite_pair.
Qed.

Lemma analyze_supply_nonneg img self :
  (0 ≤ Cache.supply_used (last_known_state self))%Z →
  (0 ≤ Cache.supply_cap (last_known_state self))%Z →
  ∃ used cap,
    (0 ≤ used)%Z ∧ (0 ≤ cap)%Z ∧
    fst (analyze_supply image_to_string img self)
    = {[ "supply_used" := used; "supply_cap" := cap ]} ∧
    used = Cache.supply_used
             (last_known_state (snd (analyze_supply image_to_string img self))) ∧
    cap = Cache.supply_cap
            (last_known_state (snd (analyze_supply image_to_string img self))).
Proof.
  intros Hu Hc.
  destruct (analyze_supply_cases img self) as [Hother Hone].
  destruct (decide (count_char "/" (extract_text image_to_string img) = 1))
    as [Hcount|Hcount].
  - destruct (Hone Hcount) as (p0 & p1 & _ & _ & _ & ->).
    case_decide.
    + exists (Cache.supply_used (last_known_state self)),
        (Cache.supply_cap (last_known_state self)). by repeat split.
    + exists (Py.digits_value 0 (Py.filter_digits p0)),
        (Py.digits_value 0 (Py.filter_digits p1)).
      simpl. repeat split; by apply digits_value_nonneg.
  - rewrite (Hother Hcount).
    exists (Cache.supply_used (last_known_state self)),
      (Cache.supply_cap (last_known_state self)). by repeat split.
Qed.

Lemma split_point_unique sep p0 p1 q0 q1 :
  count_char sep p0 = 0 → count_char sep q0 = 0 →
  p0 +:+ String sep p1 = q0 +:+ String sep q1 → p0 = q0 ∧ p1 = q1.
Proof.
  revert q0. induction p0 as [|c p0 IH]; intros [|d q0] Hp0 Hq0 Heq.
  - change (String sep p1 = String sep q1) in Heq. by simplify_eq.
  - rewrite append_cons in Heq. change (String sep p1 = String d (q0 +:+ String sep q1)) in Heq.
    simplify_eq. simpl in Hq0. by rewrite decide_True in Hq0.
  - rewrite append_cons in Heq. change (String c (p0 +:+ String sep p1) = String sep q1) in Heq.
    simplify_eq. simpl in Hp0. by rewrite decide_True in Hp0.
  - rewrite !append_cons in Heq. simplify_eq. simpl in Hp0, Hq0.
    destruct (decide (d = sep)); [done|].
    destruct (IH q0) as [-> ->]; done.
Qed.

Lemma set_resources_same self :
  set_resources (Cache.minerals (last_known_state self))
    (Cache.gas (last_known_state self)) self = self.
Proof. by destruct self as [[]]. Qed.

Lemma set_supply_same self :
  set_supply (Cache.supply_used (last_known_state self))
    (Cache.supply_cap (last_known_state self)) self = self.
Proof. by destruct self as [[]]. Qed.

Lemma set_game_time_same self :
  set_game_time (Cache.game_time (last_known_state self)) self = self.
Proof. by destruct self as [[]]. Qed.

(** Running an analysis again on the same image, from a cache that holds
    what the first run left for its region, gives the same reading and
    changes nothing. *)
Lemma analyze_resources_again img self self' :
  let first := analyze_resources image_to_string img self in
  Cache.minerals (last_known_state self')
  = Cache.minerals (last_known_state (snd first)) →
  Cache.gas (last_known_state self') = Cache.gas (last_known_state (snd first)) →
  analyze_resources image_to_string img self' = (fst first, self').
Proof.
  intros first. subst first.
  pose proof (analyze_resources_cases img self) as H1.
  pose proof (analyze_resources_cases img self') as H2.
  destruct (Spec.parse_pair _) as [[m g]|].
  - destruct H1 as (_ & _ & ->). destruct H2 as (_ & _ & ->). simpl.
    intros <- <-. by rewrite set_resources_same.
  - rewrite H1, H2. simpl. by intros -> ->.
Qed.

Lemma analyze_supply_again img self self' :
  let first := analyze_supply image_to_string img self in
  Cache.supply_used (last_known_state self')
  = Cache.supply_used (last_known_state (snd first)) →
  Cache.supply_cap (last_known_state self')
  = Cache.supply_cap (last_known_state (snd first)) →
  analyze_supply image_to_string img self' = (fst first, self').
Proof.
  intros first. subst first.
  destruct (analyze_supply_cases img self) as [Ho1 H1].
  destruct (analyze_supply_cases img self') as [Ho2 H2].
  destruct (decide (count_char "/" (extract_text image_to_string img) = 1))
    as [Hcount|Hcount].
  - destruct (H1 Hcount) as (p0 & p1 & Htext & Hp0 & Hp1 & ->).
    destruct (H2 Hcount) as (q0 & q1 & Htext' & Hq0 & Hq1 & ->).
    assert (p0 = q0 ∧ p1 = q1) as [<- <-].
    { rewrite Htext in Htext'. by eapply split_point_unique. }
    case_decide; simpl.
    + by intros -> ->.
    + intros <- <-. by rewrite set_supply_same.
  - rewrite (Ho1 Hcount), (Ho2 Hcount). simpl. by intros -> ->.
Qed.

Lemma analyze_game_time_again img self self' :
  let first := analyze_game_time image_to_string img self in
  Cache.game_time (last_known_state self')
  = Cache.game_time (last_known_state (snd first)) →
  analyze_game_time image_to_string img self' = (fst first, self').
Proof.
  unfold analyze_game_time.
  destruct (Py.search_timer _) as [g|]; simpl.
  - intros <-. by rewrite set_game_time_same.
  - by intros ->.
Qed.

(** X1: building the snapshot again from the same images, on the cache
    the first pass left, returns the same snapshot and leaves the cache as
    it is. *)
Theorem get_game_state_idempotent
    (resource_img supply_img timer_img : option Image) (self : t) :
  let first := get_game_state image_to_string resource_img supply_img
                 timer_img self in
  get_game_state image_to_string resource_img supply_img timer_img (snd first)
  = first.
Proof.
  intros first. subst first. unfold get_game_state.
  destruct resource_img as [rimg|], supply_img as [simg|], timer_img as [timg|].
  all: repeat match goal with
         | |- context [analyze_resources image_to_string ?i ?s] =>
             is_var s;
             pose proof (analyze_resources_again i s);
             destruct (analyze_resources image_to_string i s) as [? ?]
         | |- context [analyze_supply image_to_string ?i ?s] =>
             is_var s;
             pose proof (analyze_supply_again i s);
             pose proof (analyze_supply_keeps_resources image_to_string i s)
               as (? & ? & ?);
             destruct (analyze_supply image_to_string i s) as [? ?]
         | |- context [analyze_game_time image_to_string ?i ?s] =>
             is_var s;
             pose proof (analyze_game_time_again i s);
             pose proof (analyze_game_time_keeps_numbers image_to_string i s)
               as (? & ? & ? & ?);
             destruct (analyze_game_time image_to_string i s) as [? ?]
         end.
  all: simpl in *.
  all: repeat match goal with
         | H : ∀ self', _ → _ → ?f image_to_string ?i self' = _
           |- context [?f image_to_string ?i ?s] =>
             rewrite (H s) by congruence
         | H : ∀ self', _ → analyze_game_time image_to_string ?i self' = _
           |- context [analyze_game_time image_to_string ?i ?s] =>
             rewrite (H s) by congruence
         end.
  all: done.
Qed.




Lemma timer_shaped_zero : timer_shaped "00:00".
Proof. exists "00", "00". repeat split; simpl; lia. Qed.

(** Each analysis keeps a well-formed cache well-formed and returns a
    reading of the same form. *)
Lemma analyze_resources_ok img self :
  cache_ok (last_known_state self) →
  cache_ok (last_known_state (snd (analyze_resources image_to_string img self))) ∧
  ∃ m g, (0 ≤ m)%Z ∧ (0 ≤ g)%Z ∧
         fst (analyze_resources image_to_string img self)
         = {[ "minerals" := m; "gas" := g ]}.
Proof.
  intros (Hm & Hg & Hu & Hc & Ht).
  pose proof (analyze_resources_cases img self) as Hcase.
  destruct (Spec.parse_pair _) as [[m g]|].
  - destruct Hcase as (Hm' & Hg' & ->). simpl.
    split; [by repeat split|]. by exists m, g.
  - rewrite Hcase. simpl. split; [by repeat split|].
    by exists (Cache.minerals (last_known_state self)),
         (Cache.gas (last_known_state self)).
Qed.

Lemma analyze_supply_ok img self :
  cache_ok (last_known_state self) →
  cache_ok (last_known_state (snd (analyze_supply image_to_string img self))) ∧
  ∃ used cap, (0 ≤ used)%Z ∧ (0 ≤ cap)%Z ∧
              fst (analyze_supply image_to_string img self)
              = {[ "supply_used" := used; "supply_cap" := cap ]}.
Proof.
  intros (Hm & Hg & Hu & Hc & Ht).
  destruct (analyze_supply_nonneg img self Hu Hc)
    as (used & cap & Hused & Hcap & Hfst & Hu' & Hc').
  destruct (analyze_supply_keeps_resources image_to_string img self)
    as (Hm' & Hg' & Ht').
  split; [|by exists used, cap].
  repeat split; congruence.
Qed.

Lemma analyze_game_time_ok img self :
  cache_ok (last_known_state self) →
  cache_ok (last_known_state (snd (analyze_game_time image_to_string img self))) ∧
  timer_shaped (fst (analyze_game_time image_to_string img self)).
Proof.
  intros (Hm & Hg & Hu & Hc & Ht). unfold analyze_game_time.
  destruct (Py.search_timer _) as [g|] eqn:Hsearch; simpl.
  - apply search_timer_shaped in Hsearch. by repeat split.
  - by repeat split.
Qed.

Lemma get_game_state_ok resource_img supply_img timer_img self :
  cache_ok (last_known_state self) →
  let p := get_game_state image_to_string resource_img supply_img timer_img
             self in
  cache_ok (last_known_state (snd p)) ∧
  (∃ m g, (0 ≤ m)%Z ∧ (0 ≤ g)%Z ∧
          State.resources (fst p) = {[ "minerals" := m; "gas" := g ]}) ∧
  (∃ used cap, (0 ≤ used)%Z ∧ (0 ≤ cap)%Z ∧
               State.supply (fst p)
               = {[ "supply_used" := used; "supply_cap" := cap ]}) ∧
  timer_shaped (State.game_time (fst p)).
Proof.
  intros Hok p. subst p. unfold get_game_state.
  assert (Hr : ∃ resources self1,
            match resource_img with
            | Some img => analyze_resources image_to_string img self
            | None => ({[ "minerals" := 0%Z; "gas" := 0%Z ]}, self)
            end = (resources, self1) ∧
            cache_ok (last_known_state self1) ∧
            ∃ m g, (0 ≤ m)%Z ∧ (0 ≤ g)%Z ∧
                   resources = {[ "minerals" := m; "gas" := g ]}).
  { destruct resource_img as [img|].
    - destruct (analyze_resources_ok img self Hok) as [Hok1 Hres].
      destruct (analyze_resources _ img self) as [resources self1].
      by exists resources, self1.
    - eexists _, _. split; [done|]. split; [done|]. by exists 0%Z, 0%Z. }
  destruct Hr as (resources & self1 & -> & Hok1 & Hres).
  assert (Hs : ∃ supply self2,
            match supply_img with
            | Some img => analyze_supply image_to_string img self1
            | None => ({[ "supply_used" := 0%Z; "supply_cap" := 200%Z ]}, self1)
            end = (supply, self2) ∧
            cache_ok (last_known_state self2) ∧
            ∃ used cap, (0 ≤ used)%Z ∧ (0 ≤ cap)%Z ∧
                        supply = {[ "supply_used" := used; "supply_cap" := cap ]}).
  { destruct supply_img as [img|].
    - destruct (analyze_supply_ok img self1 Hok1) as [Hok2 Hsup].
      destruct (analyze_supply _ img self1) as [supply self2].
      by exists supply, self2.
    - eexists _, _. split; [done|]. split; [done|]. by exists 0%Z, 200%Z. }
  destruct Hs as (supply & self2 & -> & Hok2 & Hsup).
  assert (Ht : ∃ game_time self3,
            match timer_img with
            | Some img => analyze_game_time image_to_string img self2
            | None => ("00:00", self2)
            end = (game_time, self3) ∧
            cache_ok (last_known_state self3) ∧ timer_shaped game_time).
  { destruct timer_img as [img|].
    - destruct (analyze_game_time_ok img self2 Hok2) as [Hok3 Hgt].
      destruct (analyze_game_time _ img self2) as [game_time self3].
      by exists game_time, self3.
    - eexists _, _. split; [done|]. split; [done|]. apply timer_shaped_zero. }
  destruct Ht as (game_time & self3 & -> & Hok3 & Hgt).
  simpl. done.
Qed.

(** X4: the cache built by the constructor is well-formed (no negative
    quantity, a game time of the form [D:DD] or [DD:DD]), every call of
    [get_game_state] keeps it so, and the snapshot it returns holds two
    resource values and two supply values that are not negative and a
    game time of that same form. *)
Theorem cache_stays_well_formed
    (resource_img supply_img timer_img : option Image) (self : t) :
  cache_ok (last_known_state init) ∧
  (cache_ok (last_known_state self) →
   let p := get_game_state image_to_string resource_img supply_img timer_img
              self in
   cache_ok (last_known_state (snd p)) ∧
   (∃ m g, (0 ≤ m)%Z ∧ (0 ≤ g)%Z ∧
           State.resources (fst p) = {[ "minerals" := m; "gas" := g ]}) ∧
   (∃ used cap, (0 ≤ used)%Z ∧ (0 ≤ cap)%Z ∧
                State.supply (fst p)
                = {[ "supply_used" := used; "supply_cap" := cap ]}) ∧
   timer_shaped (State.game_time (fst p))).
Proof.
  split.
  - repeat split; simpl; try lia. apply timer_shaped_zero.
  - apply get_game_state_ok.
Qed.

Lemma elapsed_of_timer_shaped game_state game_time :
  ReminderEngine.GameState.game_time game_state = Some game_time →
  timer_shaped game_time →
  ∃ minutes seconds,
    game_time = minutes +:+ String ":" seconds ∧
    Spec.elapsed_seconds game_state
    = (Py.digits_value 0 minutes * 60 + Py.digits_value 0 seconds)%Z ∧
    (0 ≤ Spec.elapsed_seconds game_state ≤ 6039)%Z.
Proof.
  intros Hgt Hshape.
  destruct (timer_shaped_parses game_time Hshape)
    as (minutes & seconds & Hsplit & Hm & Hs & Hmr & Hsr).
  exists minutes, seconds.
  assert (game_time = minutes +:+ String ":" seconds) as Hjoin.
  { rewrite <- (join_split ":" game_time), Hsplit. done. }
  split; [done|].
  unfold Spec.elapsed_seconds. rewrite Hgt. simpl.
  rewrite Hsplit, Hm, Hs. split; [done|lia].
Qed.

(** X5: the game time of a snapshot built from a well-formed cache always
    converts in [process_game_state]: the elapsed seconds are
    [minutes * 60 + seconds] of the two digit groups, between 0 and 6039,
    and the fallback to 0 for an unreadable time is never taken. *)
Theorem snapshot_time_always_parses
    (resource_img supply_img timer_img : option Image) (self : t) :
  cache_ok (last_known_state self) →
  let snapshot :=
    fst (get_game_state image_to_string resource_img supply_img timer_img self) in
  let game_state := ReminderEngine.of_ocr_state snapshot in
  ∃ minutes seconds,
    State.game_time snapshot = minutes +:+ String ":" seconds ∧
    Spec.elapsed_seconds game_state
    = (Py.digits_value 0 minutes * 60 + Py.digits_value 0 seconds)%Z ∧
    (0 ≤ Spec.elapsed_seconds game_state ≤ 6039)%Z.
Proof.
  intros Hok snapshot game_state.
  destruct (get_game_state_ok resource_img supply_img timer_img self Hok)
    as (_ & _ & _ & Hshape).
  by apply elapsed_of_timer_shaped.
Qed.
End SynthesizerMore.

(** ** Further properties of the reminder engine *)
Section EngineMore.
Import ReminderEngine Spec Shape.
Variable clock : nat → Q.
Variable notify_ok : nat → bool.

(** *** Reading and resetting *)

(** X6: [get_reminder_history] reads without changing anything and
    returns a suffix of the history: for a positive limit the most recent
    [min(limit, len)] entries; for the limit 0 the whole history (the
    slice [[-0:]] starts at the front); for a negative limit the history
    without its first [-limit] entries. *)
Theorem reminder_history_slice (limit : Z) (w : World) :
  let h := reminder_history (self w) in
  let r := get_reminder_history limit w in
  snd r = w
  ∧ fst r `suffix_of` h
  ∧ ((0 < limit)%Z →
     fst r = drop (length h - Z.to_nat limit) h ∧
     length (fst r) = Nat.min (Z.to_nat limit) (length h))
  ∧ (limit = 0%Z → fst r = h)
  ∧ ((limit < 0)%Z → fst r = drop (Z.to_nat (- limit)) h).
Proof.
  intros h r. subst r. unfold get_reminder_history, bind, get_self, ret.
  simpl. fold h.
  split; [done|]. split.
  { eexists. symmetry. apply take_drop. }
  split; [|split].
  - intros Hpos. rewrite decide_False by lia. rewrite decide_True by done.
    assert (Z.to_nat (Z.max 0 (Z.of_nat (length h) - limit))
            = length h - Z.to_nat limit) as -> by lia.
    split; [done|]. rewrite length_drop. lia.
  - intros ->. by rewrite decide_True.
  - intros Hneg. rewrite decide_False by lia. rewrite decide_False by lia.
    destruct (decide (Z.to_nat (- limit) ≤ length h)) as [Hle|Hgt].
    + by rewrite Z.min_r by lia.
    + rewrite Z.min_l by lia. rewrite Nat2Z.id.
      rewrite !drop_ge by lia. done.
Qed.

(** X7: [clear_cooldowns] empties the cooldown table and nothing else;
    after it any advisory fires at its next attempt, however recently it
    fired before. *)
Theorem clear_cooldowns_resets (w : World) (key title message urgency : string) :
  let w' := snd (clear_cooldowns w) in
  cooldowns (self w') = ∅
  ∧ reminder_history (self w') = reminder_history (self w)
  ∧ enable_notifications (self w') = enable_notifications (self w)
  ∧ default_cooldown (self w') = default_cooldown (self w)
  ∧ config (self w') = config (self w)
  ∧ notify_calls w' = notify_calls w
  ∧ clock_reads w' = clock_reads w
  ∧ fst (attempt clock notify_ok key title message urgency w') = true.
Proof.
  intros w'. subst w'. unfold clear_cooldowns, bind, get_self, put_self. simpl.
  repeat split.
  apply attempt_permitted, never_fired_permits. simpl. apply lookup_empty.
Qed.

(** *** The history as a ledger *)

Lemma emits_ret {A} n (a : A) (size : A → nat) :
  size a = n → emits n (ret a) size.
Proof.
  intros Hsize w. exists []. simpl. rewrite !app_nil_r.
  repeat split; try done. by destruct (enable_notifications (self w)).
Qed.

Lemma emits_bind {A B} n (m : M A) (k : A → M B) (sm : A → nat)
    (size : B → nat) :
  emits n m sm → (∀ a, emits (sm a) (k a) size) → emits n (bind m k) size.
Proof.
  intros Hm Hk w. unfold bind.
  destruct (Hm w) as (e1 & Hh1 & Hc1 & He1 & Hd1 & Hg1 & Hdom1 & Hn1).
  destruct (m w) as [a w1]. simpl in *.
  destruct (Hk a w1) as (e2 & Hh2 & Hc2 & He2 & Hd2 & Hg2 & Hdom2 & Hn2).
  exists (e1 ++ e2).
  rewrite Hh2, Hh1, Hc2, Hc1, He2, He1, Hd2, Hd1, Hg2, Hg1.
  rewrite fmap_app, !app_assoc.
  repeat split; try done.
  - set_solver.
  - rewrite He1 in Hn2.
    destruct (enable_notifications (self w)).
    + rewrite length_app. lia.
    + by rewrite Hn1, Hn2.
Qed.

Lemma emits_get_self n : emits n get_self (λ _, n).
Proof.
  intros w. exists []. simpl. rewrite !app_nil_r.
  repeat split; try done. by destruct (enable_notifications (self w)).
Qed.

Lemma emits_can_send n key :
  emits n (_can_send_reminder clock key) (λ _, n).
Proof.
  intros w. exists [].
  destruct (can_send_cases clock key w) as [[_ ->]|[_ ->]]; simpl;
    rewrite !app_nil_r; repeat split; try done;
    try (by destruct (enable_notifications (self w))).
  apply dom_insert_subseteq.
Qed.

Lemma emits_send n title message urgency :
  emits n (_send_notification clock notify_ok title message urgency)
    (λ _, S n).
Proof.
  intros w. destruct (enable_notifications (self w)) eqn:He.
  - rewrite send_enabled by done.
    exists [{| Entry.timestamp := clock (clock_reads w); Entry.type := title;
               Entry.message := message; Entry.urgency := urgency |}].
    simpl. by repeat split.
  - rewrite send_disabled by done. exists []. simpl.
    rewrite !app_nil_r. rewrite He. by repeat split.
Qed.

Lemma emits_weaken {A} n (m : M A) (size size' : A → nat) :
  (∀ a, size a = size' a) → emits n m size → emits n m size'.
Proof.
  intros Heq Hm w. destruct (Hm w) as (e & ? & ? & ? & ? & ? & ? & Hn).
  exists e. repeat split; try done. rewrite <- Heq. done.
Qed.

(** One cooldown-gated emission that contributes [x] to the result when it
    fires and [y] when it does not. *)
Lemma emits_gated {A} n key title message urgency (x y : A) (size : A → nat) :
  size x = S n → size y = n →
  emits n
    (bind (_can_send_reminder clock key)
       (λ ok : bool,
          if ok
          then bind (_send_notification clock notify_ok title message urgency)
                 (λ _, ret x)
          else ret y))
    size.
Proof.
  intros Hx Hy.
  eapply emits_bind; [apply emits_can_send|]. intros [|]; cbv beta.
  - eapply emits_bind; [apply emits_send|]. intros []. by apply emits_ret.
  - by apply emits_ret.
Qed.

Lemma supply_message_not_empty prefix rest :
  prefix ≠ "" → prefix +:+ rest ≠ "".
Proof. by destruct prefix. Qed.

Lemma truthy_some m : m ≠ "" → truthy (Some m) = [m].
Proof. intros Hm. unfold truthy. by rewrite decide_False. Qed.

Lemma check_supply_emits n supply_data :
  emits n (check_supply clock notify_ok supply_data)
    (λ r, n + length (truthy r)).
Proof.
  unfold check_supply. cbv zeta.
  destruct (decide _); [apply emits_ret; simpl; lia|].
  eapply emits_bind; [apply emits_get_self|]. intros e; cbv beta.
  destruct (Qle_bool _ _).
  - apply emits_gated; cbv beta; [|simpl; lia].
    rewrite truthy_some by by apply supply_message_not_empty. simpl. lia.
  - destruct (Qle_bool _ _); [|apply emits_ret; simpl; lia].
    apply emits_gated; cbv beta; [|simpl; lia].
    rewrite truthy_some by by apply supply_message_not_empty. simpl. lia.
Qed.

Lemma check_resources_emits n resource_data t :
  emits n (check_resources clock notify_ok resource_data t)
    (λ r, n + length r).
Proof.
  unfold check_resources. cbv zeta.
  destruct (decide _); [apply emits_ret; simpl; lia|].
  eapply emits_bind; [apply emits_get_self|]. intros e; cbv beta.
  apply (emits_bind _ _ _ (λ r, n + length r)).
  { destruct (decide _); [|apply emits_ret; simpl; lia].
    apply emits_gated; simpl; lia. }
  intros reminders.
  apply (emits_bind _ _ _ (λ r, n + length r)).
  { destruct (decide _); [|by apply emits_ret].
    apply emits_gated; [|done]. rewrite length_app. simpl. lia. }
  intros reminders'. by apply emits_ret.
Qed.

Lemma upgrade_loop_emits n t items :
  ∀ reminders,
    emits (n + length reminders)
      (upgrade_loop clock notify_ok t items reminders) (λ r, n + length r).
Proof.
  induction items as [|[timing message] items IH]; intros reminders;
    cbn [upgrade_loop]; [by apply emits_ret|].
  cbv zeta. destruct (decide _); [|apply IH].
  eapply emits_bind; [apply emits_can_send|]. intros [|]; cbv beta.
  - eapply emits_bind; [apply emits_send|]. intros [].
    apply emits_ret. rewrite length_app. simpl. lia.
  - apply IH.
Qed.

Lemma check_upgrade_timing_emits n t current_upgrades :
  emits n (check_upgrade_timing clock notify_ok t current_upgrades)
    (λ r, n + length r).
Proof.
  unfold check_upgrade_timing.
  pose proof (upgrade_loop_emits n t upgrade_timings []) as H.
  simpl in H. by rewrite Nat.add_0_r in H.
Qed.

Lemma wave_loop_emits n t waves :
  ∀ i,
    emits n (wave_loop clock notify_ok t i waves)
      (λ r, n + match r with Some _ => 1 | None => 0 end).
Proof.
  induction waves as [|wave_time waves IH]; intros i;
    cbn [wave_loop]; [apply emits_ret; lia|].
  cbv zeta. destruct (decide _); [|apply IH].
  eapply emits_bind; [apply emits_can_send|]. intros [|]; cbv beta.
  - eapply emits_bind; [apply emits_send|]. intros [].
    apply emits_ret. lia.
  - apply IH.
Qed.

Lemma process_game_state_emits game_state :
  emits 0 (process_game_state clock notify_ok game_state) reminder_count.
Proof.
  unfold process_game_state. cbv zeta.
  eapply emits_bind; [apply (check_supply_emits 0)|].
  intros supply_reminder; cbv beta.
  eapply emits_bind; [apply check_resources_emits|].
  intros resource_reminders; cbv beta.
  eapply emits_bind; [apply check_upgrade_timing_emits|].
  intros upgrade_reminders; cbv beta.
  apply (emits_bind _ _ _
           (λ attacks, length (truthy supply_reminder)
                       + length resource_reminders
                       + length upgrade_reminders + length attacks)).
  - destruct (decide _); [|apply emits_ret; simpl; lia].
    eapply emits_bind.
    { unfold check_amon_attack_wave.
      eapply emits_bind; [apply emits_get_self|]. intros engine; cbv beta.
      apply wave_loop_emits. }
    intros [info|]; cbv beta; apply emits_ret; simpl; lia.
  - intros attacks. apply emits_ret. unfold reminder_count. simpl. lia.
Qed.

(** X8: whatever the state and the engine, [process_game_state] only
    appends to the reminder history, with one call of the notification
    back end per entry, carrying the entry's title and message; it never
    changes the notification flag, the cooldown length or the
    configuration and never removes a cooldown key.  With notifications
    enabled the number of entries appended is the number of reminders
    returned, over all categories; with notifications disabled nothing is
    appended. *)
Theorem process_game_state_appends (game_state : GameState.t) (w : World) :
  let p := process_game_state clock notify_ok game_state w in
  ∃ entries,
    reminder_history (self (snd p)) = reminder_history (self w) ++ entries ∧
    notify_calls (snd p) = notify_calls w ++ (call_of <$> entries) ∧
    enable_notifications (self (snd p)) = enable_notifications (self w) ∧
    default_cooldown (self (snd p)) = default_cooldown (self w) ∧
    config (self (snd p)) = config (self w) ∧
    dom (cooldowns (self w)) ⊆ dom (cooldowns (self (snd p))) ∧
    (if enable_notifications (self w)
     then length entries = reminder_count (fst p)
     else entries = []).
Proof.
  intros p. subst p.
  destruct (process_game_state_emits game_state w)
    as (entries & Hh & Hc & He & Hd & Hg & Hdom & Hn).
  exists entries. repeat split; try done.
  destruct (enable_notifications (self w)); [|done]. lia.
Qed.

(** *** The early game *)

Lemma check_resources_early resource_data t w :
  (t < 180)%Z →
  check_resources clock notify_ok resource_data t w = ([], w).
Proof. intros Ht. unfold check_resources. by rewrite decide_True. Qed.

Lemma check_upgrade_timing_early t current_upgrades w :
  (t < 300)%Z →
  check_upgrade_timing clock notify_ok t current_upgrades w = ([], w).
Proof.
  intros Ht. unfold check_upgrade_timing, upgrade_timings. cbn [upgrade_loop].
  by rewrite !decide_False by lia.
Qed.

Lemma check_amon_attack_wave_early t mission_type w :
  amon_attack_wave_intervals (config (self w)) = [240; 480; 720; 960]%Z →
  (t < 210)%Z →
  check_amon_attack_wave clock notify_ok t mission_type w = (None, w).
Proof.
  intros Hcfg Ht. unfold check_amon_attack_wave, bind, get_self.
  rewrite Hcfg. cbn [wave_loop].
  by rewrite !decide_False by lia.
Qed.

Lemma elapsed_seconds_unreadable game_state :
  (GameState.game_time game_state = None → elapsed_seconds game_state = 0%Z)
  ∧ (∀ text, GameState.game_time game_state = Some text →
       count_char ":" text ≠ 1 → elapsed_seconds game_state = 0%Z).
Proof.
  unfold elapsed_seconds. split.
  - by intros ->.
  - intros text -> Hcount. simpl.
    pose proof (split_go_length ":" text "") as Hlen.
    fold (Py.split ":" text) in Hlen.
    destruct (Py.split ":" text) as [|m [|s [|x parts]]]; try done.
    simpl in Hlen. lia.
Qed.

(** A cycle below 180 s of game time is the supply check alone. *)
Lemma process_game_state_early game_state w :
  config (self w) = default_config →
  (elapsed_seconds game_state < 180)%Z →
  let p := process_game_state clock notify_ok game_state w in
  let s := check_supply clock notify_ok
             (default ∅ (GameState.supply game_state)) w in
  fst p = {| Reminders.supply := truthy (fst s); Reminders.resources := [];
             Reminders.workers := []; Reminders.upgrades := [];
             Reminders.attacks := []; Reminders.tips := [] |}
  ∧ snd p = snd s.
Proof.
  intros Hcfg Ht p s.
  split; subst p s; unfold process_game_state, bind; cbv zeta;
    fold (elapsed_seconds game_state);
    pose proof (check_supply_keeps_waves clock notify_ok
                  (default ∅ (GameState.supply game_state)) w)
      as (_ & _ & _ & _ & Hcfg');
    destruct (check_supply _ _ _ w) as [sr w1]; simpl in Hcfg';
    rewrite check_resources_early by done;
    rewrite check_upgrade_timing_early by lia;
    (destruct (decide _);
     [unfold bind;
      rewrite check_amon_attack_wave_early
        by (by rewrite ?Hcfg', ?Hcfg || lia)|]);
    done.
Qed.

(** X9: while the elapsed game time is below 180 s, and in particular
    when the state has no game time or one that does not hold exactly one
    colon (the elapsed time then counts as 0), a decision cycle is the
    supply check alone: no resource, upgrade or attack reminder is
    returned, whatever the resources and the mode, and the engine ends in
    the state the supply check leaves. *)
Theorem early_game_only_supply (game_state : GameState.t) (w : World) :
  config (self w) = default_config →
  (elapsed_seconds game_state < 180)%Z →
  let p := process_game_state clock notify_ok game_state w in
  let s := check_supply clock notify_ok
             (default ∅ (GameState.supply game_state)) w in
  fst p = {| Reminders.supply := truthy (fst s); Reminders.resources := [];
             Reminders.workers := []; Reminders.upgrades := [];
             Reminders.attacks := []; Reminders.tips := [] |}
  ∧ snd p = snd s
  ∧ (GameState.game_time game_state = None → elapsed_seconds game_state = 0%Z)
  ∧ (∀ text, GameState.game_time game_state = Some text →
       count_char ":" text ≠ 1 → elapsed_seconds game_state = 0%Z).
Proof.
  intros Hcfg Ht p s.
  destruct (process_game_state_early game_state w Hcfg Ht) as [Hfst Hsnd].
  destruct (elapsed_seconds_unreadable game_state) as [Hnone Hcolon].
  done.
Qed.

(** *** Commander tips *)

Lemma tips_lookup commander_name game_phase tip :
  tips !! commander_name ≫= (λ by_phase, by_phase !! game_phase) = Some tip →
  (commander_name = "Raynor" ∨ commander_name = "Kerrigan") ∧
  (game_phase = "early" ∨ game_phase = "mid" ∨ game_phase = "late").
Proof.
  unfold tips. intros Hlookup.
  destruct (decide (commander_name = "Raynor")) as [->|Hr];
    [|destruct (decide (commander_name = "Kerrigan")) as [->|Hk]].
  - split; [by left|].
    destruct (decide (game_phase = "early")) as [->|He]; [by left|].
    destruct (decide (game_phase = "mid")) as [->|Hm]; [by right; left|].
    destruct (decide (game_phase = "late")) as [->|Hl]; [by right; right|].
    by simplify_map_eq.
  - split; [by right|].
    destruct (decide (game_phase = "early")) as [->|He]; [by left|].
    destruct (decide (game_phase = "mid")) as [->|Hm]; [by right; left|].
    destruct (decide (game_phase = "late")) as [->|Hl]; [by right; right|].
    by simplify_map_eq.
  - by simplify_map_eq.
Qed.

(** X10: for a commander other than Raynor and Kerrigan, or a phase other
    than early, mid and late, [get_commander_tip] returns no tip and does
    nothing: the clock is not read and no cooldown key is stamped. *)
Theorem commander_tip_unknown_is_noop
    (commander_name game_phase : string) (prestige : Z) (w : World) :
  (commander_name ≠ "Raynor" ∧ commander_name ≠ "Kerrigan") ∨
  (game_phase ≠ "early" ∧ game_phase ≠ "mid" ∧ game_phase ≠ "late") →
  get_commander_tip clock notify_ok commander_name prestige game_phase w
  = (None, w).
Proof.
  intros Hunknown. unfold get_commander_tip.
  destruct (tips !! commander_name ≫= _) as [tip|] eqn:Hlookup; [|done].
  apply tips_lookup in Hlookup as [Hname Hphase].
  destruct Hunknown as [[Hr Hk]|(He & Hm & Hl)].
  - by destruct Hname.
  - by destruct Hphase as [?|[?|?]].
Qed.

(** X11: the cooldown of a tip is keyed by the phase alone.  Once a tip
    has fired for a phase, a request for a tip of the same phase made less
    than the cooldown length later returns nothing and leaves the engine
    as it is, for whichever commander it is made. *)
Theorem commander_tip_one_per_phase
    (name1 name2 game_phase : string) (prestige1 prestige2 : Z)
    (w w2 : World) (tip : string) :
  let first := get_commander_tip clock notify_ok name1 prestige1 game_phase w in
  let second := get_commander_tip clock notify_ok name2 prestige2 game_phase
                  w2 in
  fst first = Some tip →
  unrelated ("commander_tip_" +:+ game_phase) (snd first) w2 →
  (clock (clock_reads w2) - clock (clock_reads w) < default_cooldown (self w))%Q →
  fst second = None ∧ self (snd second) = self w2 ∧
  notify_calls (snd second) = notify_calls w2.
Proof.
  intros first second Hfst [Hkey Hcd] Hsoon. subst first second.
  unfold get_commander_tip in *.
  destruct (tips !! name1 ≫= _) as [tip1|]; [|done].
  unfold bind in Hfst, Hkey, Hcd.
  destruct (can_send_cases clock ("commander_tip_" +:+ game_phase) w)
    as [[_ Hcall]|[_ Hcall]]; rewrite Hcall in Hfst, Hkey, Hcd; [done|].
  destruct (send_keeps_cooldowns clock notify_ok (name1 +:+ " Tip")
              ("💡 " +:+ tip1) "normal"
              (stamped clock ("commander_tip_" +:+ game_phase) w))
    as (Hcs & Hds & _).
  destruct (_send_notification _ _ _ _ _ _) as [[] w1].
  simpl in *. rewrite Hcs in Hkey. rewrite Hds in Hcd. simpl in Hkey, Hcd.
  rewrite lookup_insert_eq in Hkey.
  destruct (tips !! name2 ≫= _) as [tip2|]; [|done].
  unfold bind. rewrite can_send_refused; [done|].
  exists (clock (clock_reads w)). split; [done|]. by rewrite Hcd.
Qed.

(** *** Worker production *)


End EngineMore.

(** ** The supply flag of the snapshot and the supply tiers of the engine *)
Section SupplyFlag.
Import OCRAnalysis ReminderEngine Spec Shape.
Context {Image : Type}.
Variable image_to_string : Image → option string.
Variable clock : nat → Q.
Variable notify_ok : nat → bool.

(** The supply check as one case distinction on the ratio. *)
Lemma check_supply_by_ratio supply_data w :
  config (self w) = default_config →
  let supply_used := default 0%Z (supply_data !! "supply_used") in
  let supply_cap := default 200%Z (supply_data !! "supply_cap") in
  let ratio := (inject_Z supply_used / inject_Z supply_cap)%Q in
  let critical :=
    "⚠️ SUPPLY BLOCKED! " +:+ str supply_used +:+ "/" +:+ str supply_cap in
  let warning :=
    "⚠️ Supply Warning: " +:+ str supply_used +:+ "/" +:+ str supply_cap in
  check_supply clock notify_ok supply_data w
  = if decide (supply_cap = 0%Z) then (None, w)
    else if Qle_bool 0.95 ratio then
      let a := attempt clock notify_ok "supply_critical" "Supply Critical"
                 critical "critical" w in
      (if fst a then Some critical else None, snd a)
    else if Qle_bool 0.85 ratio then
      let a := attempt clock notify_ok "supply_warning" "Build Supply"
                 warning "normal" w in
      (if fst a then Some warning else None, snd a)
    else (None, w).
Proof.
  intros Hcfg supply_used supply_cap ratio critical warning.
  unfold check_supply. fold supply_used supply_cap.
  destruct (decide (supply_cap = 0%Z)); [done|].
  unfold bind at 1, get_self. fold ratio. rewrite Hcfg. simpl.
  destruct (Qle_bool 0.95 ratio).
  { unfold attempt, bind, ret.
    destruct (_can_send_reminder _ _ _) as [[] w1]; [|done].
    by destruct (_send_notification _ _ _ _ _ _) as [[] w2]. }
  destruct (Qle_bool 0.85 ratio); [|done].
  unfold attempt, bind, ret.
  destruct (_can_send_reminder _ _ _) as [[] w1]; [|done].
  by destruct (_send_notification _ _ _ _ _ _) as [[] w2].
Qed.

Lemma overflow_names resource_data threshold name :
  name ∈ detect_resource_overflow resource_data threshold →
  name = "minerals" ∨ name = "gas".
Proof.
  unfold detect_resource_overflow.
  repeat case_decide; set_solver.
Qed.

Lemma supply_block_flag resource_img supply_img timer_img self :
  let snapshot :=
    fst (get_game_state image_to_string resource_img supply_img timer_img self) in
  "supply_block" ∈ State.warnings snapshot
  ↔ detect_supply_block (State.supply snapshot) 0.9 = true.
Proof.
  unfold get_game_state.
  destruct (match resource_img with Some _ => _ | None => _ end)
    as [resources self1].
  destruct (match supply_img with Some _ => _ | None => _ end)
    as [supply self2].
  destruct (match timer_img with Some _ => _ | None => _ end)
    as [game_time self3].
  simpl.
  assert ("supply_block"
          ∉ (λ res, res +:+ "_overflow") <$> detect_resource_overflow resources 1000)
    as Hover.
  { intros (name & Heq & [->| ->]%overflow_names)%list_elem_of_fmap; done. }
  destruct (detect_supply_block supply 0.9); set_solver.
Qed.

(** X13: the snapshot carries the warning ["supply_block"] exactly when
    [detect_supply_block] holds of its supply at 90%, a threshold that
    lies between the two tiers of the engine.  A snapshot without the
    flag never gets the critical advisory from [check_supply], and the
    critical key is not stamped; a snapshot with the flag gets an
    advisory, critical or warning, whenever the cooldown table permits
    both keys. *)
Theorem supply_flag_between_engine_tiers
    (resource_img supply_img timer_img : option Image) (self0 : OCRAnalysis.t)
    (w : World) :
  config (self w) = default_config →
  let snapshot :=
    fst (get_game_state image_to_string resource_img supply_img timer_img self0) in
  let r := check_supply clock notify_ok (State.supply snapshot) w in
  ("supply_block" ∈ State.warnings snapshot
   ↔ detect_supply_block (State.supply snapshot) 0.9 = true)
  ∧ ("supply_block" ∉ State.warnings snapshot →
     (∀ rest, fst r ≠ Some ("⚠️ SUPPLY BLOCKED! " +:+ rest)) ∧
     cooldowns (self (snd r)) !! "supply_critical"
     = cooldowns (self w) !! "supply_critical")
  ∧ ("supply_block" ∈ State.warnings snapshot →
     permits (clock (clock_reads w)) (self w) "supply_critical" →
     permits (clock (clock_reads w)) (self w) "supply_warning" →
     ∃ message, fst r = Some message).
Proof.
  intros Hcfg snapshot r.
  pose proof (supply_block_flag resource_img supply_img timer_img self0) as Hflag.
  fold snapshot in Hflag. split; [done|].
  subst r. rewrite (check_supply_by_ratio _ w Hcfg).
  rewrite Hflag. unfold detect_supply_block.
  destruct (decide (default 200%Z (State.supply snapshot !! "supply_cap") = 0%Z))
    as [Hcap|Hcap]; [done|].
  set (ratio := (inject_Z _ / inject_Z _)%Q).
  destruct (Qle_bool 0.95 ratio) eqn:Hcrit.
  { apply Qle_bool_iff in Hcrit. split.
    - intros Hno. destruct Hno. apply Qle_bool_iff. lra.
    - intros _ Hp _. cbv zeta. simpl. rewrite attempt_permitted by done.
      by eexists. }
  destruct (Qle_bool 0.85 ratio) eqn:Hwarn.
  { split.
    - intros _. cbv zeta. simpl. split.
      + intros rest. destruct (fst (attempt _ _ _ _ _ _ _)); [|done].
        intros Heq.
        assert (∀ a b : string, Some a = Some b → a = b) as Hinj
          by (intros ?? [=]; done).
        apply Hinj in Heq. symmetry in Heq.
        by apply supply_messages_differ in Heq.
      + by apply attempt_other_key.
    - intros _ _ Hp. cbv zeta. simpl. rewrite attempt_permitted by done.
      by eexists. }
  split; [done|].
  intros Hge. apply Qle_bool_iff in Hge.
  assert (¬ (0.85 <= ratio)%Q) as Hlow.
  { intros Hle. apply Qle_bool_iff in Hle. congruence. }
  lra.
Qed.

(** X14: the snapshot lists its warnings in a fixed order, the supply
    flag, then ["minerals_overflow"], then ["gas_overflow"], the last two
    exactly when the value exceeds 1000, the threshold that the engine
    is configured with.  On the resources of a snapshot without overflow
    warning [check_resources] does nothing, at any game time; on those
    of a snapshot that warns of minerals it returns a reminder from
    180 s of game time on, whenever the cooldown table permits the
    mineral key. *)
Theorem overflow_flags_agree_with_engine
    (resource_img supply_img timer_img : option Image) (self0 : OCRAnalysis.t)
    (game_time_seconds : Z) (w : World) :
  config (self w) = default_config →
  let snapshot :=
    fst (get_game_state image_to_string resource_img supply_img timer_img self0) in
  let minerals := default 0%Z (State.resources snapshot !! "minerals") in
  let gas := default 0%Z (State.resources snapshot !! "gas") in
  let r := check_resources clock notify_ok (State.resources snapshot)
             game_time_seconds w in
  State.warnings snapshot
  = (if detect_supply_block (State.supply snapshot) 0.9
     then ["supply_block"] else []) ++
    (if decide (1000 < minerals)%Z then ["minerals_overflow"] else []) ++
    (if decide (1000 < gas)%Z then ["gas_overflow"] else [])
  ∧ ("minerals_overflow" ∉ State.warnings snapshot →
     "gas_overflow" ∉ State.warnings snapshot → r = ([], w))
  ∧ ("minerals_overflow" ∈ State.warnings snapshot →
     (180 ≤ game_time_seconds)%Z →
     permits (clock (clock_reads w)) (self w) "mineral_overflow" →
     fst r ≠ []).
Proof.
  intros Hcfg snapshot minerals gas r.
  assert (State.warnings snapshot
          = (if detect_supply_block (State.supply snapshot) 0.9
             then ["supply_block"] else []) ++
            (if decide (1000 < minerals)%Z then ["minerals_overflow"] else []) ++
            (if decide (1000 < gas)%Z then ["gas_overflow"] else []))
    as Hwarnings.
  { subst minerals gas snapshot. unfold get_game_state.
    destruct (match resource_img with Some _ => _ | None => _ end)
      as [resources self1].
    destruct (match supply_img with Some _ => _ | None => _ end)
      as [supply self2].
    destruct (match timer_img with Some _ => _ | None => _ end)
      as [game_time self3].
    simpl. unfold detect_resource_overflow.
    by repeat case_decide. }
  split; [done|]. rewrite Hwarnings.
  subst r. unfold check_resources. fold minerals gas. cbv zeta.
  split.
  - intros Hm Hg.
    destruct (decide (game_time_seconds < 180)%Z); [done|].
    unfold bind at 1, get_self. rewrite Hcfg. simpl.
    destruct (decide (1000 < minerals)%Z).
    { destruct Hm. rewrite !elem_of_app. right. left. by left. }
    destruct (decide (1000 < gas)%Z); [|done].
    destruct Hg. rewrite !elem_of_app. right. right. by left.
  - intros Hm Ht Hp.
    rewrite decide_False by lia.
    unfold bind at 1, get_self. rewrite Hcfg. simpl.
    destruct (decide (1000 < minerals)%Z) as [Hover|Hunder].
    + unfold bind, ret.
      rewrite can_send_permitted by done.
      destruct (_send_notification _ _ _ _ _ _) as [[] w1].
      destruct (decide (1000 < gas)%Z); [|done].
      destruct (_can_send_reminder _ _ w1) as [[] w2]; [|done].
      by destruct (_send_notification _ _ _ _ _ w2) as [[] w3].
    + rewrite !elem_of_app in Hm.
      destruct Hm as [Hm|[Hm|Hm]].
      * destruct (detect_supply_block _ _); set_solver.
      * by apply elem_of_nil in Hm.
      * destruct (decide (1000 < gas)%Z); set_solver.
Qed.
End SupplyFlag.

(** ** Named regions *)
Section ScreenMore.
Import Shape.
Context {Image : Type}.
Variable grab : nat → ScreenCapture.Region.t → option Image.

Lemma capture_named_region_keeps name self :
  let self' := snd (ScreenCapture.capture_named_region grab name self) in
  ScreenCapture.regions self' = ScreenCapture.regions self ∧
  ScreenCapture.monitor self' = ScreenCapture.monitor self.
Proof.
  unfold ScreenCapture.capture_named_region.
  by destruct (ScreenCapture.regions self !! name) as [[region|]|].
Qed.

Lemma capture_named_region_defined name region self :
  ScreenCapture.regions self !! name = Some (Some region) →
  ScreenCapture.capture_named_region grab name self
  = ScreenCapture.capture_region grab region self.
Proof. unfold ScreenCapture.capture_named_region. by intros ->. Qed.

(** X15: a region set under a name is the one that a capture of that name
    grabs, with the next call of the screen grabber; the regions of the
    other names are left as they are, and setting the name again
    replaces the region. *)
Theorem set_region_then_capture
    (name other : string) (left top width height : Z)
    (self : ScreenCapture.t) :
  let region :=
    {| ScreenCapture.Region.left := left; ScreenCapture.Region.top := top;
       ScreenCapture.Region.width := width;
       ScreenCapture.Region.height := height |} in
  let self' := ScreenCapture.set_region name left top width height self in
  let shot := ScreenCapture.capture_named_region grab name self' in
  fst shot = grab (ScreenCapture.grabs self) region
  ∧ ScreenCapture.grabs (snd shot) = S (ScreenCapture.grabs self)
  ∧ (other ≠ name →
     fst (ScreenCapture.capture_named_region grab other self')
     = fst (ScreenCapture.capture_named_region grab other self))
  ∧ (∀ left' top' width' height',
       ScreenCapture.set_region name left' top' width' height' self'
       = ScreenCapture.set_region name left' top' width' height' self).
Proof.
  intros region self' shot. subst shot self'.
  unfold ScreenCapture.capture_named_region, ScreenCapture.set_region.
  simpl. rewrite lookup_insert_eq. simpl.
  split; [done|]. split; [done|]. split.
  - intros Hne. rewrite lookup_insert_ne by done.
    by destruct (ScreenCapture.regions self !! other) as [[?|]|].
  - intros. by rewrite insert_insert_eq.
Qed.

Lemma auto_detect_regions self name :
  ScreenCapture.regions (snd (ScreenCapture.auto_detect_sc2_window self)) !! name
  = if decide (name = "timer") then
      Some (Some (ScreenCapture.Region.mk 860 10 200 40))
    else if decide (name = "unit_info") then
      Some (Some (ScreenCapture.Region.mk 1400 800 500 200))
    else if decide (name = "command_card") then
      Some (Some (ScreenCapture.Region.mk 700 800 500 200))
    else if decide (name = "minimap") then
      Some (Some (ScreenCapture.Region.mk 10 650 300 300))
    else if decide (name = "resources") then
      Some (Some (ScreenCapture.Region.mk 10 10 300 50))
    else ScreenCapture.regions self !! name.
Proof.
  unfold ScreenCapture.auto_detect_sc2_window, ScreenCapture.set_region. simpl.
  repeat case_decide; by simplify_map_eq.
Qed.

Lemma fresh_regions monitor name :
  ScreenCapture.regions (ScreenCapture.init monitor) !! name = None ∨
  ScreenCapture.regions (ScreenCapture.init monitor) !! name = Some None.
Proof.
  unfold ScreenCapture.init. simpl.
  destruct (decide (name = "resources")) as [->|?]; [by right|].
  destruct (decide (name = "minimap")) as [->|?]; [by right|].
  destruct (decide (name = "command_card")) as [->|?]; [by right|].
  destruct (decide (name = "unit_info")) as [->|?]; [by right|].
  destruct (decide (name = "timer")) as [->|?]; [by right|].
  left. by simplify_map_eq.
Qed.

(** X16: a fresh instance has no region defined: a capture of any name
    returns nothing and does not call the screen grabber.  Auto-detection
    always succeeds and defines exactly the five regions resources,
    minimap, command_card, unit_info and timer; whatever the monitor,
    each of them lies within a 1920x1080 screen, and a capture of it is
    a capture of that region.  The resolution reported is the one of
    the monitor, which auto-detection does not read. *)
Theorem auto_detect_defines_five_regions
    (monitor : ScreenCapture.Region.t) (name : string) :
  let fresh := ScreenCapture.init monitor in
  let ready := snd (ScreenCapture.auto_detect_sc2_window fresh) in
  ScreenCapture.capture_named_region grab name fresh = (None, fresh)
  ∧ fst (ScreenCapture.auto_detect_sc2_window fresh) = true
  ∧ (name ∈ ["resources"; "minimap"; "command_card"; "unit_info"; "timer"]
     ↔ ∃ region, ScreenCapture.regions ready !! name = Some (Some region))
  ∧ (∀ region,
       ScreenCapture.regions ready !! name = Some (Some region) →
       within_full_hd region ∧
       ScreenCapture.capture_named_region grab name ready
       = ScreenCapture.capture_region grab region ready)
  ∧ ScreenCapture.get_screen_resolution ready
    = (ScreenCapture.Region.width monitor, ScreenCapture.Region.height monitor).
Proof.
  intros fresh ready.
  split.
  { unfold ScreenCapture.capture_named_region. subst ready fresh.
    by destruct (fresh_regions monitor name) as [-> | ->]. }
  split; [done|].
  assert (Hin : ∀ region,
            ScreenCapture.regions ready !! name = Some (Some region) →
            name ∈ ["resources"; "minimap"; "command_card"; "unit_info"; "timer"]
            ∧ within_full_hd region).
  { intros region. subst ready fresh. rewrite auto_detect_regions.
    unfold within_full_hd.
    repeat case_decide; subst;
      try (intros [= <-]; simpl; split;
           [rewrite !elem_of_cons; tauto | lia]).
    by destruct (fresh_regions monitor name) as [-> | ->]. }
  split; [split|split].
  - intros Hname. subst ready fresh. rewrite auto_detect_regions.
    rewrite !elem_of_cons, elem_of_nil in Hname.
    repeat case_decide; try by eexists. tauto.
  - intros [region Hregion]. by apply Hin in Hregion as [? _].
  - intros region Hregion. split; [by apply Hin in Hregion as [_ ?]|].
    by apply capture_named_region_defined.
  - done.
Qed.
End ScreenMore.

(** ** The monitoring loop *)
Ltac solve_mem :=
  solve [ unfold Shape.main_keys, Shape.main_titles;
          repeat first [apply list_elem_of_here | apply list_elem_of_further] ].

Section MainMore.
Import OCRAnalysis ReminderEngine Spec Shape Main.
Context {Image : Type}.
Variable grab : nat → ScreenCapture.Region.t → option Image.
Variable image_to_string : Image → option string.
Variable clock : nat → Q.
Variable notify_ok : nat → bool.

(** The pass of the loop without its destructuring bindings. *)
Lemma loop_body_eq app :
  loop_body grab image_to_string clock notify_ok app
  = let c1 := ScreenCapture.capture_named_region grab "resources"
                (screen_capture app) in
    let c2 := ScreenCapture.capture_named_region grab "timer" (snd c1) in
    match fst c1 with
    | Some img =>
        let g := get_game_state image_to_string (Some img) (Some img) (fst c2)
                   (ocr_analysis app) in
        let p := process_game_state clock notify_ok (of_ocr_state (fst g))
                   (reminder_engine app) in
        (Some (fst g, fst p),
         {| screen_capture := snd c2; ocr_analysis := snd g;
            reminder_engine := snd p; iteration := iteration app + 1 |})
    | None =>
        (None,
         {| screen_capture := snd c2; ocr_analysis := ocr_analysis app;
            reminder_engine := reminder_engine app;
            iteration := iteration app + 1 |})
    end.
Proof.
  unfold loop_body.
  destruct (ScreenCapture.capture_named_region grab "resources" _)
    as [[img|] sc1]; simpl;
    destruct (ScreenCapture.capture_named_region grab "timer" sc1)
      as [timer sc2]; simpl; [|done].
  destruct (get_game_state _ _ _ _ _) as [g o]. simpl.
  by destruct (process_game_state _ _ _ _) as [r e].
Qed.

(** *** Keeping a property of the engine *)

Lemma preserves_ret {A} (P : World → Prop) (a : A) : preserves P (ret a).
Proof. by intros w Hw. Qed.

Lemma preserves_get_self (P : World → Prop) : preserves P get_self.
Proof. by intros w Hw. Qed.

Lemma preserves_bind {A B} (P : World → Prop) (m : M A) (k : A → M B) :
  preserves P m → (∀ a, preserves P (k a)) → preserves P (bind m k).
Proof.
  intros Hm Hk w Hw. unfold bind. specialize (Hm w Hw).
  destruct (m w) as [a w1]. by apply Hk.
Qed.

Lemma confined_can_send key :
  key ∈ main_keys → preserves confined (_can_send_reminder clock key).
Proof.
  intros Hkey w [Hkeys Hhist].
  destruct (can_send_cases clock key w) as [[_ ->]|[_ ->]]; [done|].
  split; [|done]. simpl. intros key' Hsome.
  destruct (decide (key' = key)) as [->|Hne]; [done|].
  rewrite lookup_insert_ne in Hsome by done. by apply Hkeys.
Qed.

Lemma confined_send title message urgency :
  title ∈ main_titles →
  preserves confined (_send_notification clock notify_ok title message urgency).
Proof.
  intros Htitle w [Hkeys Hhist].
  destruct (enable_notifications (self w)) eqn:He.
  - rewrite send_enabled by done. split; [done|]. simpl.
    apply Forall_app. split; [done|]. by apply Forall_singleton.
  - by rewrite send_disabled.
Qed.

Ltac confined_step :=
  repeat first
    [ apply preserves_ret
    | apply preserves_get_self
    | apply confined_can_send; solve_mem
    | apply confined_send; solve_mem
    | apply preserves_bind; [|intros ?]
    | match goal with
      | |- preserves _ (if ?b then _ else _) => destruct b
      | |- preserves _ (match ?x with _ => _ end) => destruct x
      end ].

Lemma check_supply_confined supply_data :
  preserves confined (check_supply clock notify_ok supply_data).
Proof. unfold check_supply. cbv zeta. confined_step. Qed.

Lemma check_resources_confined resource_data t :
  preserves confined (check_resources clock notify_ok resource_data t).
Proof. unfold check_resources. cbv zeta. confined_step. Qed.

Lemma check_upgrade_timing_confined t current_upgrades :
  preserves confined (check_upgrade_timing clock notify_ok t current_upgrades).
Proof.
  unfold check_upgrade_timing, upgrade_timings. cbn [upgrade_loop].
  change ("upgrade_" +:+ str 300) with "upgrade_300".
  change ("upgrade_" +:+ str 480) with "upgrade_480".
  change ("upgrade_" +:+ str 720) with "upgrade_720".
  confined_step.
Qed.

Lemma process_game_state_confined game_state :
  GameState.mode game_state ≠ Some "coop" →
  preserves confined (process_game_state clock notify_ok game_state).
Proof.
  intros Hmode. unfold process_game_state. cbv zeta.
  apply preserves_bind; [apply check_supply_confined|intros sr].
  apply preserves_bind; [apply check_resources_confined|intros rr].
  apply preserves_bind; [apply check_upgrade_timing_confined|intros ur].
  rewrite decide_False by done.
  apply preserves_bind; [apply preserves_ret|intros attacks].
  apply preserves_ret.
Qed.

(** Outside co-op mode a cycle reports no attack. *)
Lemma process_game_state_no_attack game_state w :
  GameState.mode game_state ≠ Some "coop" →
  let r := fst (process_game_state clock notify_ok game_state w) in
  Reminders.attacks r = [] ∧ Reminders.workers r = [] ∧ Reminders.tips r = [].
Proof.
  intros Hmode. unfold process_game_state, bind. cbv zeta.
  destruct (check_supply _ _ _ w) as [sr w1].
  destruct (check_resources _ _ _ _ w1) as [rr w2].
  destruct (check_upgrade_timing _ _ _ _ w2) as [ur w3].
  by rewrite decide_False by done.
Qed.

(** *** One pass *)

Lemma startup_app_ok monitor : app_ok (startup monitor).
Proof.
  repeat split; simpl; try lia; try done.
  - apply timer_shaped_zero.
  - intros key [x Hx]. by rewrite lookup_empty in Hx.
Qed.

Lemma loop_body_app_ok app :
  app_ok app → app_ok (snd (loop_body grab image_to_string clock notify_ok app)).
Proof.
  intros (Hcache & Hledger & Hconf & Hen & Hcfg).
  rewrite loop_body_eq. cbv zeta.
  destruct (fst (ScreenCapture.capture_named_region grab "resources" _))
    as [img|]; [|done].
  simpl.
  set (g := get_game_state _ _ _ _ _).
  destruct (process_game_state_emits clock notify_ok (of_ocr_state (fst g))
              (reminder_engine app))
    as (entries & Hh & Hc & He & Hd & Hg & Hdom & Hn).
  split; [|split; [|split; [|split]]]; simpl.
  - by apply get_game_state_ok.
  - unfold ledger in *. by rewrite Hc, Hh, fmap_app, Hledger.
  - by apply process_game_state_confined.
  - congruence.
  - congruence.
Qed.

Lemma loop_keeps (P : App → Prop) :
  (∀ app, P app → P (snd (loop_body grab image_to_string clock notify_ok app))) →
  ∀ n app, P app → P (loop grab image_to_string clock notify_ok n app).
Proof.
  intros Hstep n. induction n as [|n IH]; intros app Happ; [done|].
  simpl. by apply IH, Hstep.
Qed.

Lemma loop_body_counts app :
  let app' := snd (loop_body grab image_to_string clock notify_ok app) in
  iteration app' = (iteration app + 1)%Z ∧
  ScreenCapture.regions (screen_capture app')
  = ScreenCapture.regions (screen_capture app) ∧
  ∀ r1 r2,
    ScreenCapture.regions (screen_capture app) !! "resources" = Some (Some r1) →
    ScreenCapture.regions (screen_capture app) !! "timer" = Some (Some r2) →
    ScreenCapture.grabs (screen_capture app')
    = S (S (ScreenCapture.grabs (screen_capture app))).
Proof.
  rewrite loop_body_eq. cbv zeta.
  pose proof (capture_named_region_keeps grab "resources" (screen_capture app))
    as [Hr1 _].
  pose proof (capture_named_region_keeps grab "timer"
                (snd (ScreenCapture.capture_named_region grab "resources"
                        (screen_capture app)))) as [Hr2 _].
  assert (∀ r1 r2,
    ScreenCapture.regions (screen_capture app) !! "resources" = Some (Some r1) →
    ScreenCapture.regions (screen_capture app) !! "timer" = Some (Some r2) →
    ScreenCapture.grabs
      (snd (ScreenCapture.capture_named_region grab "timer"
              (snd (ScreenCapture.capture_named_region grab "resources"
                      (screen_capture app)))))
    = S (S (ScreenCapture.grabs (screen_capture app)))) as Hgrabs.
  { intros r1 r2 H1 H2.
    rewrite (capture_named_region_defined grab "timer" r2)
      by (by rewrite Hr1).
    by rewrite (capture_named_region_defined grab "resources" r1). }
  destruct (fst (ScreenCapture.capture_named_region grab "resources" _));
    simpl; (split; [done|]); (split; [congruence|done]).
Qed.

Lemma loop_counts n :
  ∀ app,
    let app' := loop grab image_to_string clock notify_ok n app in
    iteration app' = (iteration app + Z.of_nat n)%Z ∧
    ScreenCapture.regions (screen_capture app')
    = ScreenCapture.regions (screen_capture app) ∧
    ∀ r1 r2,
      ScreenCapture.regions (screen_capture app) !! "resources" = Some (Some r1) →
      ScreenCapture.regions (screen_capture app) !! "timer" = Some (Some r2) →
      ScreenCapture.grabs (screen_capture app')
      = ScreenCapture.grabs (screen_capture app) + 2 * n.
Proof.
  induction n as [|n IH]; intros app; simpl.
  - split; [lia|]. split; [done|]. intros. lia.
  - destruct (loop_body_counts app) as (Hi & Hr & Hg).
    destruct (IH (snd (loop_body grab image_to_string clock notify_ok app)))
      as (Hi' & Hr' & Hg').
    split; [lia|]. split; [congruence|].
    intros r1 r2 H1 H2. rewrite (Hg' r1 r2) by congruence.
    rewrite (Hg r1 r2) by done. lia.
Qed.

(** X17: from start-up, after any number of passes of the loop and
    whatever the screen, the OCR back end, the clock and the notification
    back end do: the iteration counter is the number of passes, each pass
    has called the screen grabber twice, the cache is well-formed, every
    call made to the notification back end has its entry in the history
    and conversely, and notifications and the default configuration are
    still in place. *)
Theorem main_loop_invariant (monitor : ScreenCapture.Region.t) (n : nat) :
  let app := loop grab image_to_string clock notify_ok n (startup monitor) in
  iteration app = Z.of_nat n
  ∧ ScreenCapture.grabs (screen_capture app) = 2 * n
  ∧ cache_ok (last_known_state (ocr_analysis app))
  ∧ ledger (reminder_engine app)
  ∧ enable_notifications (self (reminder_engine app)) = true
  ∧ config (self (reminder_engine app)) = default_config.
Proof.
  intros app.
  destruct (loop_counts n (startup monitor)) as (Hi & _ & Hg).
  destruct (loop_keeps app_ok loop_body_app_ok n (startup monitor)
              (startup_app_ok monitor)) as (Hcache & Hledger & _ & Hen & Hcfg).
  subst app. split; [rewrite Hi; simpl; lia|]. split; [|done].
  by rewrite (Hg (ScreenCapture.Region.mk 10 10 300 50)
                (ScreenCapture.Region.mk 860 10 200 40)).
Qed.

Lemma wave_key_not_main s : "amon_wave_" +:+ s ∉ main_keys.
Proof.
  unfold main_keys. rewrite !elem_of_cons, elem_of_nil, !append_cons.
  intros Hin. repeat (destruct Hin as [Hin|Hin]; [discriminate Hin|]). done.
Qed.

Lemma confined_no_waves w :
  confined w → ledger w →
  (∀ s, cooldowns (self w) !! ("amon_wave_" +:+ s) = None) ∧
  wave_entries (self w) = [] ∧ wave_calls w = [].
Proof.
  intros [Hkeys Hhist] Hledger. split; [|split].
  - intros s.
    destruct (cooldowns (self w) !! ("amon_wave_" +:+ s)) eqn:Hs; [|done].
    destruct (wave_key_not_main s). apply Hkeys. by rewrite Hs.
  - unfold wave_entries.
    induction Hhist as [|r history Hr Hhist IH]; [done|].
    rewrite filter_cons, decide_False; [done|].
    intros Heq. rewrite Heq in Hr. unfold main_titles in Hr.
    rewrite !elem_of_cons, elem_of_nil in Hr.
    repeat (destruct Hr as [Hr|Hr]; [discriminate Hr|]). done.
  - unfold wave_calls. rewrite Hledger.
    induction Hhist as [|r history Hr Hhist IH]; [done|].
    rewrite fmap_cons, filter_cons, decide_False; [done|].
    simpl. intros Heq. rewrite Heq in Hr. unfold main_titles in Hr.
    rewrite !elem_of_cons, elem_of_nil in Hr.
    repeat (destruct Hr as [Hr|Hr]; [discriminate Hr|]). done.
Qed.

(** X18: the loop of [main] never reaches the co-op checks.  The state it
    hands to the engine has no mode, so from start-up, after any number
    of passes, the cooldown table holds none but the seven keys of the
    supply, resource and upgrade checks, the history none but their four
    titles; no attack-wave key is ever stamped, no attack-wave warning
    recorded or sent, and the next pass reports no attack, no worker and
    no tip reminder. *)
Theorem main_loop_never_warns_of_waves
    (monitor : ScreenCapture.Region.t) (n : nat) :
  let app := loop grab image_to_string clock notify_ok n (startup monitor) in
  let engine := reminder_engine app in
  (∀ key, is_Some (cooldowns (self engine) !! key) → key ∈ main_keys)
  ∧ Forall (λ r, Entry.type r ∈ main_titles) (reminder_history (self engine))
  ∧ (∀ i, cooldowns (self engine) !! wave_key i = None)
  ∧ wave_entries (self engine) = []
  ∧ wave_calls engine = []
  ∧ (∀ state reminders,
       fst (loop_body grab image_to_string clock notify_ok app)
       = Some (state, reminders) →
       Reminders.attacks reminders = [] ∧ Reminders.workers reminders = [] ∧
       Reminders.tips reminders = []).
Proof.
  intros app engine.
  destruct (loop_keeps app_ok loop_body_app_ok n (startup monitor)
              (startup_app_ok monitor)) as (_ & Hledger & Hconf & _).
  fold app in Hledger, Hconf. fold engine in Hledger, Hconf.
  destruct (confined_no_waves engine Hconf Hledger) as (Hkeys & Hentries & Hcalls).
  destruct Hconf as [Hmain Htitles].
  do 2 (split; [done|]). split; [intros i; apply Hkeys|].
  do 2 (split; [done|]).
  intros state reminders. rewrite loop_body_eq. cbv zeta.
  destruct (fst (ScreenCapture.capture_named_region grab "resources" _))
    as [img|]; [|done].
  simpl. intros [= _ <-].
  by apply process_game_state_no_attack.
Qed.

Lemma loop_body_blind app region :
  ScreenCapture.regions (screen_capture app) !! "resources"
  = Some (Some region) →
  grab (ScreenCapture.grabs (screen_capture app)) region = None →
  let r := loop_body grab image_to_string clock notify_ok app in
  fst r = None ∧ ocr_analysis (snd r) = ocr_analysis app ∧
  reminder_engine (snd r) = reminder_engine app.
Proof.
  intros Hregion Hgrab. rewrite loop_body_eq. cbv zeta.
  rewrite (capture_named_region_defined grab "resources" region) by done.
  unfold ScreenCapture.capture_region at 2 3 4 5. simpl. by rewrite Hgrab.
Qed.

(** X19: as long as the screen grabber fails on the resource region, the
    loop does nothing but count: after any number of passes the cache
    and the engine are the ones built at start-up, no text was analysed
    and no reminder considered, and the next pass yields no result
    either. *)
Theorem blind_loop_stays_silent (monitor : ScreenCapture.Region.t) (n : nat) :
  (∀ k, grab k (ScreenCapture.Region.mk 10 10 300 50) = None) →
  let app := loop grab image_to_string clock notify_ok n (startup monitor) in
  ocr_analysis app = OCRAnalysis.init
  ∧ reminder_engine app = boot true
  ∧ iteration app = Z.of_nat n
  ∧ fst (loop_body grab image_to_string clock notify_ok app) = None.
Proof.
  intros Hblind app.
  assert (Hready : ∀ app0,
            ScreenCapture.regions (screen_capture app0) !! "resources"
            = Some (Some (ScreenCapture.Region.mk 10 10 300 50)) →
            ∀ m,
              let app1 := loop grab image_to_string clock notify_ok m app0 in
              ocr_analysis app1 = ocr_analysis app0 ∧
              reminder_engine app1 = reminder_engine app0 ∧
              ScreenCapture.regions (screen_capture app1) !! "resources"
              = Some (Some (ScreenCapture.Region.mk 10 10 300 50))).
  { intros app0 Hregion m. revert app0 Hregion.
    induction m as [|m IH]; intros app0 Hregion; [done|]. simpl.
    destruct (loop_body_blind app0 _ Hregion (Hblind _)) as (_ & Ho & He).
    destruct (loop_body_counts app0) as (_ & Hr & _).
    destruct (IH (snd (loop_body grab image_to_string clock notify_ok app0)))
      as (Ho' & He' & Hr'); [by rewrite Hr|].
    split; [congruence|]. split; [congruence|done]. }
  destruct (Hready (startup monitor) eq_refl n) as (Ho & He & Hr).
  destruct (loop_counts n (startup monitor)) as (Hi & _ & _).
  fold app in Ho, He, Hr, Hi.
  split; [done|]. split; [done|]. split; [rewrite Hi; simpl; lia|].
  by destruct (loop_body_blind app _ Hr (Hblind _)) as (? & _).
Qed.

Lemma get_game_state_without_timer resource_img supply_img self :
  let g := get_game_state image_to_string resource_img supply_img None self in
  State.game_time (fst g) = "00:00" ∧
  Cache.game_time (last_known_state (snd g))
  = Cache.game_time (last_known_state self).
Proof.
  unfold get_game_state.
  destruct resource_img as [img|]; destruct supply_img as [img'|].
  - pose proof (analyze_resources_keeps_others image_to_string img self)
      as (_ & _ & Hr).
    destruct (analyze_resources _ img self) as [resources self1].
    pose proof (analyze_supply_keeps_resources image_to_string img' self1)
      as (_ & _ & Hs).
    destruct (analyze_supply _ img' self1) as [supply self2].
    simpl in *. split; [done|congruence].
  - pose proof (analyze_resources_keeps_others image_to_string img self)
      as (_ & _ & Hr).
    by destruct (analyze_resources _ img self) as [resources self1].
  - pose proof (analyze_supply_keeps_resources image_to_string img' self)
      as (_ & _ & Hs).
    by destruct (analyze_supply _ img' self) as [supply self2].
  - done.
Qed.

(** X20: a pass in which the resource region was captured but the timer
    region was not runs the engine on the game time ["00:00"], whatever
    the game time in the cache, which it leaves as it is: the pass is the
    supply check alone, and no resource or upgrade reminder is
    considered. *)
Theorem pass_without_timer_checks_supply_only (app : App) (img : Image) :
  config (self (reminder_engine app)) = default_config →
  let c1 := ScreenCapture.capture_named_region grab "resources"
              (screen_capture app) in
  let c2 := ScreenCapture.capture_named_region grab "timer" (snd c1) in
  fst c1 = Some img →
  fst c2 = None →
  let r := loop_body grab image_to_string clock notify_ok app in
  ∃ state reminders,
    fst r = Some (state, reminders) ∧
    State.game_time state = "00:00" ∧
    Cache.game_time (last_known_state (ocr_analysis (snd r)))
    = Cache.game_time (last_known_state (ocr_analysis app)) ∧
    let s := check_supply clock notify_ok (State.supply state)
               (reminder_engine app) in
    reminders
    = {| Reminders.supply := truthy (fst s); Reminders.resources := [];
         Reminders.workers := []; Reminders.upgrades := [];
         Reminders.attacks := []; Reminders.tips := [] |} ∧
    reminder_engine (snd r) = snd s.
Proof.
  intros Hcfg c1 c2 Hc1 Hc2 r. subst r. rewrite loop_body_eq. cbv zeta.
  fold c1. fold c2. rewrite Hc1, Hc2.
  destruct (get_game_state_without_timer (Some img) (Some img)
              (ocr_analysis app)) as [Htime Hcache].
  set (g := get_game_state _ _ _ _ _) in *.
  destruct (process_game_state_early clock notify_ok (of_ocr_state (fst g))
              (reminder_engine app) Hcfg) as [Hfst Hsnd].
  { unfold elapsed_seconds. simpl. by rewrite Htime. }
  eexists _, _. split; [done|]. simpl.
  split; [done|]. split; [done|]. by split.
Qed.
End MainMore.

(** ** One image for resources and supply *)
Section SharedImage.
Import OCRAnalysis Shape.
Context {Image : Type}.
Variable image_to_string : Image → option string.







End SharedImage.

(** ** The further properties on sample inputs *)


Lemma snapshot_time_always_parses_witness :
  Shape.cache_ok (OCRAnalysis.last_known_state OCRAnalysis.init) ∧
  (0 ≤ Spec.elapsed_seconds
         (ReminderEngine.of_ocr_state
            (fst (OCRAnalysis.get_game_state Sample.read None None
                    (Some "t 12:34") OCRAnalysis.init))) ≤ 6039)%Z.
Proof.
  assert (Hok : Shape.cache_ok (OCRAnalysis.last_known_state OCRAnalysis.init)).
  { repeat split; simpl; try lia. apply timer_shaped_zero. }
  split; [exact Hok|].
  destruct (snapshot_time_always_parses Sample.read None None (Some "t 12:34")
              OCRAnalysis.init Hok) as (minutes & seconds & _ & _ & Hrange).
  exact Hrange.
Defined.

Lemma early_game_only_supply_witness :
  ReminderEngine.config (ReminderEngine.self (ReminderEngine.boot true))
  = ReminderEngine.default_config ∧
  (Spec.elapsed_seconds (Sample.state_at "02:00" "coop") < 180)%Z ∧
  snd (ReminderEngine.process_game_state Sample.clk Sample.delivers
         (Sample.state_at "02:00" "coop") (ReminderEngine.boot true))
  = snd (ReminderEngine.check_supply Sample.clk Sample.delivers ∅
           (ReminderEngine.boot true)).
Proof.
  assert (Ht : (Spec.elapsed_seconds (Sample.state_at "02:00" "coop") < 180)%Z)
    by (vm_compute; reflexivity).
  split; [reflexivity|]. split; [exact Ht|].
  destruct (early_game_only_supply Sample.clk Sample.delivers
              (Sample.state_at "02:00" "coop") (ReminderEngine.boot true)
              eq_refl Ht) as (_ & Hsnd & _).
  exact Hsnd.
Defined.

Lemma commander_tip_unknown_is_noop_witness :
  ("Artanis" ≠ "Raynor" ∧ "Artanis" ≠ "Kerrigan") ∧
  ReminderEngine.get_commander_tip Sample.clk Sample.delivers "Artanis" 0
    "early" (ReminderEngine.boot true)
  = (None, ReminderEngine.boot true).
Proof.
  assert (Hname : "Artanis" ≠ "Raynor" ∧ "Artanis" ≠ "Kerrigan")
    by (split; discriminate).
  split; [exact Hname|].
  exact (commander_tip_unknown_is_noop Sample.clk Sample.delivers "Artanis"
           "early" 0 (ReminderEngine.boot true) (or_introl Hname)).
Defined.

Lemma commander_tip_one_per_phase_witness :
  let first := ReminderEngine.get_commander_tip Sample.clk Sample.delivers
                 "Raynor" 0 "early" (ReminderEngine.boot true) in
  fst first
  = Some "Focus on orbital command calldowns for early aggression" ∧
  fst (ReminderEngine.get_commander_tip Sample.clk Sample.delivers
         "Kerrigan" 3 "early" (snd first))
  = None.
Proof.
  intros first.
  assert (Hfst : fst first
                 = Some "Focus on orbital command calldowns for early aggression")
    by (vm_compute; reflexivity).
  split; [exact Hfst|].
  destruct (commander_tip_one_per_phase Sample.clk Sample.delivers
              "Raynor" "Kerrigan" "early" 0 3 (ReminderEngine.boot true)
              (snd first) _ Hfst) as (Hnone & _).
  - split; reflexivity.
  - vm_compute. reflexivity.
  - exact Hnone.
Defined.


Lemma supply_flag_between_engine_tiers_witness :
  let snapshot :=
    fst (OCRAnalysis.get_game_state Sample.read None (Some "190/200") None
           OCRAnalysis.init) in
  ReminderEngine.config (ReminderEngine.self (ReminderEngine.boot true))
  = ReminderEngine.default_config ∧
  ("supply_block" ∈ OCRAnalysis.State.warnings snapshot
   ↔ OCRAnalysis.detect_supply_block (OCRAnalysis.State.supply snapshot) 0.9
     = true).
Proof.
  intros snapshot. split; [reflexivity|].
  destruct (supply_flag_between_engine_tiers Sample.read Sample.clk
              Sample.delivers None (Some "190/200") None OCRAnalysis.init
              (ReminderEngine.boot true) eq_refl) as (Hflag & _).
  exact Hflag.
Defined.

Lemma overflow_flags_agree_with_engine_witness :
  let snapshot :=
    fst (OCRAnalysis.get_game_state Sample.read (Some "1500 800") None None
           OCRAnalysis.init) in
  ReminderEngine.config (ReminderEngine.self (ReminderEngine.boot true))
  = ReminderEngine.default_config ∧
  OCRAnalysis.State.warnings snapshot = ["minerals_overflow"].
Proof.
  intros snapshot. split; [reflexivity|].
  destruct (overflow_flags_agree_with_engine Sample.read Sample.clk
              Sample.delivers (Some "1500 800") None None OCRAnalysis.init
              200 (ReminderEngine.boot true) eq_refl) as (Hwarnings & _).
  fold snapshot in Hwarnings. rewrite Hwarnings. vm_compute. reflexivity.
Defined.

Lemma blind_loop_stays_silent_witness :
  let grab : nat → ScreenCapture.Region.t → option string := λ _ _, None in
  (∀ k, grab k (ScreenCapture.Region.mk 10 10 300 50) = None) ∧
  Main.ocr_analysis
    (Main.loop grab Sample.read Sample.clk Sample.delivers 3
       (Main.startup (ScreenCapture.Region.mk 0 0 1920 1080)))
  = OCRAnalysis.init.
Proof.
  intros grab.
  assert (Hblind : ∀ k, grab k (ScreenCapture.Region.mk 10 10 300 50) = None)
    by (intros k; reflexivity).
  split; [exact Hblind|].
  destruct (blind_loop_stays_silent grab Sample.read Sample.clk Sample.delivers
              (ScreenCapture.Region.mk 0 0 1920 1080) 3 Hblind) as (Hocr & _).
  exact Hocr.
Defined.

Lemma pass_without_timer_checks_supply_only_witness :
  let grab : nat → ScreenCapture.Region.t → option string :=
    λ k _, if decide (k = 0) then Some "1500 800 190/200" else None in
  let app := Main.startup (ScreenCapture.Region.mk 0 0 1920 1080) in
  let c1 := ScreenCapture.capture_named_region grab "resources"
              (Main.screen_capture app) in
  let c2 := ScreenCapture.capture_named_region grab "timer" (snd c1) in
  fst c1 = Some "1500 800 190/200" ∧ fst c2 = None ∧
  ∃ state reminders,
    fst (Main.loop_body grab Sample.read Sample.clk Sample.delivers app)
    = Some (state, reminders) ∧
    OCRAnalysis.State.game_time state = "00:00".
Proof.
  intros grab app c1 c2.
  assert (H1 : fst c1 = Some "1500 800 190/200") by (vm_compute; reflexivity).
  assert (H2 : fst c2 = None) by (vm_compute; reflexivity).
  split; [exact H1|]. split; [exact H2|].
  destruct (pass_without_timer_checks_supply_only grab Sample.read Sample.clk
              Sample.delivers app "1500 800 190/200" eq_refl H1 H2)
    as (state & reminders & Hfst & Htime & _).
  exists state, reminders. split; [exact Hfst|exact Htime].
Defined.

